(** * LLM context rewriter (models/context_processors/llm_rewriter.py)

    A shallow embedding of the two context processors [LLMRewriter] and
    [LLMRewriterWithTitle], followed by the properties of their
    [_process] methods.

    Python values are modelled as follows.
    - [str] is [string]; a character is a code point below 256.
    - [int] is [Z]; list indices produced by [enumerate] are [nat].
    - a list is a [list]; [l[i]] is stdpp's [l !! i], with [IndexError]
      written out where the index is out of range.
    - an exception is a value of [exn]; a computation that may raise
      returns a [result].
    - the generation collaborator is an object of the world: it has a
      mutable [max_new_tokens], a private state, and a [generate] method
      that may change that state, return texts or raise.  Every call of
      [generate] is recorded in the world, in order. *)

From Stdlib Require Import ZArith String Ascii DecimalString.
From stdpp Require Import base list strings.

Local Open Scope Z_scope.

(** ** Exceptions and results *)

(** [Exception cls] is an instance of a subclass of Python's [Exception]
    (the ones [except Exception] catches); [BaseException cls] is an
    instance of a class that derives from [BaseException] only, such as
    [KeyboardInterrupt] or [SystemExit]. *)
Inductive exn : Type :=
| Exception (cls : string)
| BaseException (cls : string).

Definition ValueError : exn := Exception "ValueError".
Definition IndexError : exn := Exception "IndexError".
Definition KeyError : exn := Exception "KeyError".
Definition AttributeError : exn := Exception "AttributeError".
Definition KeyboardInterrupt : exn := BaseException "KeyboardInterrupt".

Definition is_Exception (e : exn) : bool :=
  match e with
  | Exception _ => true
  | BaseException _ => false
  end.

Inductive result (A : Type) : Type :=
| Returned (a : A)
| Raised (e : exn).
Arguments Returned {A} a.
Arguments Raised {A} e.

Definition rbind {A B} (r : result A) (k : A -> result B) : result B :=
  match r with
  | Returned a => k a
  | Raised e => Raised e
  end.

(** ** Python strings *)

Module PyStr.

Local Open Scope string_scope.

(** [str.isspace] on the code points below 256: TAB, LF, VT, FF, CR,
    FS, GS, RS, US, SPACE, NEL and NBSP. *)
Definition is_space (c : ascii) : bool :=
  let n := nat_of_ascii c in
  ((9 <=? n)%nat && (n <=? 13)%nat)
  || ((28 <=? n)%nat && (n <=? 32)%nat)
  || (n =? 133)%nat
  || (n =? 160)%nat.

Fixpoint lstrip (s : string) : string :=
  match s with
  | EmptyString => EmptyString
  | String c s' => if is_space c then lstrip s' else s
  end.

Fixpoint rstrip (s : string) : string :=
  match s with
  | EmptyString => EmptyString
  | String c s' =>
      match rstrip s' with
      | EmptyString => if is_space c then EmptyString else String c EmptyString
      | r => String c r
      end
  end.

(** [s.strip()] *)
Definition strip (s : string) : string := rstrip (lstrip s).

(** Empty or made of whitespace only. *)
Fixpoint is_blank (s : string) : bool :=
  match s with
  | EmptyString => true
  | String c s' => is_space c && is_blank s'
  end.

(** [len(s)] *)
Definition len (s : string) : Z := Z.of_nat (String.length s).

(** The line feed, written [\n] in the source. *)
Definition nl : string := String (ascii_of_nat 10) EmptyString.

(** [sep.join(l)] *)
Fixpoint join (sep : string) (l : list string) : string :=
  match l with
  | [] => ""
  | [x] => x
  | x :: l' => x ++ sep ++ join sep l'
  end.

(** [s.replace(a, b)] for one-character [a] and [b]. *)
Fixpoint replace (a b : ascii) (s : string) : string :=
  match s with
  | EmptyString => EmptyString
  | String c s' => String (if Ascii.eqb c a then b else c) (replace a b s')
  end.

(** [str(n)] for a natural number. *)
Definition of_nat (n : nat) : string := NilEmpty.string_of_uint (Nat.to_uint n).

Fixpoint drop (n : nat) (s : string) : string :=
  match n, s with
  | O, _ => s
  | S n', String _ s' => drop n' s'
  | S _, EmptyString => EmptyString
  end.

(** [s.split(sep, 1)] for a non-empty [sep]: the text before and after
    the first occurrence of [sep], or [s] alone when there is none. *)
Fixpoint split1 (sep s : string) : list string :=
  if String.prefix sep s then [""; drop (String.length sep) s]
  else match s with
       | EmptyString => [s]
       | String c s' =>
           match split1 sep s' with
           | [before; after] => [String c before; after]
           | _ => [s]
           end
       end.

(** The value of keyword argument [name] in a call of [str.format]. *)
Fixpoint kwarg (name : string) (kwargs : list (string * string)) : option string :=
  match kwargs with
  | [] => None
  | (k, v) :: kwargs' => if String.eqb k name then Some v else kwarg name kwargs'
  end.

Definition is_digit (c : ascii) : bool :=
  let n := nat_of_ascii c in (48 <=? n)%nat && (n <=? 57)%nat.

Fixpoint all_digits (s : string) : bool :=
  match s with
  | EmptyString => true
  | String c s' => is_digit c && all_digits s'
  end.

(** The text a replacement field [{name}] stands for.  No positional
    argument is ever passed, so an empty or numeric field raises
    [IndexError]; a name that is not a keyword raises [KeyError]. *)
Definition field_value (name : string) (kwargs : list (string * string)) : result string :=
  if all_digits name then Raised IndexError
  else match kwarg name kwargs with
       | Some v => Returned v
       | None => Raised KeyError
       end.

(** [template.format] with keyword arguments, on the fragment of format strings made
    of literal text, the escapes [{{] and [}}], and replacement fields
    [{name}] (conversions, format specifications, attribute and index
    access inside a field are outside the fragment).  [field] is the
    name of the field being read, if any; [out] the text produced so
    far. *)
Fixpoint format_from (s : string) (field : option string) (out : string)
         (kwargs : list (string * string)) : result string :=
  match field, s with
  | None, EmptyString => Returned out
  | None, String "{" (String "{" rest) => format_from rest None (out ++ "{") kwargs
  | None, String "{" rest => format_from rest (Some "") out kwargs
  | None, String "}" (String "}" rest) => format_from rest None (out ++ "}") kwargs
  | None, String "}" _ => Raised ValueError
  | None, String c rest => format_from rest None (out ++ String c "") kwargs
  | Some name, EmptyString => Raised ValueError
  | Some name, String "}" rest =>
      rbind (field_value name kwargs)
            (fun v => format_from rest None (out ++ v) kwargs)
  | Some name, String "{" _ => Raised ValueError
  | Some name, String c rest => format_from rest (Some (name ++ String c "")) out kwargs
  end.

Definition format (template : string) (kwargs : list (string * string)) : result string :=
  format_from template None "" kwargs.

End PyStr.

(** ** Python built-ins on lists *)

Module Py.

(** [enumerate(l)] *)
Definition enumerate {A} (l : list A) : list (nat * A) :=
  zip (seq 0 (length l)) l.

(** [l[i]] *)
Definition getitem {A} (l : list A) (i : nat) : result A :=
  match l !! i with
  | Some x => Returned x
  | None => Raised IndexError
  end.

(** [l[a:b]] for [0 <= a] and [0 <= b]. *)
Definition slice {A} (l : list A) (a b : Z) : list A :=
  take (Z.to_nat b - Z.to_nat a) (drop (Z.to_nat a) l).

(** [len(range(start, stop, step))] for [step <> 0]. *)
Definition range_length (start stop step : Z) : Z :=
  if 0 <? step then
    (if start <? stop then (stop - start - 1) / step + 1 else 0)
  else
    (if stop <? start then (start - stop - 1) / (- step) + 1 else 0).

(** [range(start, stop, step)], which raises [ValueError] when [step]
    is zero. *)
Definition range (start stop step : Z) : result (list Z) :=
  if step =? 0 then Raised ValueError
  else Returned (map (fun k : nat => start + Z.of_nat k * step)
                     (seq 0 (Z.to_nat (range_length start stop step)))).

(** [rows[q][d] = v] *)
Definition setitem2 {A} (rows : list (list A)) (q d : nat) (v : A) : result (list (list A)) :=
  match rows !! q with
  | None => Raised IndexError
  | Some row =>
      if decide (d < length row)%nat then Returned (<[q := <[d := v]> row]> rows)
      else Raised IndexError
  end.

(** [rows[q][d]] *)
Definition getitem2 {A} (rows : list (list A)) (q d : nat) : result A :=
  rbind (getitem rows q) (fun row => getitem row d).

End Py.

(** ** Computations over a world *)

(** A computation reads and changes a world of type [W], and returns a
    value or raises.  What it did to the world before raising stays
    done. *)
Definition M (W A : Type) : Type := W -> result A * W.

Definition ret {W A} (a : A) : M W A := fun w => (Returned a, w).

Definition raise {W A} (e : exn) : M W A := fun w => (Raised e, w).

Definition bind {W A B} (c : M W A) (k : A -> M W B) : M W B :=
  fun w =>
    match c w with
    | (Returned a, w') => k a w'
    | (Raised e, w') => (Raised e, w')
    end.

Definition lift {W A} (r : result A) : M W A := fun w => (r, w).

Notation "x <- c ;; k" := (bind c (fun x => k))
  (at level 20, c at level 99, k at level 200, only parsing).
Notation "' pat <- c ;; k" := (bind c (fun x => match x with pat => k end))
  (at level 20, pat pattern, c at level 99, k at level 200, only parsing).
Notation "x <~ c ;; k" := (rbind c (fun x => k))
  (at level 20, c at level 99, k at level 200, only parsing).

(** [for x in xs: body], where [s] holds the local variables the body
    assigns. *)
Fixpoint for_ {W X S} (xs : list X) (body : X -> S -> M W S) (s : S) : M W S :=
  match xs with
  | [] => ret s
  | x :: xs' => s' <- body x s ;; for_ xs' body s'
  end.

(** [try: body / except Exception as e: handler] *)
Definition try_except_Exception {W A} (body : M W A) (handler : exn -> M W A) : M W A :=
  fun w =>
    match body w with
    | (Raised e, w') => if is_Exception e then handler e w' else (Raised e, w')
    | (Returned a, w') => (Returned a, w')
    end.

(** [try: body / except: handler] (a bare [except] catches everything) *)
Definition try_except {A} (body : result A) (handler : result A) : result A :=
  match body with
  | Raised _ => handler
  | Returned a => Returned a
  end.

(** ** The generation collaborator *)

Module Generator.

(** The attributes of the generator object that the rewriters touch,
    and the rest of the object as [state]. *)
Record t (GS : Type) : Type :=
  { model_name : string;
    max_new_tokens : Z;
    state : GS }.
Arguments model_name {GS} _.
Arguments max_new_tokens {GS} _.
Arguments state {GS} _.

Definition with_max_new_tokens {GS} (v : Z) (g : t GS) : t GS :=
  {| model_name := model_name g; max_new_tokens := v; state := state g |}.

End Generator.

(** One call of [generator.generate]: the prompts it received and what
    came back. *)
Record Call : Type :=
  { call_prompts : list string;
    call_outcome : result (list string) }.

(** The world: the generator object shared with the rest of the
    pipeline, and the calls of [generate] made so far. *)
Record World (GS : Type) : Type :=
  { generator : Generator.t GS;
    calls : list Call }.
Arguments generator {GS} _.
Arguments calls {GS} _.

(** The dictionary of metrics returned next to the contexts. *)
Definition metrics : Type := list (string * string).

Section Collaborator.

Context {GS : Type}.

(** [generator.generate(prompts)]: the method of the collaborator. *)
Variable generate : Generator.t GS -> list string -> result (list string) * Generator.t GS.

(** [self.generator.max_new_tokens] *)
Definition get_max_new_tokens : M (World GS) Z :=
  fun w => (Returned (Generator.max_new_tokens (generator w)), w).

(** The world after [generator.max_new_tokens = v]. *)
Definition with_max_new_tokens (v : Z) (w : World GS) : World GS :=
  {| generator := Generator.with_max_new_tokens v (generator w);
     calls := calls w |}.

(** [self.generator.max_new_tokens = v] *)
Definition set_max_new_tokens (v : Z) : M (World GS) unit :=
  fun w => (Returned tt, with_max_new_tokens v w).

(** [self.generator.generate(prompts)] *)
Definition call_generate (prompts : list string) : M (World GS) (list string) :=
  fun w =>
    let '(outcome, g) := generate (generator w) prompts in
    (outcome,
     {| generator := g;
        calls := calls w ++ [{| call_prompts := prompts; call_outcome := outcome |}] |}).

(** The batch loop, written three times in the source with the same
    statements (lines 96-121, 158-172 and 285-296):
<<
    for batch_start in range(0, len(all_prompts), self.batch_size):
        batch_prompts = all_prompts[batch_start:min(batch_start + self.batch_size, len(all_prompts))]
        try:
            generated = self.generator.generate(batch_prompts)
            rewritten.extend(generated)
        except Exception as e:
            rewritten.extend(["" for _ in batch_prompts])
>>
    The progress bar, the unused [batch_dict], the counter
    [total_processed] and the printed message are left out. *)
Definition generate_in_batches (batch_size : Z) (all_prompts : list string)
  : M (World GS) (list string) :=
  starts <- lift (Py.range 0 (Z.of_nat (length all_prompts)) batch_size) ;;
  for_ starts
    (fun batch_start rewritten =>
       let batch_prompts :=
         Py.slice all_prompts batch_start
           (Z.min (batch_start + batch_size) (Z.of_nat (length all_prompts))) in
       try_except_Exception
         (generated <- call_generate batch_prompts ;;
          ret (rewritten ++ generated))
         (fun e => ret (rewritten ++ map (fun _ => ""%string) batch_prompts)))
    [].

End Collaborator.

(** ** LLMRewriter *)

Module LLMRewriter.

Definition default_rewrite_prompt_template : string :=
"Given the following query and passage, rewrite the passage to:
1. Remove redundant information
2. Highlight information relevant to the query
3. Integrate any relevant knowledge to make it more coherent
4. Keep the passage concise and focused

Query: {query}

Original Passage: {passage}

Rewritten Passage:".

(** The attributes of an [LLMRewriter]; [self.generator] is the
    generator object of the world. *)
Record t : Type :=
  { batch_size : Z;
    max_new_tokens : Z;
    process_separately : bool;
    concatenate_original : bool;
    name : string;
    rewrite_prompt_template : string;
    predefined_context_processing_metrics : list string }.

Section Methods.

Context {GS : Type}.
Variable generate : Generator.t GS -> list string -> result (list string) * Generator.t GS.

(** [LLMRewriter.__init__].  [None] for [generator] and for
    [rewrite_prompt_template] is Python's [None], the default of
    both parameters.  The initialiser of the base class
    [ContextProcessor] is taken to return normally. *)
Definition __init__ (generator : option (Generator.t GS))
           (batch_size max_new_tokens : Z)
           (rewrite_prompt_template : option string)
           (process_separately concatenate_original : bool) : result t :=
  match generator with
  | None => Raised AttributeError
  | Some g =>
      Returned
        {| batch_size := batch_size;
           max_new_tokens := max_new_tokens;
           process_separately := process_separately;
           concatenate_original := concatenate_original;
           name := "llm_rewriter_" +:+ PyStr.replace "/" "_" (Generator.model_name g);
           rewrite_prompt_template :=
             match rewrite_prompt_template with
             | None => default_rewrite_prompt_template
             | Some template => template
             end;
           predefined_context_processing_metrics := ["context_compression"%string] |}
  end.

(** Lines 84-93: one prompt for every document that is not blank,
    with the place it came from. *)
Definition collect_prompts (self : t) (contexts : list (list string)) (queries : list string)
  : M (World GS) (list string * list (nat * nat)) :=
  for_ (Py.enumerate (zip queries contexts))
    (fun '(query_idx, (query, docs)) acc =>
       for_ (Py.enumerate docs)
         (fun '(doc_idx, doc) '(all_prompts, query_doc_mapping) =>
            if PyStr.len (PyStr.strip doc) =? 0 then
              ret (all_prompts, query_doc_mapping)
            else
              prompt <- lift (PyStr.format (rewrite_prompt_template self)
                                [("query", query); ("passage", doc)]%string) ;;
              ret (all_prompts ++ [prompt], query_doc_mapping ++ [(query_idx, doc_idx)]))
         acc)
    ([], []).

(** Lines 124-139: the nested structure is rebuilt, each rewritten
    passage concatenated to or put in place of its original. *)
Definition reconstruct (self : t) (contexts : list (list string))
           (query_doc_mapping : list (nat * nat)) (rewritten_passages : list string)
  : M (World GS) (list (list string)) :=
  let rewritten_contexts := map (fun docs : list string => replicate (length docs) ""%string) contexts in
  for_ (Py.enumerate query_doc_mapping)
    (fun '(passage_idx, (query_idx, doc_idx)) rewritten_contexts =>
       original_text <- lift (Py.getitem2 contexts query_idx doc_idx) ;;
       rewritten_passage <- lift (Py.getitem rewritten_passages passage_idx) ;;
       let rewritten_text := PyStr.strip rewritten_passage in
       if 0 <? PyStr.len rewritten_text then
         if concatenate_original self then
           let concatenated :=
             original_text +:+ PyStr.nl +:+ PyStr.nl +:+ "Refined version: " +:+ rewritten_text in
           lift (Py.setitem2 rewritten_contexts query_idx doc_idx concatenated)
         else
           lift (Py.setitem2 rewritten_contexts query_idx doc_idx rewritten_text)
       else
         lift (Py.setitem2 rewritten_contexts query_idx doc_idx original_text))
    rewritten_contexts.

(** Lines 141-145: the entries still empty get the original text. *)
Definition fill_in (contexts rewritten_contexts : list (list string))
  : M (World GS) (list (list string)) :=
  for_ (Py.enumerate contexts)
    (fun '(query_idx, docs) rewritten_contexts =>
       for_ (Py.enumerate docs)
         (fun '(doc_idx, doc) rewritten_contexts =>
            current <- lift (Py.getitem2 rewritten_contexts query_idx doc_idx) ;;
            if String.eqb current "" then
              original <- lift (Py.getitem docs doc_idx) ;;
              lift (Py.setitem2 rewritten_contexts query_idx doc_idx original)
            else ret rewritten_contexts)
         rewritten_contexts)
    rewritten_contexts.

(** Lines 149-155: one prompt for every query, over the labeled
    documents that are not blank. *)
Definition combined_prompts (self : t) (contexts : list (list string)) (queries : list string)
  : M (World GS) (list string) :=
  for_ (zip queries contexts)
    (fun '(query, docs) all_prompts =>
       let combined_passage :=
         PyStr.join (PyStr.nl +:+ PyStr.nl)
           (map (fun '(i, doc) => "Passage " +:+ PyStr.of_nat (i + 1) +:+ ": " +:+ doc)
                (List.filter (fun '(i, doc) => 0 <? PyStr.len (PyStr.strip doc))
                             (Py.enumerate docs))) in
       prompt <- lift (PyStr.format (rewrite_prompt_template self)
                         [("query", query); ("passage", combined_passage)]%string) ;;
       ret (all_prompts ++ [prompt]))
    [].

(** Lines 175-188: one entry for a query that was rewritten, its
    documents as they were otherwise. *)
Definition combine_results (self : t) (contexts : list (list string))
           (rewritten_combined : list string)
  : M (World GS) (list (list string)) :=
  for_ (Py.enumerate rewritten_combined)
    (fun '(query_idx, rewritten) rewritten_contexts =>
       if 0 <? PyStr.len (PyStr.strip rewritten) then
         if concatenate_original self then
           docs <- lift (Py.getitem contexts query_idx) ;;
           let original_combined :=
             PyStr.join (PyStr.nl +:+ PyStr.nl)
               (map (fun '(i, doc) => "Document " +:+ PyStr.of_nat (i + 1) +:+ ": " +:+ doc)
                    (List.filter (fun '(i, doc) => 0 <? PyStr.len (PyStr.strip doc))
                                 (Py.enumerate docs))) in
           let concatenated :=
             original_combined +:+ PyStr.nl +:+ PyStr.nl +:+ "Refined version:"
               +:+ PyStr.nl +:+ rewritten in
           ret (rewritten_contexts ++ [[concatenated]])
         else
           ret (rewritten_contexts ++ [[rewritten]])
       else
         docs <- lift (Py.getitem contexts query_idx) ;;
         ret (rewritten_contexts ++ [docs]))
    [].

(** [LLMRewriter._process] *)
Definition _process (self : t) (contexts : list (list string)) (queries : list string)
  : M (World GS) (list (list string) * metrics) :=
  original_max_new_tokens <- get_max_new_tokens ;;
  _ <- set_max_new_tokens (max_new_tokens self) ;;
  rewritten_contexts <-
    (if process_separately self then
       '(all_prompts, query_doc_mapping) <- collect_prompts self contexts queries ;;
       rewritten_passages <- generate_in_batches generate (batch_size self) all_prompts ;;
       rewritten_contexts <- reconstruct self contexts query_doc_mapping rewritten_passages ;;
       fill_in contexts rewritten_contexts
     else
       all_prompts <- combined_prompts self contexts queries ;;
       rewritten_combined <- generate_in_batches generate (batch_size self) all_prompts ;;
       combine_results self contexts rewritten_combined) ;;
  _ <- set_max_new_tokens original_max_new_tokens ;;
  ret (rewritten_contexts, []).

(** *** Notions used in the statements about [LLMRewriter] *)

(** The template can be formatted with the slots [query] and
    [passage]. *)
Definition accepts_slots (template : string) : Prop :=
  forall query passage,
    exists prompt,
      PyStr.format template [("query", query); ("passage", passage)]%string
      = Returned prompt.

(** [prompt] is the prompt made for [passage] and [query]. *)
Definition prompt_for (self : t) (query passage prompt : string) : Prop :=
  PyStr.format (rewrite_prompt_template self)
               [("query", query); ("passage", passage)]%string
  = Returned prompt.

(** The text that lines 129-139 put in place of [original_text]
    when the generator answered [rewritten_passage]. *)
Definition rewritten_entry (self : t) (original_text rewritten_passage : string) : string :=
  let rewritten_text := PyStr.strip rewritten_passage in
  if 0 <? PyStr.len rewritten_text then
    if concatenate_original self then
      original_text +:+ PyStr.nl +:+ PyStr.nl +:+ "Refined version: " +:+ rewritten_text
    else rewritten_text
  else original_text.

(** The documents that are not blank, each under [label] and its
    rank, as lines 153 and 180 join them. *)
Definition labeled (label : string) (docs : list string) : string :=
  PyStr.join (PyStr.nl +:+ PyStr.nl)
    (map (fun '(i, doc) => label +:+ " " +:+ PyStr.of_nat (i + 1) +:+ ": " +:+ doc)
         (List.filter (fun '(i, doc) => 0 <? PyStr.len (PyStr.strip doc))
                      (Py.enumerate docs))).

(** The entry that lines 177-188 append for a query whose documents
    are [docs] and whose rewritten text is [rewritten]. *)
Definition combined_entry (self : t) (docs : list string) (rewritten : string)
  : list string :=
  if 0 <? PyStr.len (PyStr.strip rewritten) then
    if concatenate_original self then
      [labeled "Document" docs +:+ PyStr.nl +:+ PyStr.nl +:+ "Refined version:"
         +:+ PyStr.nl +:+ rewritten]
    else [rewritten]
  else docs.

End Methods.

End LLMRewriter.

(** ** LLMRewriterWithTitle *)

Module LLMRewriterWithTitle.

Definition default_rewrite_prompt_template : string :=
"Given the following query and passage with its title, rewrite ONLY the passage content to:
1. Remove redundant information
2. Highlight information relevant to the query
3. Integrate any relevant knowledge to make it more coherent
4. Keep the passage concise and focused

Do NOT include the title in your response, only output the rewritten content.

Query: {query}

Title: {title}

Original Content: {content}

Rewritten Content:".

Record t : Type :=
  { batch_size : Z;
    max_new_tokens : Z;
    concatenate_original : bool;
    name : string;
    rewrite_prompt_template : string;
    predefined_context_processing_metrics : list string }.

Section Methods.

Context {GS : Type}.
Variable generate : Generator.t GS -> list string -> result (list string) * Generator.t GS.

(** [nltk.sent_tokenize], the sentence segmentation of an external
    library: it returns the sentences of a text, or raises.  The
    import of the library is taken to succeed. *)
Variable sent_tokenize : string -> result (list string).

(** [LLMRewriterWithTitle.__init__] *)
Definition __init__ (generator : option (Generator.t GS))
           (batch_size max_new_tokens : Z)
           (rewrite_prompt_template : option string)
           (concatenate_original : bool) : result t :=
  match generator with
  | None => Raised AttributeError
  | Some g =>
      Returned
        {| batch_size := batch_size;
           max_new_tokens := max_new_tokens;
           concatenate_original := concatenate_original;
           name := "llm_rewriter_title_" +:+ PyStr.replace "/" "_" (Generator.model_name g);
           rewrite_prompt_template :=
             match rewrite_prompt_template with
             | None => default_rewrite_prompt_template
             | Some template => template
             end;
           predefined_context_processing_metrics := ["context_compression"%string] |}
  end.

(** [LLMRewriterWithTitle._split_title_content] *)
Definition _split_title_content (doc : string) : result (string * string) :=
  try_except
    (sentences <~ sent_tokenize doc ;;
     if (0 <? length sentences)%nat then
       first <~ Py.getitem sentences 0 ;;
       Returned (first, PyStr.join " " (drop 1 sentences))
     else
       Returned (""%string, doc))
    (let parts := PyStr.split1 ". " doc in
     if (length parts =? 2)%nat then
       before <~ Py.getitem parts 0 ;;
       after <~ Py.getitem parts 1 ;;
       Returned (before +:+ ".", after)
     else
       Returned (""%string, doc)).

(** Lines 264-282: one prompt for every document that is not blank,
    with its title and the place it came from. *)
Definition collect_prompts (self : t) (contexts : list (list string)) (queries : list string)
  : M (World GS) (list string * list (nat * nat) * list string) :=
  for_ (Py.enumerate (zip queries contexts))
    (fun '(query_idx, (query, docs)) acc =>
       for_ (Py.enumerate docs)
         (fun '(doc_idx, doc) '(all_prompts, query_doc_mapping, titles) =>
            if PyStr.len (PyStr.strip doc) =? 0 then
              ret (all_prompts, query_doc_mapping, titles)
            else
              '(title, content) <- lift (_split_title_content doc) ;;
              prompt <- lift (PyStr.format (rewrite_prompt_template self)
                                [("query", query); ("title", title); ("content", content)]%string) ;;
              ret (all_prompts ++ [prompt],
                   query_doc_mapping ++ [(query_idx, doc_idx)],
                   titles ++ [title]))
         acc)
    ([], [], []).

(** Lines 299-316: the nested structure is rebuilt, each rewritten
    content under its title. *)
Definition reconstruct (self : t) (contexts : list (list string))
           (query_doc_mapping : list (nat * nat)) (titles : list string)
           (rewritten_contents : list string)
  : M (World GS) (list (list string)) :=
  let rewritten_contexts := map (fun docs : list string => replicate (length docs) ""%string) contexts in
  for_ (Py.enumerate query_doc_mapping)
    (fun '(passage_idx, (query_idx, doc_idx)) rewritten_contexts =>
       original_text <- lift (Py.getitem2 contexts query_idx doc_idx) ;;
       rewritten_content <- lift (Py.getitem rewritten_contents passage_idx) ;;
       let rewritten_text := PyStr.strip rewritten_content in
       title <- lift (Py.getitem titles passage_idx) ;;
       if PyStr.len rewritten_text =? 0 then
         lift (Py.setitem2 rewritten_contexts query_idx doc_idx original_text)
       else
         let rewritten_with_title := title +:+ " " +:+ rewritten_text in
         if concatenate_original self then
           let concatenated :=
             original_text +:+ PyStr.nl +:+ PyStr.nl +:+ "Refined version: "
               +:+ rewritten_with_title in
           lift (Py.setitem2 rewritten_contexts query_idx doc_idx concatenated)
         else
           lift (Py.setitem2 rewritten_contexts query_idx doc_idx rewritten_with_title))
    rewritten_contexts.

(** Lines 318-322: the entries still empty get the original text. *)
Definition fill_in (contexts rewritten_contexts : list (list string))
  : M (World GS) (list (list string)) :=
  for_ (Py.enumerate contexts)
    (fun '(query_idx, docs) rewritten_contexts =>
       for_ (Py.enumerate docs)
         (fun '(doc_idx, doc) rewritten_contexts =>
            current <- lift (Py.getitem2 rewritten_contexts query_idx doc_idx) ;;
            if String.eqb current "" then
              lift (Py.setitem2 rewritten_contexts query_idx doc_idx doc)
            else ret rewritten_contexts)
         rewritten_contexts)
    rewritten_contexts.

(** [LLMRewriterWithTitle._process] *)
Definition _process (self : t) (contexts : list (list string)) (queries : list string)
  : M (World GS) (list (list string) * metrics) :=
  original_max_new_tokens <- get_max_new_tokens ;;
  _ <- set_max_new_tokens (max_new_tokens self) ;;
  '(all_prompts, query_doc_mapping, titles) <- collect_prompts self contexts queries ;;
  rewritten_contents <- generate_in_batches generate (batch_size self) all_prompts ;;
  rewritten_contexts <- reconstruct self contexts query_doc_mapping titles rewritten_contents ;;
  rewritten_contexts <- fill_in contexts rewritten_contexts ;;
  _ <- set_max_new_tokens original_max_new_tokens ;;
  ret (rewritten_contexts, []).

(** *** Notions used in the statements about [LLMRewriterWithTitle] *)

(** The template can be formatted with the slots [query], [title]
    and [content]. *)
Definition accepts_slots (template : string) : Prop :=
  forall query title content,
    exists prompt,
      PyStr.format template
                   [("query", query); ("title", title); ("content", content)]%string
      = Returned prompt.

(** [prompt] is the prompt made for [doc] and [query]. *)
Definition prompt_for (self : t) (query doc prompt : string) : Prop :=
  exists title content,
    _split_title_content doc = Returned (title, content)
    /\ PyStr.format (rewrite_prompt_template self)
                    [("query", query); ("title", title); ("content", content)]%string
       = Returned prompt.

(** [title] is the title kept for [doc]. *)
Definition title_for (query doc title : string) : Prop :=
  exists content, _split_title_content doc = Returned (title, content).

(** The text that lines 305-316 put in place of [original_text]
    when the generator answered [rewritten_content]. *)
Definition rewritten_entry (self : t) (original_text title rewritten_content : string)
  : string :=
  let rewritten_text := PyStr.strip rewritten_content in
  if PyStr.len rewritten_text =? 0 then original_text
  else
    let rewritten_with_title := title +:+ " " +:+ rewritten_text in
    if concatenate_original self then
      original_text +:+ PyStr.nl +:+ PyStr.nl +:+ "Refined version: " +:+ rewritten_with_title
    else rewritten_with_title.

End Methods.

End LLMRewriterWithTitle.

(** ** Generators and inputs used in the examples *)

Module Examples.

(** The mock generator of the fourth test of [test_llm_rewriter.py]:
    every prompt is answered by the same text. *)
Definition mock_generate (g : Generator.t unit) (prompts : list string)
  : result (list string) * Generator.t unit :=
  (Returned (map (fun _ => "Rewritten text"%string) prompts), g).

Definition mock_generator : Generator.t unit :=
  {| Generator.model_name := "mock-llm"; Generator.max_new_tokens := 100; Generator.state := tt |}.

Definition mock_world : World unit := {| generator := mock_generator; calls := [] |}.

Definition queries1 : list string := ["Q"%string].
Definition contexts1 : list (list string) := [["Doc A"; "Doc B"]%string].

Definition rewriter (batch_size : Z) (process_separately concatenate_original : bool)
  : LLMRewriter.t :=
  {| LLMRewriter.batch_size := batch_size;
     LLMRewriter.max_new_tokens := 50;
     LLMRewriter.process_separately := process_separately;
     LLMRewriter.concatenate_original := concatenate_original;
     LLMRewriter.name := "llm_rewriter_mock-llm";
     LLMRewriter.rewrite_prompt_template := "Rewrite {passage} for {query}:";
     LLMRewriter.predefined_context_processing_metrics := ["context_compression"%string] |}.

(** A template with a slot that [_process] does not fill. *)
Definition rewriter_with_unknown_slot : LLMRewriter.t :=
  {| LLMRewriter.batch_size := 1;
     LLMRewriter.max_new_tokens := 50;
     LLMRewriter.process_separately := true;
     LLMRewriter.concatenate_original := true;
     LLMRewriter.name := "llm_rewriter_mock-llm";
     LLMRewriter.rewrite_prompt_template := "Summarise {document} for {query}:";
     LLMRewriter.predefined_context_processing_metrics := ["context_compression"%string] |}.

Definition title_rewriter (batch_size : Z) (concatenate_original : bool)
  : LLMRewriterWithTitle.t :=
  {| LLMRewriterWithTitle.batch_size := batch_size;
     LLMRewriterWithTitle.max_new_tokens := 50;
     LLMRewriterWithTitle.concatenate_original := concatenate_original;
     LLMRewriterWithTitle.name := "llm_rewriter_title_mock-llm";
     LLMRewriterWithTitle.rewrite_prompt_template :=
       "Rewrite {content} under {title} for {query}:";
     LLMRewriterWithTitle.predefined_context_processing_metrics :=
       ["context_compression"%string] |}.

(** A generator that raises on its first call and answers afterwards;
    its state counts the calls. *)
Definition flaky_generate (g : Generator.t nat) (prompts : list string)
  : result (list string) * Generator.t nat :=
  let g' := {| Generator.model_name := Generator.model_name g;
               Generator.max_new_tokens := Generator.max_new_tokens g;
               Generator.state := S (Generator.state g) |} in
  match Generator.state g with
  | O => (Raised (Exception "RuntimeError"), g')
  | S _ => (Returned (map (fun _ => "  Rewritten text "%string) prompts), g')
  end.

Definition flaky_world : World nat :=
  {| generator := {| Generator.model_name := "flaky-llm";
                     Generator.max_new_tokens := 100;
                     Generator.state := O |};
     calls := [] |}.

(** A generator stopped by the user while it generates. *)
Definition interrupted_generate (g : Generator.t unit) (prompts : list string)
  : result (list string) * Generator.t unit :=
  (Raised KeyboardInterrupt, g).

(** A generator that answers the first prompt of a batch only. *)
Definition short_generate (g : Generator.t unit) (prompts : list string)
  : result (list string) * Generator.t unit :=
  (Returned (take 1 (map (fun _ => "Rewritten text"%string) prompts)), g).

(** Sentence segmentations: one that cuts after the first full stop
    followed by a space, one that finds no sentence, one that raises. *)
Definition cut_at_full_stop (doc : string) : result (list string) :=
  match PyStr.split1 ". " doc with
  | [before; after] => Returned [before +:+ "."; after]
  | _ => Returned [doc]
  end.


Definition unavailable (doc : string) : result (list string) :=
  Raised (Exception "LookupError").

Definition capital : string :=
  "Capital city. Paris is the capital of France and a major hub.".

End Examples.


(** ** Notions used in the statements *)

(** [rows[q][d]], when there is such an entry. *)
Definition entry (rows : list (list string)) (q d : nat) : option string :=
  match rows !! q with
  | Some row => row !! d
  | None => None
  end.

(** The same number of rows, and the same number of entries in each. *)
Definition same_shape (a b : list (list string)) : Prop :=
  length <$> a = length <$> b.

(** The place [(q, d)] comes before the place [(i, j)] in the order of
    the two nested loops. *)
Definition before (i j q d : nat) : Prop :=
  (q < i)%nat \/ (q = i /\ (d < j)%nat).

(** [items] and [mapping] are what the two nested loops over the
    queries and their documents have collected when they reach document
    [j] of query [i]: one item for every document before that place
    that is not blank, in order, [R query doc item] relating the item
    to the query and the document it was made from. *)
Definition collected {X} (R : string -> string -> X -> Prop)
           (queries : list string) (contexts : list (list string))
           (i j : nat) (items : list X) (mapping : list (nat * nat)) : Prop :=
  length items = length mapping
  /\ NoDup mapping
  /\ (forall k q d, mapping !! k = Some (q, d) ->
        before i j q d
        /\ exists query docs doc item,
            queries !! q = Some query /\ contexts !! q = Some docs /\ docs !! d = Some doc
            /\ PyStr.strip doc <> ""%string
            /\ R query doc item /\ items !! k = Some item)
  /\ (forall q d query docs doc,
        before i j q d ->
        queries !! q = Some query -> contexts !! q = Some docs -> docs !! d = Some doc ->
        PyStr.strip doc <> ""%string ->
        (q, d) ∈ mapping).

(** The same when both loops are over. *)
Definition collected_all {X} (R : string -> string -> X -> Prop)
           (queries : list string) (contexts : list (list string))
           (items : list X) (mapping : list (nat * nat)) : Prop :=
  length items = length mapping
  /\ NoDup mapping
  /\ (forall k q d, mapping !! k = Some (q, d) ->
        exists query docs doc item,
          queries !! q = Some query /\ contexts !! q = Some docs /\ docs !! d = Some doc
          /\ PyStr.strip doc <> ""%string
          /\ R query doc item /\ items !! k = Some item)
  /\ (forall q d query docs doc,
        queries !! q = Some query -> contexts !! q = Some docs -> docs !! d = Some doc ->
        PyStr.strip doc <> ""%string ->
        (q, d) ∈ mapping).

Section Notions.

Context {GS : Type}.
Variable generate : Generator.t GS -> list string -> result (list string) * Generator.t GS.

(** The contract of the collaborator: a call of [generate] returns
    one text for every prompt, or raises an [Exception]. *)
Definition respects_contract : Prop :=
  forall g prompts,
    match generate g prompts with
    | (Returned outs, _) => length outs = length prompts
    | (Raised e, _) => is_Exception e = true
    end.

(** What the batch loop keeps of a call: the texts returned, or one
    empty text for every prompt when the call raised. *)
Definition replies (c : Call) : list string :=
  match call_outcome c with
  | Returned outs => outs
  | Raised _ => map (fun _ => ""%string) (call_prompts c)
  end.

(** [rewritten] and the world [w'] are what the batch loop leaves when
    it is run on [prompts] from the world [w] with batches of [B]. *)
Definition batches_done (B : nat) (prompts : list string) (w w' : World GS)
           (rewritten : list string) : Prop :=
  exists new : list Call,
    calls w' = calls w ++ new
    /\ Z.of_nat (length new) = (Z.of_nat (length prompts) + Z.of_nat B - 1) / Z.of_nat B
    /\ (forall b c, new !! b = Some c ->
          call_prompts c = take B (drop (b * B) prompts)
          /\ call_prompts c <> []
          /\ exists g, call_outcome c = fst (generate g (call_prompts c)))
    /\ concat (call_prompts <$> new) = prompts
    /\ rewritten = concat (replies <$> new)
    /\ length rewritten = length prompts
    /\ (forall b c j, new !! b = Some c -> (j < length (call_prompts c))%nat ->
          rewritten !! (b * B + j)%nat = replies c !! j
          /\ prompts !! (b * B + j)%nat = call_prompts c !! j).

End Notions.

(** ** Notions used in the further statements *)


(** A generator that leaves its own [max_new_tokens] alone. *)
Definition keeps_max_new_tokens {GS}
           (generate : Generator.t GS -> list string -> result (list string) * Generator.t GS)
  : Prop :=
  forall g prompts,
    Generator.max_new_tokens (snd (generate g prompts)) = Generator.max_new_tokens g.

(** No character of [s] is [c]. *)
Fixpoint without (c : ascii) (s : string) : bool :=
  match s with
  | EmptyString => true
  | String c' s' => negb (Ascii.eqb c' c) && without c s'
  end.

(** A generator that answers every prompt on its own, by [f], and
    keeps no state. *)
Definition answers_each_prompt {GS}
           (generate : Generator.t GS -> list string -> result (list string) * Generator.t GS)
           (f : string -> string) : Prop :=
  forall g prompts, generate g prompts = (Returned (map f prompts), g).

(** The same rewriter with another batch size. *)
Definition with_batch_size (batch_size : Z) (self : LLMRewriter.t) : LLMRewriter.t :=
  {| LLMRewriter.batch_size := batch_size;
     LLMRewriter.max_new_tokens := LLMRewriter.max_new_tokens self;
     LLMRewriter.process_separately := LLMRewriter.process_separately self;
     LLMRewriter.concatenate_original := LLMRewriter.concatenate_original self;
     LLMRewriter.name := LLMRewriter.name self;
     LLMRewriter.rewrite_prompt_template := LLMRewriter.rewrite_prompt_template self;
     LLMRewriter.predefined_context_processing_metrics :=
       LLMRewriter.predefined_context_processing_metrics self |}.

(** ** The mock generator of test_llm_rewriter.py *)

Module TestLLMRewriter.

(** [MockGenerator.generate] of [test_rewriter_simple], which answers
    every prompt by its first hundred characters between a mark and
    three full stops. *)
Definition generate (g : Generator.t unit) (prompts : list string)
  : result (list string) * Generator.t unit :=
  (Returned (map (fun prompt => "[REWRITTEN] " +:+ String.substring 0 100 prompt +:+ "...")
                 prompts),
   g).

(** [MockGenerator()] *)
Definition generator : Generator.t unit :=
  {| Generator.model_name := "mock-llm";
     Generator.max_new_tokens := 100;
     Generator.state := tt |}.

End TestLLMRewriter.

(** * Properties *)

(** ** Strings *)

Lemma len_eq_0 (s : string) : (PyStr.len s =? 0) = true <-> s = ""%string.
Proof.
  unfold PyStr.len. destruct s; simpl; split; intros H; try done.
Qed.

Lemma len_pos (s : string) : (0 <? PyStr.len s) = true <-> s <> ""%string.
Proof.
  unfold PyStr.len. destruct s; simpl; split; intros H; try done.
Qed.

Lemma len_eq_0_false (s : string) : (PyStr.len s =? 0) = false <-> s <> ""%string.
Proof.
  rewrite <- len_eq_0. destruct (PyStr.len s =? 0); split; congruence.
Qed.


Lemma lstrip_blank (s : string) : PyStr.lstrip s = ""%string <-> PyStr.is_blank s = true.
Proof.
  induction s as [| c s IH]; simpl; [done |].
  destruct (PyStr.is_space c); simpl; [done |]. split; discriminate.
Qed.

Lemma rstrip_blank (s : string) : PyStr.rstrip s = ""%string <-> PyStr.is_blank s = true.
Proof.
  induction s as [| c s IH]; simpl; [done |].
  destruct (PyStr.rstrip s) eqn:E.
  - destruct (PyStr.is_space c); simpl; [tauto |]. split; discriminate.
  - split; [discriminate |]. intros H. apply andb_true_iff in H as [_ H].
    apply IH in H. discriminate.
Qed.

Lemma blank_lstrip (s : string) :
  PyStr.is_blank (PyStr.lstrip s) = true -> PyStr.is_blank s = true.
Proof.
  induction s as [| c s IH]; simpl; [done |].
  destruct (PyStr.is_space c) eqn:E; simpl; [done |]. rewrite E. done.
Qed.

(** [doc.strip()] is empty exactly when [doc] is empty or made of
    whitespace only. *)
Lemma strip_blank (s : string) : PyStr.strip s = ""%string <-> PyStr.is_blank s = true.
Proof.
  unfold PyStr.strip. rewrite rstrip_blank. split.
  - apply blank_lstrip.
  - intros H. apply lstrip_blank in H. rewrite H. done.
Qed.

(** ** Computations *)

Lemma bind_Returned {W A B} (c : M W A) (k : A -> M W B) w a w' :
  c w = (Returned a, w') -> bind c k w = k a w'.
Proof. intros H. unfold bind. rewrite H. done. Qed.

Lemma bind_Raised {W A B} (c : M W A) (k : A -> M W B) w e w' :
  c w = (Raised e, w') -> bind c k w = (Raised e, w').
Proof. intros H. unfold bind. rewrite H. done. Qed.

Lemma bind_lift_Returned {W A B} (r : result A) (k : A -> M W B) w a :
  r = Returned a -> bind (lift r) k w = k a w.
Proof. intros ->. done. Qed.

(** The rule of the [for] loop: an invariant of the number of items
    done, kept by every run of the body, holds at the end, and the loop
    returns. *)
Lemma for__rule_from {W X St} (Inv : nat -> St -> W -> Prop) (body : X -> St -> M W St)
      (all : list X) :
  (forall i x s w, all !! i = Some x -> Inv i s w ->
     exists s' w', body x s w = (Returned s', w') /\ Inv (S i) s' w') ->
  forall xs i s w,
    drop i all = xs -> (i <= length all)%nat -> Inv i s w ->
    exists s' w', for_ xs body s w = (Returned s', w') /\ Inv (length all) s' w'.
Proof.
  intros Hbody xs. induction xs as [| x xs IH]; intros i s w Hxs Hle HI.
  - simpl. exists s, w. split; [done |].
    apply (f_equal length) in Hxs. rewrite length_drop in Hxs. simpl in Hxs.
    replace (length all) with i by lia. done.
  - assert (all !! i = Some x) as Hi.
    { rewrite <- (Nat.add_0_r i), <- lookup_drop, Hxs. done. }
    destruct (Hbody i x s w Hi HI) as (s1 & w1 & Hb & HI1).
    simpl. rewrite (bind_Returned _ _ _ _ _ Hb).
    apply (IH (S i)); [| apply lookup_lt_Some in Hi; lia | done].
    rewrite (drop_S _ _ _ Hi) in Hxs. by injection Hxs.
Qed.

Lemma for__rule {W X St} (Inv : nat -> St -> W -> Prop) (body : X -> St -> M W St)
      (xs : list X) s w :
  Inv 0%nat s w ->
  (forall i x s w, xs !! i = Some x -> Inv i s w ->
     exists s' w', body x s w = (Returned s', w') /\ Inv (S i) s' w') ->
  exists s' w', for_ xs body s w = (Returned s', w') /\ Inv (length xs) s' w'.
Proof.
  intros H0 Hbody. apply (for__rule_from Inv body xs Hbody xs 0%nat); [done | lia | done].
Qed.

(** ** Built-ins *)

Lemma enumerate_length {A} (l : list A) : length (Py.enumerate l) = length l.
Proof. unfold Py.enumerate. rewrite length_zip, length_seq. lia. Qed.

Lemma enumerate_lookup {A} (l : list A) i j x :
  Py.enumerate l !! i = Some (j, x) <-> j = i /\ l !! i = Some x.
Proof.
  unfold Py.enumerate. rewrite lookup_zip_with_Some. split.
  - intros (a & b & [= -> ->] & Ha & Hb). apply lookup_seq in Ha as [-> _]. done.
  - intros [-> Hx]. exists i, x. split; [done |]. split; [| done].
    apply lookup_seq. split; [done |]. by apply lookup_lt_Some in Hx.
Qed.

(** The rule of [for i, x in enumerate(l)]. *)
Lemma for__enumerate_rule {W X St} (Inv : nat -> St -> W -> Prop)
      (body : nat * X -> St -> M W St) (l : list X) s w :
  Inv 0%nat s w ->
  (forall i x s w, l !! i = Some x -> Inv i s w ->
     exists s' w', body (i, x) s w = (Returned s', w') /\ Inv (S i) s' w') ->
  exists s' w', for_ (Py.enumerate l) body s w = (Returned s', w') /\ Inv (length l) s' w'.
Proof.
  intros H0 Hbody. rewrite <- (enumerate_length l).
  apply for__rule; [done |]. intros i [j x] s1 w1 Hi HI.
  apply enumerate_lookup in Hi as [-> Hi]. by apply Hbody.
Qed.

(** ** The batch loop *)

Lemma range_length_ceil (n b : Z) :
  0 <= n -> 0 < b -> Py.range_length 0 n b = (n + b - 1) / b.
Proof.
  intros Hn Hb. unfold Py.range_length.
  destruct (0 <? b) eqn:E; [| lia].
  destruct (0 <? n) eqn:En.
  - replace (n + b - 1) with (n - 0 - 1 + 1 * b) by lia.
    rewrite Z.div_add by lia. done.
  - assert (n = 0) as -> by lia. simpl. symmetry. apply Z.div_small. lia.
Qed.

Lemma range_spec (n b : Z) :
  0 <= n -> 0 < b ->
  exists starts,
    Py.range 0 n b = Returned starts
    /\ Z.of_nat (length starts) = (n + b - 1) / b
    /\ forall k s, starts !! k = Some s -> s = Z.of_nat k * b /\ Z.of_nat k * b < n.
Proof.
  intros Hn Hb. unfold Py.range.
  destruct (b =? 0) eqn:E; [lia |].
  eexists. split; [done |].
  rewrite range_length_ceil by done.
  assert (0 <= (n + b - 1) / b) as Hc by (apply Z.div_pos; lia).
  split.
  - rewrite length_map, length_seq. lia.
  - intros k s Hk. rewrite list_lookup_fmap in Hk.
    destruct (seq 0 (Z.to_nat ((n + b - 1) / b)) !! k) as [k' |] eqn:Hs; [| done].
    apply lookup_seq in Hs as [-> Hlt]. simpl in Hk. injection Hk as <-.
    split; [lia |].
    assert (Z.of_nat k + 1 <= (n + b - 1) / b) as Hk1 by lia.
    assert (b * (Z.of_nat k + 1) <= b * ((n + b - 1) / b)) as H1 by nia.
    pose proof (Z.mul_div_le (n + b - 1) b Hb). nia.
Qed.

Lemma slice_chunk {A} (l : list A) (k B : nat) :
  (0 < B)%nat ->
  Py.slice l (Z.of_nat k * Z.of_nat B)
           (Z.min (Z.of_nat k * Z.of_nat B + Z.of_nat B) (Z.of_nat (length l)))
  = take B (drop (k * B) l).
Proof.
  intros HB. unfold Py.slice.
  replace (Z.to_nat (Z.of_nat k * Z.of_nat B)) with (k * B)%nat by lia.
  destruct (decide (k * B + B <= length l)%nat) as [Hle | Hgt].
  - f_equal. lia.
  - rewrite !take_ge; [done | |]; rewrite length_drop; lia.
Qed.

Section Batches.

Context {GS : Type}.
Variable generate : Generator.t GS -> list string -> result (list string) * Generator.t GS.
Hypothesis contract : respects_contract generate.

Lemma replies_length (g : Generator.t GS) (prompts : list string) :
  length (replies {| call_prompts := prompts;
                     call_outcome := fst (generate g prompts) |}) = length prompts.
Proof.
  unfold replies. simpl. pose proof (contract g prompts) as H.
  destruct (generate g prompts) as [[outs | e] g']; simpl.
  - done.
  - by rewrite length_map.
Qed.

(** One batch: whatever the call does, the texts kept for it are
    appended and the loop goes on. *)
Lemma batch_step (rewritten batch_prompts : list string) (w : World GS) :
  let c := {| call_prompts := batch_prompts;
              call_outcome := fst (generate (generator w) batch_prompts) |} in
  try_except_Exception
    (generated <- call_generate generate batch_prompts ;;
     ret (rewritten ++ generated))
    (fun e => ret (rewritten ++ map (fun _ => ""%string) batch_prompts)) w
  = (Returned (rewritten ++ replies c),
     {| generator := snd (generate (generator w) batch_prompts);
        calls := calls w ++ [c] |}).
Proof.
  intros c. unfold try_except_Exception, bind, call_generate, ret, replies. subst c. simpl.
  pose proof (contract (generator w) batch_prompts) as H.
  destruct (generate (generator w) batch_prompts) as [[outs | e] g']; simpl.
  - done.
  - rewrite H. done.
Qed.

Lemma generate_in_batches_nat (B : nat) (prompts : list string) (w : World GS) :
  (0 < B)%nat ->
  exists rewritten w',
    generate_in_batches generate (Z.of_nat B) prompts w = (Returned rewritten, w')
    /\ batches_done generate B prompts w w' rewritten.
Proof.
  intros HBn. unfold generate_in_batches.
  set (N := length prompts).
  destruct (range_spec (Z.of_nat N) (Z.of_nat B)) as (starts & Hr & Hlen & Hst); [lia | lia |].
  rewrite (bind_lift_Returned _ _ _ _ Hr).
  pose (Inv := fun (k : nat) (rewritten : list string) (w' : World GS) =>
    exists new : list Call,
      calls w' = calls w ++ new
      /\ length new = k
      /\ (forall b c, new !! b = Some c ->
            call_prompts c = take B (drop (b * B) prompts)
            /\ call_prompts c <> []
            /\ exists g, call_outcome c = fst (generate g (call_prompts c)))
      /\ concat (call_prompts <$> new) = take (k * B) prompts
      /\ rewritten = concat (replies <$> new)
      /\ length rewritten = Nat.min (k * B) N
      /\ (forall b c j, new !! b = Some c -> (j < length (call_prompts c))%nat ->
            rewritten !! (b * B + j)%nat = replies c !! j
            /\ prompts !! (b * B + j)%nat = call_prompts c !! j
            /\ (j < length (replies c))%nat)).
  match goal with
  | |- context [for_ ?xs ?body ?s ?w0] =>
      destruct (for__rule Inv body xs s w0) as (rewritten & w' & Hfor & HI); [| | rewrite Hfor]
  end.
  - exists []. rewrite app_nil_r. repeat split; try done.
  - intros k s rw w1 Hk (new & Hcalls & Hnew & Hchunks & Hcover & Hcat & Hlenrw & Hpt).
    apply Hst in Hk as [-> Hlt].
    cbv beta zeta. unfold N. rewrite slice_chunk by done. fold N.
    set (bp := take B (drop (k * B) prompts)).
    rewrite batch_step.
    set (c := {| call_prompts := bp; call_outcome := fst (generate (generator w1) bp) |}).
    assert (length bp = Nat.min B (N - k * B)) as Hbp.
    { subst bp. rewrite length_take, length_drop. done. }
    assert (length (replies c) = length bp) as Hrc by apply replies_length.
    assert (length rw = k * B)%nat as Hrw by lia.
    eexists _, _. split; [done |].
    exists (new ++ [c]). simpl.
    split; [rewrite Hcalls; by rewrite app_assoc |].
    split; [rewrite length_app; simpl; lia |].
    split.
    { intros b c0 H. apply lookup_app_Some in H as [H | [Hge H]].
      - by apply Hchunks.
      - rewrite Hnew in *. apply list_lookup_singleton_Some in H as [Hb <-].
        simpl. split; [| split].
        + assert (b = k) as -> by lia. done.
        + intros E. rewrite E in Hbp. simpl in Hbp. lia.
        + by eexists. }
    split.
    { rewrite fmap_app, concat_app. simpl. rewrite app_nil_r, Hcover.
      subst bp. rewrite take_take_drop. f_equal. lia. }
    split; [rewrite fmap_app, concat_app; simpl; rewrite app_nil_r; by rewrite Hcat |].
    split; [rewrite length_app; lia |].
    intros b c0 j H Hj. apply lookup_app_Some in H as [H | [Hge H]].
    + destruct (Hpt b c0 j H Hj) as (H1 & H2 & H3). split; [| done].
      rewrite <- H1. apply lookup_app_l. apply lookup_lt_is_Some.
      rewrite H1. by apply lookup_lt_is_Some.
    + rewrite Hnew in *. apply list_lookup_singleton_Some in H as [Hb <-].
      simpl in *. assert (b = k) as -> by lia.
      split; [| split; [| lia]].
      * rewrite lookup_app_r; rewrite Hrw; [f_equal | ]; clear; lia.
      * subst bp. rewrite lookup_take_lt by lia. rewrite lookup_drop. done.
  - destruct HI as (new & Hcalls & Hnew & Hchunks & Hcover & Hcat & Hlenrw & Hpt).
    assert (N <= length starts * B)%nat as Hall.
    { assert (Z.of_nat N <= Z.of_nat (length starts) * Z.of_nat B); [| lia].
      rewrite Hlen. pose proof (Z.mod_pos_bound (Z.of_nat N + Z.of_nat B - 1) (Z.of_nat B)).
      pose proof (Z.div_mod (Z.of_nat N + Z.of_nat B - 1) (Z.of_nat B)). nia. }
    eexists _, _. split; [done |].
    exists new. split; [done |]. split; [by rewrite Hnew |]. split; [done |].
    split; [by rewrite Hcover, take_ge |]. split; [done |].
    split.
    + fold N. rewrite Hlenrw. lia.
    + intros b c j H Hj. by destruct (Hpt b c j H Hj) as (? & ? & ?).
Qed.

Lemma generate_in_batches_spec (batch_size : Z) (prompts : list string) (w : World GS) :
  0 < batch_size ->
  exists rewritten w',
    generate_in_batches generate batch_size prompts w = (Returned rewritten, w')
    /\ batches_done generate (Z.to_nat batch_size) prompts w w' rewritten.
Proof.
  intros HB.
  destruct (generate_in_batches_nat (Z.to_nat batch_size) prompts w) as (rw & w' & H & Hd); [lia |].
  rewrite Z2Nat.id in H by lia. by exists rw, w'.
Qed.

End Batches.

(** ** Entries of a nested list *)

Lemma same_shape_refl (a : list (list string)) : same_shape a a.
Proof. done. Qed.

Lemma same_shape_trans (a b c : list (list string)) :
  same_shape a b -> same_shape b c -> same_shape a c.
Proof. unfold same_shape. congruence. Qed.

Lemma same_shape_sym (a b : list (list string)) : same_shape a b -> same_shape b a.
Proof. unfold same_shape. congruence. Qed.

Lemma same_shape_length (a b : list (list string)) :
  same_shape a b -> length a = length b.
Proof.
  unfold same_shape. intros H. apply (f_equal length) in H.
  by rewrite !length_fmap in H.
Qed.

Lemma same_shape_row (a b : list (list string)) q row :
  same_shape a b -> a !! q = Some row ->
  exists row', b !! q = Some row' /\ length row' = length row.
Proof.
  unfold same_shape. intros H Ha.
  apply (f_equal (fun l => l !! q)) in H. rewrite !list_lookup_fmap, Ha in H. simpl in H.
  destruct (b !! q) as [row' |]; [| done]. injection H as H. by exists row'.
Qed.

Lemma same_shape_entry (a b : list (list string)) q d :
  same_shape a b -> is_Some (entry a q d) <-> is_Some (entry b q d).
Proof.
  assert (forall a b, same_shape a b -> is_Some (entry a q d) -> is_Some (entry b q d)) as H.
  { intros a0 b0 Hs. unfold entry. destruct (a0 !! q) as [row |] eqn:Ha; [| by intros []].
    destruct (same_shape_row _ _ _ _ Hs Ha) as (row' & -> & Hl).
    rewrite !lookup_lt_is_Some. lia. }
  intros Hs. split; apply H; [done | by apply same_shape_sym].
Qed.

Lemma blank_rows_shape (contexts : list (list string)) :
  same_shape (map (fun docs : list string => replicate (length docs) ""%string) contexts) contexts.
Proof.
  unfold same_shape. rewrite <- list_fmap_compose. apply list_fmap_ext.
  intros i docs _. simpl. by rewrite length_replicate.
Qed.

Lemma blank_rows_entry (contexts : list (list string)) q d :
  is_Some (entry contexts q d) ->
  entry (map (fun docs : list string => replicate (length docs) ""%string) contexts) q d
  = Some ""%string.
Proof.
  unfold entry. rewrite list_lookup_fmap.
  destruct (contexts !! q) as [docs |]; simpl; [| by intros []].
  intros H. apply lookup_lt_is_Some in H. by apply lookup_replicate_2.
Qed.

(** [rows[q][d] = v] on an entry that exists. *)
Lemma setitem2_spec (rows : list (list string)) q d v :
  is_Some (entry rows q d) ->
  exists rows',
    Py.setitem2 rows q d v = Returned rows'
    /\ same_shape rows' rows
    /\ entry rows' q d = Some v
    /\ forall q' d', (q', d') <> (q, d) -> entry rows' q' d' = entry rows q' d'.
Proof.
  unfold entry, Py.setitem2. destruct (rows !! q) as [row |] eqn:Hq; [| by intros []].
  intros Hd. apply lookup_lt_is_Some in Hd.
  destruct (decide (d < length row)%nat); [| lia].
  eexists. split; [done |].
  assert (q < length rows)%nat as Hql by by apply lookup_lt_Some in Hq.
  split; [| split].
  - unfold same_shape. rewrite list_fmap_insert, length_insert.
    apply list_insert_id. rewrite list_lookup_fmap, Hq. done.
  - rewrite list_lookup_insert_eq by done. by apply list_lookup_insert_eq.
  - intros q' d' Hne. destruct (decide (q' = q)) as [-> | Hq'].
    + rewrite list_lookup_insert_eq by done. rewrite Hq.
      apply list_lookup_insert_ne. congruence.
    + by rewrite list_lookup_insert_ne.
Qed.

Lemma getitem2_entry (rows : list (list string)) q d v :
  entry rows q d = Some v -> Py.getitem2 rows q d = Returned v.
Proof.
  unfold entry, Py.getitem2, Py.getitem. destruct (rows !! q); [| done]. simpl.
  by intros ->.
Qed.

Lemma entry_lookup (rows : list (list string)) q d row :
  rows !! q = Some row -> entry rows q d = row !! d.
Proof. unfold entry. by intros ->. Qed.

(** ** The two nested loops that collect the prompts *)

Section Collected.

Context {X : Type} (R : string -> string -> X -> Prop).
Variables (queries : list string) (contexts : list (list string)).

Lemma collected_start : collected R queries contexts 0 0 [] [].
Proof.
  split; [done |]. split; [constructor |]. split.
  - intros k q d H. done.
  - intros q d ? ? ? [H | [_ H]]; lia.
Qed.

Lemma collected_skip i j items mapping docs doc :
  contexts !! i = Some docs -> docs !! j = Some doc -> PyStr.strip doc = ""%string ->
  collected R queries contexts i j items mapping ->
  collected R queries contexts i (S j) items mapping.
Proof.
  intros Hi Hj Hblank (Hlen & Hnd & Hin & Hall).
  split; [done |]. split; [done |]. split.
  - intros k q d Hk. destruct (Hin k q d Hk) as [Hb Hrest]. split; [| done].
    destruct Hb as [Hb | [-> Hb]]; [by left | right; split; [done | lia]].
  - intros q d query docs' doc' [Hb | [-> Hb]] Hq Hc Hd Hne.
    + apply (Hall q d query docs' doc'); [by left | done ..].
    + destruct (decide (d = j)) as [-> | Hdj].
      * congruence.
      * apply (Hall i d query docs' doc'); [right; split; [done | lia] | done ..].
Qed.

Lemma collected_push i j items mapping query docs doc item :
  queries !! i = Some query -> contexts !! i = Some docs -> docs !! j = Some doc ->
  PyStr.strip doc <> ""%string -> R query doc item ->
  collected R queries contexts i j items mapping ->
  collected R queries contexts i (S j) (items ++ [item]) (mapping ++ [(i, j)]).
Proof.
  intros Hq Hi Hj Hne HR (Hlen & Hnd & Hin & Hall).
  split; [rewrite !length_app; simpl; lia |]. split; [| split].
  - apply NoDup_app. split; [done |]. split; [| apply NoDup_singleton].
    intros [q d] Hel Hel'. apply list_elem_of_singleton in Hel'. injection Hel' as -> ->.
    apply list_elem_of_lookup in Hel as [k Hk].
    destruct (Hin k i j Hk) as [[Hb | [_ Hb]] _]; lia.
  - intros k q d Hk. apply lookup_app_Some in Hk as [Hk | [Hge Hk]].
    + destruct (Hin k q d Hk) as [Hb (query' & docs' & doc' & item' & ? & ? & ? & ? & ? & Hit)].
      split.
      * destruct Hb as [Hb | [-> Hb]]; [by left | right; split; [done | lia]].
      * exists query', docs', doc', item'. repeat split; try done.
        by apply lookup_app_l_Some.
    + apply list_lookup_singleton_Some in Hk as [Hk [= <- <-]].
      split; [right; split; [done | lia] |].
      exists query, docs, doc, item. repeat split; try done.
      assert (k = length items) as -> by lia.
      rewrite lookup_app_r by lia. by rewrite Nat.sub_diag.
  - intros q d query' docs' doc' [Hb | [-> Hb]] Hq' Hc Hd Hne'.
    + apply elem_of_app. left. apply (Hall q d query' docs' doc'); [by left | done ..].
    + apply elem_of_app. destruct (decide (d = j)) as [-> | Hdj].
      * right. by apply list_elem_of_singleton.
      * left. apply (Hall i d query' docs' doc'); [right; split; [done | lia] | done ..].
Qed.

Lemma collected_next_row i items mapping docs :
  contexts !! i = Some docs ->
  collected R queries contexts i (length docs) items mapping ->
  collected R queries contexts (S i) 0 items mapping.
Proof.
  intros Hi (Hlen & Hnd & Hin & Hall).
  split; [done |]. split; [done |]. split.
  - intros k q d Hk. destruct (Hin k q d Hk) as [Hb Hrest]. split; [| done].
    left. destruct Hb as [Hb | [-> Hb]]; lia.
  - intros q d query docs' doc' [Hb | [_ Hb]] Hq Hc Hd Hne; [| lia].
    apply (Hall q d query docs' doc'); try done.
    destruct (decide (q = i)) as [-> | Hqi]; [| left; lia].
    right. split; [done |]. rewrite Hi in Hc. injection Hc as <-.
    by apply lookup_lt_Some in Hd.
Qed.

Lemma collected_finish items mapping :
  collected R queries contexts (length (zip queries contexts)) 0 items mapping ->
  collected_all R queries contexts items mapping.
Proof.
  intros (Hlen & Hnd & Hin & Hall).
  split; [done |]. split; [done |]. split.
  - intros k q d Hk. by destruct (Hin k q d Hk) as [_ Hrest].
  - intros q d query docs doc Hq Hc Hd Hne.
    apply (Hall q d query docs doc); try done. left.
    apply lookup_lt_Some in Hq. apply lookup_lt_Some in Hc.
    rewrite length_zip. lia.
Qed.

End Collected.

(** ** The loop that puts the rewritten texts in place *)

(** A loop over the mapping whose body assigns one entry: each place of
    the mapping ends with the value assigned for it, the other entries
    are as they were. *)
Lemma assign_loop {W} (V : nat -> string -> Prop)
      (body : nat * (nat * nat) -> list (list string) -> M W (list (list string)))
      (mapping : list (nat * nat)) (contexts rows0 : list (list string)) (w : W) :
  NoDup mapping ->
  same_shape rows0 contexts ->
  (forall k q d, mapping !! k = Some (q, d) -> is_Some (entry contexts q d)) ->
  (forall k q d rows, mapping !! k = Some (q, d) -> same_shape rows contexts ->
     exists v, V k v /\ body (k, (q, d)) rows w = (Py.setitem2 rows q d v, w)) ->
  exists rows,
    for_ (Py.enumerate mapping) body rows0 w = (Returned rows, w)
    /\ same_shape rows contexts
    /\ (forall k q d, mapping !! k = Some (q, d) ->
          exists v, V k v /\ entry rows q d = Some v)
    /\ (forall q d, (q, d) ∉ mapping -> entry rows q d = entry rows0 q d).
Proof.
  intros Hnd Hshape Hin Hbody.
  pose (Inv := fun (n : nat) (rows : list (list string)) (w' : W) =>
    w' = w
    /\ same_shape rows contexts
    /\ (forall k q d, (k < n)%nat -> mapping !! k = Some (q, d) ->
          exists v, V k v /\ entry rows q d = Some v)
    /\ (forall q d, (forall k, (k < n)%nat -> mapping !! k <> Some (q, d)) ->
          entry rows q d = entry rows0 q d)).
  destruct (for__enumerate_rule Inv body mapping rows0 w) as (rows & w' & Hfor & HI).
  - split; [done |]. split; [done |]. split; [intros; lia | done].
  - intros n [q d] rows w1 Hn (-> & Hs & Hdone & Hrest).
    destruct (Hbody n q d rows Hn Hs) as (v & HV & Hb).
    destruct (setitem2_spec rows q d v) as (rows' & Hset & Hs' & Hqd & Hother).
    { apply (same_shape_entry rows contexts); [done |]. by apply (Hin n). }
    exists rows', w. split; [by rewrite Hb, Hset |].
    split; [done |]. split; [by apply (same_shape_trans _ rows) |]. split.
    + intros k q' d' Hk Hm. destruct (decide (k = n)) as [-> | Hkn].
      * rewrite Hn in Hm. injection Hm as <- <-. by exists v.
      * destruct (Hdone k q' d') as (v' & HV' & He); [lia | done |].
        exists v'. split; [done |]. rewrite Hother; [done |].
        intros [= -> ->]. apply Hkn. by apply (NoDup_lookup mapping k n (q, d)).
    + intros q' d' Hno. rewrite Hother.
      * apply Hrest. intros k Hk. apply Hno. lia.
      * intros [= -> ->]. by apply (Hno n); [lia |].
  - destruct HI as (-> & Hs & Hdone & Hrest).
    exists rows. split; [done |]. split; [done |]. split.
    + intros k q d Hk. apply (Hdone k q d); [| done]. by apply lookup_lt_Some in Hk.
    + intros q d Hno. apply Hrest. intros k _ Hk. apply Hno.
      apply list_elem_of_lookup. by exists k.
Qed.

(** ** The loops that fill in the entries left empty *)

(** What the filling loops make of an entry. *)
Lemma fill_loops {W}
      (inner : nat -> list string -> nat * string -> list (list string) -> M W (list (list string)))
      (contexts rows1 : list (list string)) (w : W) :
  same_shape rows1 contexts ->
  (forall q docs d doc rows, contexts !! q = Some docs -> docs !! d = Some doc ->
     same_shape rows contexts ->
     inner q docs (d, doc) rows w
     = match entry rows q d with
       | Some current =>
           if String.eqb current "" then (Py.setitem2 rows q d doc, w) else (Returned rows, w)
       | None => (Raised IndexError, w)
       end) ->
  exists rows,
    for_ (Py.enumerate contexts)
         (fun '(q, docs) rows => for_ (Py.enumerate docs) (inner q docs) rows) rows1 w
    = (Returned rows, w)
    /\ same_shape rows contexts
    /\ forall q d current, entry rows1 q d = Some current ->
         entry rows q d = if String.eqb current "" then entry contexts q d else Some current.
Proof.
  intros Hshape Hinner.
  (* the entries before the place (i, j) are filled, the others untouched *)
  pose (Filled := fun (i j : nat) (rows : list (list string)) (w' : W) =>
    w' = w
    /\ same_shape rows contexts
    /\ forall q d current, entry rows1 q d = Some current ->
         entry rows q d =
           if decide (before i j q d) then
             if String.eqb current "" then entry contexts q d else Some current
           else Some current).
  destruct (for__enumerate_rule (fun i => Filled i 0%nat)
              (fun '(q, docs) rows => for_ (Py.enumerate docs) (inner q docs) rows)
              contexts rows1 w) as (rows & w' & Hfor & HI).
  - split; [done |]. split; [done |]. intros q d current He.
    destruct (decide (before 0 0 q d)) as [[H | [_ H]] |]; [lia | lia | done].
  - intros i docs rows w1 Hi HF.
    destruct (for__enumerate_rule (Filled i) (inner i docs) docs rows w1)
      as (rows' & w' & Hfor & (-> & Hs & Hent)). { done. }
    + intros j doc rows2 w2 Hj (-> & Hs & Hent).
      rewrite (Hinner i docs j doc rows2 Hi Hj Hs).
      assert (is_Some (entry contexts i j)) as [orig Horig].
      { rewrite (entry_lookup _ _ _ _ Hi). by exists doc. }
      assert (orig = doc) as ->.
      { rewrite (entry_lookup _ _ _ _ Hi), Hj in Horig. congruence. }
      assert (is_Some (entry rows1 i j)) as [cur1 Hcur1].
      { apply (same_shape_entry rows1 contexts); [done | by eexists]. }
      pose proof (Hent i j cur1 Hcur1) as Hcur.
      destruct (decide (before i j i j)) as [[H | [_ H]] |]; [lia | lia |].
      rewrite Hcur. destruct (String.eqb cur1 "") eqn:Eq.
      * destruct (setitem2_spec rows2 i j doc) as (rows3 & Hset & Hs3 & Hij & Hother).
        { by rewrite Hcur. }
        exists rows3, w. split; [by rewrite Hset |].
        split; [done |]. split; [by apply (same_shape_trans _ rows2) |].
        intros q d current He.
        destruct (decide ((q, d) = (i, j))) as [[= -> ->] | Hne].
        -- rewrite Hij. assert (current = cur1) as -> by congruence. rewrite Eq.
           destruct (decide (before i (S j) i j)) as [| Hnb]; [by rewrite Horig |].
           exfalso. apply Hnb. right. split; [done | lia].
        -- rewrite (Hother q d Hne), (Hent q d current He).
           destruct (decide (before i j q d)) as [Hb | Hnb].
           ++ destruct (decide (before i (S j) q d)) as [| Hnb']; [done |].
              exfalso. apply Hnb'. destruct Hb as [Hb | [-> Hb]]; [by left |].
              right. split; [done | lia].
           ++ destruct (decide (before i (S j) q d)) as [Hb' |]; [| done].
              exfalso. destruct Hb' as [Hb' | [-> Hb']]; [apply Hnb; by left |].
              destruct (decide (d = j)) as [-> | Hdj]; [done |].
              apply Hnb. right. split; [done | lia].
      * exists rows2, w. split; [done |]. split; [done |]. split; [done |].
        intros q d current He. rewrite (Hent q d current He).
        destruct (decide ((q, d) = (i, j))) as [[= -> ->] | Hne].
        -- assert (current = cur1) as -> by congruence. rewrite Eq.
           destruct (decide (before i j i j)) as [[H | [_ H]] |]; [lia | lia |].
           by destruct (decide (before i (S j) i j)).
        -- destruct (decide (before i j q d)) as [Hb | Hnb].
           ++ destruct (decide (before i (S j) q d)) as [| Hnb']; [done |].
              exfalso. apply Hnb'. destruct Hb as [Hb | [-> Hb]]; [by left |].
              right. split; [done | lia].
           ++ destruct (decide (before i (S j) q d)) as [Hb' |]; [| done].
              exfalso. destruct Hb' as [Hb' | [-> Hb']]; [apply Hnb; by left |].
              destruct (decide (d = j)) as [-> | Hdj]; [done |].
              apply Hnb. right. split; [done | lia].
    + exists rows', w. split; [done |]. split; [done |]. split; [done |].
      intros q d current He. rewrite (Hent q d current He).
      destruct (decide (before i (length docs) q d)) as [Hb | Hnb].
      * destruct (decide (before (S i) 0 q d)) as [| Hnb']; [done |].
        exfalso. apply Hnb'. left. destruct Hb as [Hb | [-> Hb]]; lia.
      * destruct (decide (before (S i) 0 q d)) as [Hb' |]; [| done].
        destruct Hb' as [Hb' | [_ Hb']]; [| lia].
        (* the entry is in row [i], so it is within the documents *)
        exfalso. apply Hnb. destruct (decide (q = i)) as [-> | Hqi]; [| left; lia].
        right. split; [done |].
        assert (is_Some (entry contexts i d)) as Hsome.
        { apply (same_shape_entry rows1 contexts); [done | by eexists]. }
        rewrite (entry_lookup _ _ _ _ Hi) in Hsome. by apply lookup_lt_is_Some in Hsome.
  - destruct HI as (-> & Hs & Hent). exists rows. split; [done |]. split; [done |].
    intros q d current He. rewrite (Hent q d current He).
    destruct (decide (before (length contexts) 0 q d)) as [| Hnb]; [done |].
    exfalso. apply Hnb. left.
    assert (is_Some (entry contexts q d)) as Hsome.
    { apply (same_shape_entry rows1 contexts); [done | by eexists]. }
    unfold entry in Hsome. destruct (contexts !! q) eqn:E; [| by destruct Hsome].
    by apply lookup_lt_Some in E.
Qed.

(** ** The phases of LLMRewriter._process *)

Section Rewriter.

Context {GS : Type}.
Variable generate : Generator.t GS -> list string -> result (list string) * Generator.t GS.
Variable self : LLMRewriter.t.

Lemma collect_prompts_spec (contexts : list (list string)) (queries : list string)
      (w : World GS) :
  LLMRewriter.accepts_slots (LLMRewriter.rewrite_prompt_template self) ->
  exists all_prompts query_doc_mapping,
    LLMRewriter.collect_prompts self contexts queries w
    = (Returned (all_prompts, query_doc_mapping), w)
    /\ collected_all (LLMRewriter.prompt_for self) queries contexts
                     all_prompts query_doc_mapping.
Proof.
  intros Htmpl. unfold LLMRewriter.collect_prompts.
  set (R := LLMRewriter.prompt_for self).
  pose (Inv := fun (i j : nat) (s : list string * list (nat * nat)) (w' : World GS) =>
                 w' = w /\ collected R queries contexts i j s.1 s.2).
  match goal with
  | |- context [for_ ?xs ?body ?s ?w0] =>
      destruct (for__enumerate_rule (fun i => Inv i 0%nat) body (zip queries contexts) s w0)
        as ([ps ms] & w' & Hfor & (-> & HI))
  end.
  - split; [done |]. apply collected_start.
  - intros i [query docs] [ps ms] w1 Hi (-> & HI).
    apply lookup_zip_with_Some in Hi as (? & ? & [= <- <-] & Hq & Hc).
    match goal with
    | |- context [for_ ?xs ?body ?s ?w0] =>
        destruct (for__enumerate_rule (Inv i) body docs s w0)
          as ([ps' ms'] & w' & Hfor & (-> & HI'))
    end.
    + done.
    + intros j doc [ps1 ms1] w1 Hj (-> & HI1). simpl in HI1.
      destruct (PyStr.len (PyStr.strip doc) =? 0) eqn:Eb.
      * apply len_eq_0 in Eb. eexists _, _. split; [done |]. split; [done |].
        simpl. by apply (collected_skip R queries contexts i j ps1 ms1 docs doc).
      * apply len_eq_0_false in Eb.
        destruct (Htmpl query doc) as [prompt Hp].
        rewrite (bind_lift_Returned _ _ _ _ Hp).
        eexists _, _. split; [done |]. split; [done |]. simpl.
        by apply (collected_push R queries contexts i j ps1 ms1 query docs doc prompt).
    + exists (ps', ms'), w. split; [done |]. split; [done |]. simpl in *.
      by apply (collected_next_row R queries contexts i ps' ms' docs).
  - exists ps, ms. split; [done |]. by apply collected_finish.
Qed.

Lemma getitem2_Raised (rows : list (list string)) q d :
  entry rows q d = None -> exists e, Py.getitem2 rows q d = Raised e.
Proof.
  unfold entry, Py.getitem2, Py.getitem. destruct (rows !! q) as [row |]; simpl.
  - intros ->. by eexists.
  - by eexists.
Qed.

(** The text [reconstruct] puts in place of [original_text] when the
    generator answered [rewritten_passage]. *)
Lemma reconstruct_spec (contexts : list (list string)) (queries all_prompts : list string)
      (query_doc_mapping : list (nat * nat)) (rewritten_passages : list string)
      (w : World GS) :
  collected_all (LLMRewriter.prompt_for self) queries contexts all_prompts query_doc_mapping ->
  length rewritten_passages = length all_prompts ->
  exists rows,
    LLMRewriter.reconstruct self contexts query_doc_mapping rewritten_passages w
    = (Returned rows, w)
    /\ same_shape rows contexts
    /\ (forall k q d, query_doc_mapping !! k = Some (q, d) ->
          exists original_text rewritten_passage,
            entry contexts q d = Some original_text
            /\ rewritten_passages !! k = Some rewritten_passage
            /\ entry rows q d = Some (LLMRewriter.rewritten_entry self original_text rewritten_passage))
    /\ (forall q d, (q, d) ∉ query_doc_mapping -> is_Some (entry contexts q d) ->
          entry rows q d = Some ""%string).
Proof.
  intros (Hlen & Hnd & Hin & Hall) Hrw. unfold LLMRewriter.reconstruct.
  cbv zeta.
  pose (V := fun (k : nat) (v : string) =>
    exists q d original_text rewritten_passage,
      query_doc_mapping !! k = Some (q, d)
      /\ entry contexts q d = Some original_text
      /\ rewritten_passages !! k = Some rewritten_passage
      /\ v = LLMRewriter.rewritten_entry self original_text rewritten_passage).
  match goal with
  | |- context [for_ _ ?body ?s ?w0] =>
      destruct (assign_loop V body query_doc_mapping contexts s w0)
        as (rows & Hfor & Hs & Hdone & Hrest)
  end.
  - done.
  - apply blank_rows_shape.
  - intros k q d Hk.
    destruct (Hin k q d Hk) as (query & docs & doc & item & _ & Hc & Hd & _).
    rewrite (entry_lookup _ _ _ _ Hc). by exists doc.
  - intros k q d rows Hk Hs.
    destruct (Hin k q d Hk) as (query & docs & doc & item & _ & Hc & Hd & _ & _ & Hit).
    assert (entry contexts q d = Some doc) as He by by rewrite (entry_lookup _ _ _ _ Hc).
    assert (is_Some (rewritten_passages !! k)) as [p Hp].
    { apply lookup_lt_is_Some. rewrite Hrw. by apply lookup_lt_Some in Hit. }
    exists (LLMRewriter.rewritten_entry self doc p). split.
    + by exists q, d, doc, p.
    + rewrite (bind_lift_Returned _ _ _ _ (getitem2_entry _ _ _ _ He)).
      unfold Py.getitem at 1. rewrite Hp.
      rewrite (bind_lift_Returned _ _ _ _ eq_refl).
      unfold LLMRewriter.rewritten_entry, lift.
      destruct (0 <? PyStr.len (PyStr.strip p)); [| done].
      by destruct (LLMRewriter.concatenate_original self).
  - exists rows. split; [done |]. split; [done |]. split.
    + intros k q d Hk. destruct (Hdone k q d Hk) as (v & (q' & d' & o & p & Hk' & Ho & Hp & ->) & He).
      rewrite Hk in Hk'. injection Hk' as <- <-. by exists o, p.
    + intros q d Hno Hsome. rewrite (Hrest q d Hno). by apply blank_rows_entry.
Qed.

Lemma fill_in_spec (contexts rows1 : list (list string)) (w : World GS) :
  same_shape rows1 contexts ->
  exists rows,
    LLMRewriter.fill_in contexts rows1 w = (Returned rows, w)
    /\ same_shape rows contexts
    /\ forall q d current, entry rows1 q d = Some current ->
         entry rows q d = if String.eqb current "" then entry contexts q d else Some current.
Proof.
  intros Hs. unfold LLMRewriter.fill_in.
  apply (fill_loops
           (fun q docs '(d, doc) rows =>
              current <- lift (Py.getitem2 rows q d) ;;
              if String.eqb current "" then
                original <- lift (Py.getitem docs d) ;;
                lift (Py.setitem2 rows q d original)
              else ret rows)); [done |].
  intros q docs d doc rows Hq Hd Hrows.
  destruct (entry rows q d) as [current |] eqn:He.
  - rewrite (bind_lift_Returned _ _ _ _ (getitem2_entry _ _ _ _ He)).
    destruct (String.eqb current ""); [| done].
    unfold Py.getitem. rewrite Hd. done.
  - destruct (getitem2_Raised _ _ _ He) as [e He'].
    exfalso. assert (is_Some (entry rows q d)) as [? ?]; [| congruence].
    apply (same_shape_entry rows contexts); [done |].
    rewrite (entry_lookup _ _ _ _ Hq). by exists doc.
Qed.

Lemma rewritten_entry_empty (original_text rewritten_passage : string) :
  LLMRewriter.rewritten_entry self original_text rewritten_passage = ""%string ->
  original_text = ""%string.
Proof.
  unfold LLMRewriter.rewritten_entry. cbv zeta.
  destruct (0 <? PyStr.len (PyStr.strip rewritten_passage)) eqn:E; [| done].
  apply len_pos in E. destruct (LLMRewriter.concatenate_original self); [| done].
  by destruct original_text.
Qed.

(** [_process] with [process_separately=True], phase by phase. *)
Lemma process_separately_spec (contexts : list (list string)) (queries : list string)
      (w : World GS) :
  LLMRewriter.process_separately self = true ->
  LLMRewriter.accepts_slots (LLMRewriter.rewrite_prompt_template self) ->
  0 < LLMRewriter.batch_size self ->
  respects_contract generate ->
  let w0 := with_max_new_tokens (LLMRewriter.max_new_tokens self) w in
  exists all_prompts query_doc_mapping rewritten_passages w1 out,
    LLMRewriter.collect_prompts self contexts queries w0
    = (Returned (all_prompts, query_doc_mapping), w0)
    /\ collected_all (LLMRewriter.prompt_for self) queries contexts
                      all_prompts query_doc_mapping
    /\ generate_in_batches generate (LLMRewriter.batch_size self) all_prompts w0
       = (Returned rewritten_passages, w1)
    /\ batches_done generate (Z.to_nat (LLMRewriter.batch_size self)) all_prompts w0 w1
                    rewritten_passages
    /\ LLMRewriter._process generate self contexts queries w
       = (Returned (out, []),
          with_max_new_tokens (Generator.max_new_tokens (generator w)) w1)
    /\ same_shape out contexts
    /\ (forall k q d, query_doc_mapping !! k = Some (q, d) ->
          exists original_text rewritten_passage,
            entry contexts q d = Some original_text
            /\ rewritten_passages !! k = Some rewritten_passage
            /\ entry out q d
               = Some (LLMRewriter.rewritten_entry self original_text rewritten_passage))
    /\ (forall q d, (q, d) ∉ query_doc_mapping -> entry out q d = entry contexts q d).
Proof.
  intros Hsep Htmpl HB Hcontract w0.
  destruct (collect_prompts_spec contexts queries w0 Htmpl) as (ps & ms & Hcol & Hall).
  destruct (generate_in_batches_spec generate Hcontract (LLMRewriter.batch_size self) ps w0 HB)
    as (rw & w1 & Hgen & Hdone).
  assert (length rw = length ps) as Hlen.
  { by destruct Hdone as (new & _ & _ & _ & _ & _ & Hl & _). }
  destruct (reconstruct_spec contexts queries ps ms rw w1 Hall Hlen)
    as (rows1 & Hrec & Hs1 & Hin1 & Hout1).
  destruct (fill_in_spec contexts rows1 w1 Hs1) as (out & Hfill & Hs & Hent).
  exists ps, ms, rw, w1, out.
  split; [done |]. split; [done |]. split; [done |]. split; [done |]. split.
  - unfold LLMRewriter._process. rewrite Hsep.
    unfold bind at 1. unfold get_max_new_tokens.
    unfold bind at 1. unfold set_max_new_tokens. fold w0.
    unfold bind at 1. unfold bind at 1. rewrite Hcol.
    unfold bind at 1. rewrite Hgen.
    unfold bind at 1. rewrite Hrec. rewrite Hfill.
    unfold bind at 1. done.
  - split; [done |]. split.
    + intros k q d Hk. destruct (Hin1 k q d Hk) as (o & p & Ho & Hp & He).
      exists o, p. split; [done |]. split; [done |].
      rewrite (Hent q d _ He).
      destruct (String.eqb (LLMRewriter.rewritten_entry self o p) "") eqn:Eq; [| done].
      apply String.eqb_eq in Eq. rewrite Eq. rewrite Ho.
      by rewrite (rewritten_entry_empty _ _ Eq).
    + intros q d Hno. destruct (entry contexts q d) as [doc |] eqn:Hc.
      * rewrite (Hent q d ""%string); [by simpl |].
        apply Hout1; [done |]. rewrite Hc. by eexists.
      * destruct (entry out q d) eqn:Ho; [| done].
        assert (is_Some (entry contexts q d)) as [? ?]; [| congruence].
        apply (same_shape_entry out contexts); [done | by eexists].
Qed.

End Rewriter.

(** ** The phases of LLMRewriter._process, all documents together *)

Section Combined.

Context {GS : Type}.
Variable generate : Generator.t GS -> list string -> result (list string) * Generator.t GS.
Variable self : LLMRewriter.t.

Lemma combined_prompts_spec (contexts : list (list string)) (queries : list string)
      (w : World GS) :
  LLMRewriter.accepts_slots (LLMRewriter.rewrite_prompt_template self) ->
  exists all_prompts,
    LLMRewriter.combined_prompts self contexts queries w = (Returned all_prompts, w)
    /\ length all_prompts = length (zip queries contexts)
    /\ forall q query docs,
         queries !! q = Some query -> contexts !! q = Some docs ->
         exists prompt,
           all_prompts !! q = Some prompt
           /\ LLMRewriter.prompt_for self query (LLMRewriter.labeled "Passage" docs) prompt.
Proof.
  intros Htmpl. unfold LLMRewriter.combined_prompts.
  pose (Inv := fun (n : nat) (ps : list string) (w' : World GS) =>
    w' = w /\ length ps = n
    /\ forall q query docs,
         (q < n)%nat -> queries !! q = Some query -> contexts !! q = Some docs ->
         exists prompt,
           ps !! q = Some prompt
           /\ LLMRewriter.prompt_for self query (LLMRewriter.labeled "Passage" docs) prompt).
  match goal with
  | |- context [for_ ?xs ?body ?s ?w0] =>
      destruct (for__rule Inv body xs s w0) as (ps & w' & Hfor & (-> & Hlen & HI))
  end.
  - split; [done |]. split; [done |]. intros; lia.
  - intros n [query docs] ps w1 Hn (-> & Hlen & HI).
    apply lookup_zip_with_Some in Hn as (? & ? & [= <- <-] & Hq & Hc).
    destruct (Htmpl query (LLMRewriter.labeled "Passage" docs)) as [prompt Hp].
    cbv zeta. fold (LLMRewriter.labeled "Passage" docs).
    rewrite (bind_lift_Returned _ _ _ _ Hp).
    eexists _, _. split; [done |]. split; [done |].
    split; [rewrite length_app; simpl; lia |].
    intros q query' docs' Hlt Hq' Hc'. destruct (decide (q = n)) as [-> | Hne].
    + exists prompt. split.
      * rewrite lookup_app_r by lia. by rewrite Hlen, Nat.sub_diag.
      * congruence.
    + destruct (HI q query' docs') as (prompt' & Hp' & HR); [lia | done | done |].
      exists prompt'. split; [| done]. by apply lookup_app_l_Some.
  - exists ps. split; [done |]. split; [done |].
    intros q query docs Hq Hc. apply (HI q query docs); [| done | done].
    rewrite length_zip. apply lookup_lt_Some in Hq. apply lookup_lt_Some in Hc. lia.
Qed.

Lemma combine_results_spec (contexts : list (list string)) (rewritten_combined : list string)
      (w : World GS) :
  (length rewritten_combined <= length contexts)%nat ->
  exists out,
    LLMRewriter.combine_results self contexts rewritten_combined w = (Returned out, w)
    /\ length out = length rewritten_combined
    /\ forall q rewritten,
         rewritten_combined !! q = Some rewritten ->
         exists docs,
           contexts !! q = Some docs
           /\ out !! q = Some (LLMRewriter.combined_entry self docs rewritten).
Proof.
  intros Hle. unfold LLMRewriter.combine_results.
  pose (Inv := fun (n : nat) (out : list (list string)) (w' : World GS) =>
    w' = w /\ length out = n
    /\ forall q rewritten,
         (q < n)%nat -> rewritten_combined !! q = Some rewritten ->
         exists docs,
           contexts !! q = Some docs
           /\ out !! q = Some (LLMRewriter.combined_entry self docs rewritten)).
  match goal with
  | |- context [for_ _ ?body ?s ?w0] =>
      destruct (for__enumerate_rule Inv body rewritten_combined s w0)
        as (out & w' & Hfor & (-> & Hlen & HI))
  end.
  - split; [done |]. split; [done |]. intros; lia.
  - intros n rewritten out w1 Hn (-> & Hlen & HI).
    assert (is_Some (contexts !! n)) as [docs Hdocs].
    { apply lookup_lt_is_Some. apply lookup_lt_Some in Hn. lia. }
    exists (out ++ [LLMRewriter.combined_entry self docs rewritten]), w. split.
    + unfold LLMRewriter.combined_entry.
      destruct (0 <? PyStr.len (PyStr.strip rewritten)).
      * destruct (LLMRewriter.concatenate_original self); [| done].
        unfold Py.getitem. rewrite Hdocs. done.
      * unfold Py.getitem. rewrite Hdocs. done.
    + split; [done |]. split; [rewrite length_app; simpl; lia |].
      intros q r Hlt Hq. destruct (decide (q = n)) as [-> | Hne].
      * exists docs. split; [done |].
        rewrite lookup_app_r by lia. rewrite Hlen, Nat.sub_diag. simpl. congruence.
      * destruct (HI q r) as (docs' & Hd & Ho); [lia | done |].
        exists docs'. split; [done |]. by apply lookup_app_l_Some.
  - exists out. split; [done |]. split; [done |].
    intros q r Hq. apply HI; [| done]. by apply lookup_lt_Some in Hq.
Qed.

(** [_process] with [process_separately=False], phase by phase. *)
Lemma process_combined_spec (contexts : list (list string)) (queries : list string)
      (w : World GS) :
  LLMRewriter.process_separately self = false ->
  LLMRewriter.accepts_slots (LLMRewriter.rewrite_prompt_template self) ->
  0 < LLMRewriter.batch_size self ->
  respects_contract generate ->
  let w0 := with_max_new_tokens (LLMRewriter.max_new_tokens self) w in
  exists all_prompts rewritten_combined w1 out,
    LLMRewriter.combined_prompts self contexts queries w0 = (Returned all_prompts, w0)
    /\ length all_prompts = length (zip queries contexts)
    /\ (forall q query docs,
          queries !! q = Some query -> contexts !! q = Some docs ->
          exists prompt,
            all_prompts !! q = Some prompt
            /\ LLMRewriter.prompt_for self query (LLMRewriter.labeled "Passage" docs) prompt)
    /\ generate_in_batches generate (LLMRewriter.batch_size self) all_prompts w0
       = (Returned rewritten_combined, w1)
    /\ batches_done generate (Z.to_nat (LLMRewriter.batch_size self)) all_prompts w0 w1
                    rewritten_combined
    /\ LLMRewriter._process generate self contexts queries w
       = (Returned (out, []),
          with_max_new_tokens (Generator.max_new_tokens (generator w)) w1)
    /\ length out = length rewritten_combined
    /\ forall q rewritten,
         rewritten_combined !! q = Some rewritten ->
         exists docs,
           contexts !! q = Some docs
           /\ out !! q = Some (LLMRewriter.combined_entry self docs rewritten).
Proof.
  intros Hsep Htmpl HB Hcontract w0.
  destruct (combined_prompts_spec contexts queries w0 Htmpl) as (ps & Hcol & Hlen & Hps).
  destruct (generate_in_batches_spec generate Hcontract (LLMRewriter.batch_size self) ps w0 HB)
    as (rw & w1 & Hgen & Hdone).
  assert (length rw = length ps) as Hlenrw.
  { by destruct Hdone as (new & _ & _ & _ & _ & _ & Hl & _). }
  destruct (combine_results_spec contexts rw w1) as (out & Hout & Hlo & Hent).
  { rewrite Hlenrw, Hlen, length_zip. lia. }
  exists ps, rw, w1, out.
  split; [done |]. split; [done |]. split; [done |]. split; [done |]. split; [done |].
  split; [| done].
  unfold LLMRewriter._process. rewrite Hsep.
  unfold bind at 1. unfold get_max_new_tokens.
  unfold bind at 1. unfold set_max_new_tokens. fold w0.
  unfold bind at 1. unfold bind at 1. rewrite Hcol.
  unfold bind at 1. rewrite Hgen. rewrite Hout.
  unfold bind at 1. done.
Qed.

End Combined.

(** ** The phases of LLMRewriterWithTitle._process *)

Section WithTitle.

Context {GS : Type}.
Variable generate : Generator.t GS -> list string -> result (list string) * Generator.t GS.
Variable sent_tokenize : string -> result (list string).
Variable self : LLMRewriterWithTitle.t.

(** [_split_title_content] never raises. *)
Lemma split_title_content_returns (doc : string) :
  exists title content,
    LLMRewriterWithTitle._split_title_content sent_tokenize doc = Returned (title, content).
Proof.
  unfold LLMRewriterWithTitle._split_title_content, try_except.
  assert (exists title content,
            (let parts := PyStr.split1 ". " doc in
             if (length parts =? 2)%nat then
               before <~ Py.getitem parts 0 ;;
               after <~ Py.getitem parts 1 ;;
               Returned (before +:+ ".", after)
             else Returned (""%string, doc)) = Returned (title, content)) as Hfallback.
  { cbv zeta. destruct (PyStr.split1 ". " doc) as [| a [| b [| c l]]]; simpl; by eexists _, _. }
  destruct (sent_tokenize doc) as [sentences | e]; simpl; [| done].
  destruct sentences as [| first rest]; simpl; by eexists _, _.
Qed.

Lemma title_collect_prompts_spec (contexts : list (list string)) (queries : list string)
      (w : World GS) :
  LLMRewriterWithTitle.accepts_slots (LLMRewriterWithTitle.rewrite_prompt_template self) ->
  exists all_prompts query_doc_mapping titles,
    LLMRewriterWithTitle.collect_prompts sent_tokenize self contexts queries w
    = (Returned (all_prompts, query_doc_mapping, titles), w)
    /\ collected_all (LLMRewriterWithTitle.prompt_for sent_tokenize self) queries contexts
                     all_prompts query_doc_mapping
    /\ collected_all (LLMRewriterWithTitle.title_for sent_tokenize) queries contexts
                     titles query_doc_mapping.
Proof.
  intros Htmpl. unfold LLMRewriterWithTitle.collect_prompts.
  set (R := LLMRewriterWithTitle.prompt_for sent_tokenize self).
  set (T := LLMRewriterWithTitle.title_for sent_tokenize).
  pose (Inv := fun (i j : nat) (s : list string * list (nat * nat) * list string)
                   (w' : World GS) =>
                 w' = w
                 /\ collected R queries contexts i j s.1.1 s.1.2
                 /\ collected T queries contexts i j s.2 s.1.2).
  match goal with
  | |- context [for_ ?xs ?body ?s ?w0] =>
      destruct (for__enumerate_rule (fun i => Inv i 0%nat) body (zip queries contexts) s w0)
        as ([[ps ms] ts] & w' & Hfor & (-> & HI & HT))
  end.
  - split; [done |]. split; apply collected_start.
  - intros i [query docs] [[ps ms] ts] w1 Hi (-> & HI & HT).
    apply lookup_zip_with_Some in Hi as (? & ? & [= <- <-] & Hq & Hc).
    match goal with
    | |- context [for_ ?xs ?body ?s ?w0] =>
        destruct (for__enumerate_rule (Inv i) body docs s w0)
          as ([[ps' ms'] ts'] & w' & Hfor & (-> & HI' & HT'))
    end.
    + done.
    + intros j doc [[ps1 ms1] ts1] w1 Hj (-> & HI1 & HT1). simpl in HI1, HT1.
      destruct (PyStr.len (PyStr.strip doc) =? 0) eqn:Eb.
      * apply len_eq_0 in Eb. eexists _, _. split; [done |]. split; [done |].
        simpl. split.
        -- by apply (collected_skip R queries contexts i j ps1 ms1 docs doc).
        -- by apply (collected_skip T queries contexts i j ts1 ms1 docs doc).
      * apply len_eq_0_false in Eb.
        destruct (split_title_content_returns doc) as (title & content & Hsplit).
        destruct (Htmpl query title content) as [prompt Hp].
        rewrite (bind_lift_Returned _ _ _ _ Hsplit).
        rewrite (bind_lift_Returned _ _ _ _ Hp).
        eexists _, _. split; [done |]. split; [done |]. simpl. split.
        -- apply (collected_push R queries contexts i j ps1 ms1 query docs doc prompt);
             try done. by exists title, content.
        -- apply (collected_push T queries contexts i j ts1 ms1 query docs doc title);
             try done. by exists content.
    + exists (ps', ms', ts'), w. split; [done |]. split; [done |]. simpl in *. split.
      * by apply (collected_next_row R queries contexts i ps' ms' docs).
      * by apply (collected_next_row T queries contexts i ts' ms' docs).
  - exists ps, ms, ts. split; [done |]. split; by apply collected_finish.
Qed.

Lemma title_reconstruct_spec (contexts : list (list string))
      (queries all_prompts : list string)
      (query_doc_mapping : list (nat * nat)) (titles rewritten_contents : list string)
      (w : World GS) :
  collected_all (LLMRewriterWithTitle.prompt_for sent_tokenize self) queries contexts
                all_prompts query_doc_mapping ->
  collected_all (LLMRewriterWithTitle.title_for sent_tokenize) queries contexts
                titles query_doc_mapping ->
  length rewritten_contents = length all_prompts ->
  exists rows,
    LLMRewriterWithTitle.reconstruct self contexts query_doc_mapping titles
                                     rewritten_contents w
    = (Returned rows, w)
    /\ same_shape rows contexts
    /\ (forall k q d, query_doc_mapping !! k = Some (q, d) ->
          exists original_text title rewritten_content,
            entry contexts q d = Some original_text
            /\ titles !! k = Some title
            /\ rewritten_contents !! k = Some rewritten_content
            /\ entry rows q d
               = Some (LLMRewriterWithTitle.rewritten_entry self original_text title
                                                            rewritten_content))
    /\ (forall q d, (q, d) ∉ query_doc_mapping -> is_Some (entry contexts q d) ->
          entry rows q d = Some ""%string).
Proof.
  intros (Hlen & Hnd & Hin & Hall) (Hlent & _ & Hint & _) Hrw.
  unfold LLMRewriterWithTitle.reconstruct. cbv zeta.
  pose (V := fun (k : nat) (v : string) =>
    exists q d original_text title rewritten_content,
      query_doc_mapping !! k = Some (q, d)
      /\ entry contexts q d = Some original_text
      /\ titles !! k = Some title
      /\ rewritten_contents !! k = Some rewritten_content
      /\ v = LLMRewriterWithTitle.rewritten_entry self original_text title rewritten_content).
  match goal with
  | |- context [for_ _ ?body ?s ?w0] =>
      destruct (assign_loop V body query_doc_mapping contexts s w0)
        as (rows & Hfor & Hs & Hdone & Hrest)
  end.
  - done.
  - apply blank_rows_shape.
  - intros k q d Hk.
    destruct (Hin k q d Hk) as (query & docs & doc & item & _ & Hc & Hd & _).
    rewrite (entry_lookup _ _ _ _ Hc). by exists doc.
  - intros k q d rows Hk Hs.
    destruct (Hin k q d Hk) as (query & docs & doc & item & _ & Hc & Hd & _ & _ & Hit).
    destruct (Hint k q d Hk) as (? & ? & ? & title & _ & _ & _ & _ & _ & Htitle).
    assert (entry contexts q d = Some doc) as He by by rewrite (entry_lookup _ _ _ _ Hc).
    assert (is_Some (rewritten_contents !! k)) as [p Hp].
    { apply lookup_lt_is_Some. rewrite Hrw. by apply lookup_lt_Some in Hit. }
    exists (LLMRewriterWithTitle.rewritten_entry self doc title p). split.
    + by exists q, d, doc, title, p.
    + rewrite (bind_lift_Returned _ _ _ _ (getitem2_entry _ _ _ _ He)).
      unfold Py.getitem at 1. rewrite Hp.
      rewrite (bind_lift_Returned _ _ _ _ eq_refl).
      unfold Py.getitem at 1. rewrite Htitle.
      rewrite (bind_lift_Returned _ _ _ _ eq_refl).
      unfold LLMRewriterWithTitle.rewritten_entry, lift.
      destruct (PyStr.len (PyStr.strip p) =? 0); [done |].
      by destruct (LLMRewriterWithTitle.concatenate_original self).
  - exists rows. split; [done |]. split; [done |]. split.
    + intros k q d Hk.
      destruct (Hdone k q d Hk) as (v & (q' & d' & o & t & p & Hk' & Ho & Ht & Hp & ->) & He).
      rewrite Hk in Hk'. injection Hk' as <- <-. by exists o, t, p.
    + intros q d Hno Hsome. rewrite (Hrest q d Hno). by apply blank_rows_entry.
Qed.

Lemma title_fill_in_spec (contexts rows1 : list (list string)) (w : World GS) :
  same_shape rows1 contexts ->
  exists rows,
    LLMRewriterWithTitle.fill_in contexts rows1 w = (Returned rows, w)
    /\ same_shape rows contexts
    /\ forall q d current, entry rows1 q d = Some current ->
         entry rows q d = if String.eqb current "" then entry contexts q d else Some current.
Proof.
  intros Hs. unfold LLMRewriterWithTitle.fill_in.
  apply (fill_loops
           (fun q (docs : list string) '(d, doc) rows =>
              current <- lift (Py.getitem2 rows q d) ;;
              if String.eqb current "" then lift (Py.setitem2 rows q d doc)
              else ret rows)); [done |].
  intros q docs d doc rows Hq Hd Hrows.
  destruct (entry rows q d) as [current |] eqn:He.
  - rewrite (bind_lift_Returned _ _ _ _ (getitem2_entry _ _ _ _ He)).
    by destruct (String.eqb current "").
  - exfalso. assert (is_Some (entry rows q d)) as [? ?]; [| congruence].
    apply (same_shape_entry rows contexts); [done |].
    rewrite (entry_lookup _ _ _ _ Hq). by exists doc.
Qed.

Lemma title_rewritten_entry_empty (original_text title rewritten_content : string) :
  LLMRewriterWithTitle.rewritten_entry self original_text title rewritten_content = ""%string ->
  original_text = ""%string.
Proof.
  unfold LLMRewriterWithTitle.rewritten_entry. cbv zeta.
  destruct (PyStr.len (PyStr.strip rewritten_content) =? 0) eqn:E; [done |].
  destruct (LLMRewriterWithTitle.concatenate_original self).
  - by destruct original_text.
  - destruct title; discriminate.
Qed.

(** [LLMRewriterWithTitle._process], phase by phase. *)
Lemma title_process_spec (contexts : list (list string)) (queries : list string)
      (w : World GS) :
  LLMRewriterWithTitle.accepts_slots (LLMRewriterWithTitle.rewrite_prompt_template self) ->
  0 < LLMRewriterWithTitle.batch_size self ->
  respects_contract generate ->
  let w0 := with_max_new_tokens (LLMRewriterWithTitle.max_new_tokens self) w in
  exists all_prompts query_doc_mapping titles rewritten_contents w1 out,
    LLMRewriterWithTitle.collect_prompts sent_tokenize self contexts queries w0
    = (Returned (all_prompts, query_doc_mapping, titles), w0)
    /\ collected_all (LLMRewriterWithTitle.prompt_for sent_tokenize self) queries contexts
                      all_prompts query_doc_mapping
    /\ collected_all (LLMRewriterWithTitle.title_for sent_tokenize) queries contexts
                      titles query_doc_mapping
    /\ generate_in_batches generate (LLMRewriterWithTitle.batch_size self) all_prompts w0
       = (Returned rewritten_contents, w1)
    /\ batches_done generate (Z.to_nat (LLMRewriterWithTitle.batch_size self))
                    all_prompts w0 w1 rewritten_contents
    /\ LLMRewriterWithTitle._process generate sent_tokenize self contexts queries w
       = (Returned (out, []),
          with_max_new_tokens (Generator.max_new_tokens (generator w)) w1)
    /\ same_shape out contexts
    /\ (forall k q d, query_doc_mapping !! k = Some (q, d) ->
          exists original_text title rewritten_content,
            entry contexts q d = Some original_text
            /\ titles !! k = Some title
            /\ rewritten_contents !! k = Some rewritten_content
            /\ entry out q d
               = Some (LLMRewriterWithTitle.rewritten_entry self original_text title
                                                            rewritten_content))
    /\ (forall q d, (q, d) ∉ query_doc_mapping -> entry out q d = entry contexts q d).
Proof.
  intros Htmpl HB Hcontract w0.
  destruct (title_collect_prompts_spec contexts queries w0 Htmpl)
    as (ps & ms & ts & Hcol & Hall & Hallt).
  destruct (generate_in_batches_spec generate Hcontract
              (LLMRewriterWithTitle.batch_size self) ps w0 HB)
    as (rw & w1 & Hgen & Hdone).
  assert (length rw = length ps) as Hlen.
  { by destruct Hdone as (new & _ & _ & _ & _ & _ & Hl & _). }
  destruct (title_reconstruct_spec contexts queries ps ms ts rw w1 Hall Hallt Hlen)
    as (rows1 & Hrec & Hs1 & Hin1 & Hout1).
  destruct (title_fill_in_spec contexts rows1 w1 Hs1) as (out & Hfill & Hs & Hent).
  exists ps, ms, ts, rw, w1, out.
  split; [done |]. split; [done |]. split; [done |]. split; [done |]. split; [done |].
  split.
  - unfold LLMRewriterWithTitle._process.
    unfold bind at 1. unfold get_max_new_tokens.
    unfold bind at 1. unfold set_max_new_tokens. fold w0.
    unfold bind at 1. rewrite Hcol.
    unfold bind at 1. rewrite Hgen.
    unfold bind at 1. rewrite Hrec.
    unfold bind at 1. rewrite Hfill.
    unfold bind at 1. done.
  - split; [done |]. split.
    + intros k q d Hk. destruct (Hin1 k q d Hk) as (o & t & p & Ho & Ht & Hp & He).
      exists o, t, p. split; [done |]. split; [done |]. split; [done |].
      rewrite (Hent q d _ He).
      destruct (String.eqb (LLMRewriterWithTitle.rewritten_entry self o t p) "") eqn:Eq;
        [| done].
      apply String.eqb_eq in Eq. rewrite Eq. rewrite Ho.
      by rewrite (title_rewritten_entry_empty _ _ _ Eq).
    + intros q d Hno. destruct (entry contexts q d) as [doc |] eqn:Hc.
      * rewrite (Hent q d ""%string); [by simpl |].
        apply Hout1; [done |]. rewrite Hc. by eexists.
      * destruct (entry out q d) eqn:Ho; [| done].
        assert (is_Some (entry contexts q d)) as [? ?]; [| congruence].
        apply (same_shape_entry out contexts); [done | by eexists].
Qed.

End WithTitle.

(** ** The templates and generators of the examples *)

Lemma default_template_accepts_slots :
  LLMRewriter.accepts_slots LLMRewriter.default_rewrite_prompt_template.
Proof. intros query passage. eexists. vm_compute. reflexivity. Qed.

Lemma default_title_template_accepts_slots :
  LLMRewriterWithTitle.accepts_slots LLMRewriterWithTitle.default_rewrite_prompt_template.
Proof. intros query title content. eexists. vm_compute. reflexivity. Qed.

Lemma mock_respects_contract : respects_contract Examples.mock_generate.
Proof. intros g prompts. simpl. by rewrite length_map. Qed.

Lemma flaky_respects_contract : respects_contract Examples.flaky_generate.
Proof.
  intros g prompts. unfold Examples.flaky_generate.
  destruct (Generator.state g); simpl; [done | by rewrite length_map].
Qed.

(** ** What the calls of a run cover *)


(** ** Blank documents and the others *)

Section Blank.

Context {X : Type} (R : string -> string -> X -> Prop).
Variables (queries : list string) (contexts : list (list string)).
Variables (items : list X) (mapping : list (nat * nat)).
Hypothesis Hcollected : collected_all R queries contexts items mapping.

Lemma blank_not_collected q d doc :
entry contexts q d = Some doc -> PyStr.is_blank doc = true -> (q, d) ∉ mapping.
Proof.
intros He Hblank Hel. destruct Hcollected as (_ & _ & Hin & _).
apply list_elem_of_lookup in Hel as [k Hk].
destruct (Hin k q d Hk) as (query & docs & doc' & item & _ & Hc & Hd & Hne & _).
rewrite (entry_lookup _ _ _ _ Hc), Hd in He. injection He as ->.
by apply strip_blank in Hblank.
Qed.

Lemma item_origin k item :
items !! k = Some item ->
exists q d query doc,
  mapping !! k = Some (q, d)
  /\ queries !! q = Some query
  /\ entry contexts q d = Some doc
  /\ PyStr.is_blank doc = false
  /\ R query doc item.
Proof.
intros Hk. destruct Hcollected as (Hlen & _ & Hin & _).
assert (is_Some (mapping !! k)) as [[q d] Hm].
{ apply lookup_lt_is_Some. rewrite <- Hlen. by apply lookup_lt_Some in Hk. }
destruct (Hin k q d Hm) as (query & docs & doc & item' & Hq & Hc & Hd & Hne & HR & Hit).
assert (item' = item) as -> by congruence.
exists q, d, query, doc. split; [done |]. split; [done |].
split; [by rewrite (entry_lookup _ _ _ _ Hc) |]. split; [| done].
destruct (PyStr.is_blank doc) eqn:E; [| done]. by apply strip_blank in E.
Qed.

Lemma nonblank_collected q d query doc :
  queries !! q = Some query -> entry contexts q d = Some doc ->
  PyStr.is_blank doc = false ->
  exists k, mapping !! k = Some (q, d).
Proof.
  intros Hq He Hnb. destruct Hcollected as (_ & _ & _ & Hall).
  unfold entry in He. destruct (contexts !! q) as [docs |] eqn:Hc; [| done].
  apply list_elem_of_lookup. apply (Hall q d query docs doc); try done.
  intros Hs. apply strip_blank in Hs. congruence.
Qed.

End Blank.

(** ** The shape of the result *)

Lemma same_shape_rows (out contexts : list (list string)) :
  same_shape out contexts ->
  length out = length contexts
  /\ forall q docs, contexts !! q = Some docs ->
       exists row, out !! q = Some row /\ length row = length docs.
Proof.
  intros Hs. split; [by apply same_shape_length |].
  intros q docs Hq. by apply (same_shape_row contexts out); [apply same_shape_sym |].
Qed.

(** C1: for contexts and queries of equal lengths, [LLMRewriter._process]
    with [process_separately=True] and [LLMRewriterWithTitle._process]
    return, and the contexts returned have as many queries as the input
    and, for every query, as many documents as the input: no document
    is dropped or added.  (The batch size is at least 1, the template
    has the slots the code fills, and the generator keeps to its
    contract.) *)
Theorem C1_shape_preserved {GS}
        (generate : Generator.t GS -> list string -> result (list string) * Generator.t GS)
        (sent_tokenize : string -> result (list string))
        (self : LLMRewriter.t) (self_title : LLMRewriterWithTitle.t)
        (contexts : list (list string)) (queries : list string) (w : World GS) :
  length contexts = length queries ->
  respects_contract generate ->
  LLMRewriter.process_separately self = true ->
  LLMRewriter.accepts_slots (LLMRewriter.rewrite_prompt_template self) ->
  1 <= LLMRewriter.batch_size self ->
  LLMRewriterWithTitle.accepts_slots (LLMRewriterWithTitle.rewrite_prompt_template self_title) ->
  1 <= LLMRewriterWithTitle.batch_size self_title ->
  (exists out w',
      LLMRewriter._process generate self contexts queries w = (Returned (out, []), w')
      /\ length out = length queries
      /\ forall q docs, contexts !! q = Some docs ->
           exists row, out !! q = Some row /\ length row = length docs)
  /\ (exists out w',
        LLMRewriterWithTitle._process generate sent_tokenize self_title contexts queries w
        = (Returned (out, []), w')
        /\ length out = length queries
        /\ forall q docs, contexts !! q = Some docs ->
             exists row, out !! q = Some row /\ length row = length docs).
Proof.
  intros Hlen Hcontract Hsep Htmpl HB Htmplt HBt. split.
  - destruct (process_separately_spec generate self contexts queries w Hsep Htmpl ltac:(lia)
                Hcontract)
      as (ps & ms & rw & w1 & out & _ & _ & _ & _ & Hp & Hs & _).
    destruct (same_shape_rows out contexts Hs) as [Hl Hrows].
    eexists out, _. split; [done |]. split; [congruence | done].
  - destruct (title_process_spec generate sent_tokenize self_title contexts queries w Htmplt
                ltac:(lia) Hcontract)
      as (ps & ms & ts & rw & w1 & out & _ & _ & _ & _ & _ & Hp & Hs & _).
    destruct (same_shape_rows out contexts Hs) as [Hl Hrows].
    eexists out, _. split; [done |]. split; [congruence | done].
Qed.

Lemma C1_shape_preserved_witness :
  (exists out w',
      LLMRewriter._process Examples.mock_generate (Examples.rewriter 1 true true)
                           Examples.contexts1 Examples.queries1 Examples.mock_world
      = (Returned (out, []), w')
      /\ length out = length Examples.queries1
      /\ forall q docs, Examples.contexts1 !! q = Some docs ->
           exists row, out !! q = Some row /\ length row = length docs)
  /\ (exists out w',
        LLMRewriterWithTitle._process Examples.mock_generate Examples.cut_at_full_stop
                                      (Examples.title_rewriter 1 true)
                                      Examples.contexts1 Examples.queries1 Examples.mock_world
        = (Returned (out, []), w')
        /\ length out = length Examples.queries1
        /\ forall q docs, Examples.contexts1 !! q = Some docs ->
             exists row, out !! q = Some row /\ length row = length docs).
Proof.
  apply (C1_shape_preserved Examples.mock_generate Examples.cut_at_full_stop
           (Examples.rewriter 1 true true) (Examples.title_rewriter 1 true)
           Examples.contexts1 Examples.queries1 Examples.mock_world).
  - reflexivity.
  - intros g prompts. simpl. apply length_map.
  - reflexivity.
  - intros query passage. eexists. vm_compute. reflexivity.
  - simpl. lia.
  - intros query title content. eexists. vm_compute. reflexivity.
  - simpl. lia.
Defined.

(** ** Each document rewritten on its own *)

Lemma calls_with_max_new_tokens {GS} (v : Z) (w : World GS) :
  calls (with_max_new_tokens v w) = calls w.
Proof. done. Qed.

Lemma replies_Raised (c : Call) (e : exn) (j : nat) :
  call_outcome c = Raised e -> (j < length (call_prompts c))%nat ->
  replies c !! j = Some ""%string.
Proof.
  intros He Hj. unfold replies. rewrite He. rewrite list_lookup_fmap.
  apply lookup_lt_is_Some in Hj as [p ->]. done.
Qed.

Lemma rewritten_entry_fallback (self : LLMRewriter.t) (original_text rewritten_passage : string) :
  PyStr.strip rewritten_passage = ""%string ->
  LLMRewriter.rewritten_entry self original_text rewritten_passage = original_text.
Proof. unfold LLMRewriter.rewritten_entry. by intros ->. Qed.

Lemma rewritten_entry_success (self : LLMRewriter.t) (original_text rewritten_passage : string) :
  PyStr.strip rewritten_passage <> ""%string ->
  LLMRewriter.rewritten_entry self original_text rewritten_passage
  = if LLMRewriter.concatenate_original self then
      original_text +:+ PyStr.nl +:+ PyStr.nl +:+ "Refined version: "
        +:+ PyStr.strip rewritten_passage
    else PyStr.strip rewritten_passage.
Proof.
  intros Hne. unfold LLMRewriter.rewritten_entry. cbv zeta.
  apply len_pos in Hne. by rewrite Hne.
Qed.

Lemma prefix_append (s t : string) : String.prefix s (s +:+ t) = true.
Proof.
  induction s as [| c s IH]; simpl; [by destruct t |].
  destruct (ascii_dec c c); [done | congruence].
Qed.

(** A document that is not blank has a rank in the mapping, and a
    text from the generator at that rank. *)
Lemma mapped_reply {X} (R : string -> string -> X -> Prop)
      (queries : list string) (contexts : list (list string))
      (items : list X) (mapping : list (nat * nat)) (rewritten : list string) :
  collected_all R queries contexts items mapping ->
  length rewritten = length items ->
  forall q d query doc,
    queries !! q = Some query -> entry contexts q d = Some doc ->
    PyStr.is_blank doc = false ->
    exists k text, mapping !! k = Some (q, d) /\ rewritten !! k = Some text.
Proof.
  intros Hall Hlen q d query doc Hq He Hnb.
  destruct (nonblank_collected R queries contexts items mapping Hall q d query doc Hq He Hnb)
    as [k Hk].
  assert (is_Some (rewritten !! k)) as [text Ht].
  { apply lookup_lt_is_Some. destruct Hall as (Hl & _). rewrite Hlen, Hl.
    by apply lookup_lt_Some in Hk. }
  by exists k, text.
Qed.

(** C3: with [process_separately=True], [_process] returns whatever the
    calls of [generate] did: an exception raised for one batch is not
    propagated, and every batch is submitted all the same.  Every
    document that is not blank has a rank in the mapping and a text
    from the generator at that rank; a document whose text is empty
    once trimmed, or whose batch raised, has its original text at its
    place in the result. *)
Theorem C3_fallback_to_original {GS}
        (generate : Generator.t GS -> list string -> result (list string) * Generator.t GS)
        (self : LLMRewriter.t)
        (contexts : list (list string)) (queries : list string) (w : World GS) :
  respects_contract generate ->
  LLMRewriter.process_separately self = true ->
  LLMRewriter.accepts_slots (LLMRewriter.rewrite_prompt_template self) ->
  1 <= LLMRewriter.batch_size self ->
  let B := Z.to_nat (LLMRewriter.batch_size self) in
  let w0 := with_max_new_tokens (LLMRewriter.max_new_tokens self) w in
  exists all_prompts query_doc_mapping rewritten_passages w1 new out w',
    LLMRewriter.collect_prompts self contexts queries w0
    = (Returned (all_prompts, query_doc_mapping), w0)
    /\ generate_in_batches generate (LLMRewriter.batch_size self) all_prompts w0
       = (Returned rewritten_passages, w1)
    /\ LLMRewriter._process generate self contexts queries w = (Returned (out, []), w')
    /\ calls w' = calls w ++ new
    /\ Z.of_nat (length new)
       = (Z.of_nat (length all_prompts) + LLMRewriter.batch_size self - 1)
           / LLMRewriter.batch_size self
    /\ (forall b c, new !! b = Some c ->
          call_prompts c = take B (drop (b * B) all_prompts))
    /\ (forall q d query doc,
          queries !! q = Some query -> entry contexts q d = Some doc ->
          PyStr.is_blank doc = false ->
          exists k rewritten_passage,
            query_doc_mapping !! k = Some (q, d)
            /\ rewritten_passages !! k = Some rewritten_passage)
    /\ (forall k q d rewritten_passage,
          query_doc_mapping !! k = Some (q, d) ->
          rewritten_passages !! k = Some rewritten_passage ->
          PyStr.strip rewritten_passage = ""%string ->
          exists original_text,
            entry contexts q d = Some original_text /\ entry out q d = Some original_text)
    /\ (forall b c e j q d,
          new !! b = Some c -> call_outcome c = Raised e ->
          (j < length (call_prompts c))%nat ->
          query_doc_mapping !! (b * B + j)%nat = Some (q, d) ->
          exists original_text,
            entry contexts q d = Some original_text /\ entry out q d = Some original_text).
Proof.
  intros Hcontract Hsep Htmpl HB B w0.
  destruct (process_separately_spec generate self contexts queries w Hsep Htmpl ltac:(lia)
              Hcontract)
    as (ps & ms & rw & w1 & out & Hcol & Hall & Hgen & Hdone & Hp & Hs & Hin & Hout).
  destruct Hdone as (new & Hcalls & Hcount & Hchunks & Hcover & Hcat & Hlen & Hpt).
  assert (forall k q d p, ms !! k = Some (q, d) -> rw !! k = Some p ->
            PyStr.strip p = ""%string ->
            exists o, entry contexts q d = Some o /\ entry out q d = Some o) as Hempty.
  { intros k q d p Hk Hrw Hstrip.
    destruct (Hin k q d Hk) as (o & p' & Ho & Hp' & He).
    assert (p' = p) as -> by congruence.
    exists o. split; [done |]. by rewrite He, rewritten_entry_fallback. }
  eexists ps, ms, rw, w1, new, out, _.
  split; [done |]. split; [done |]. split; [done |].
  split; [by rewrite calls_with_max_new_tokens, Hcalls |].
  split; [rewrite Hcount; by rewrite Z2Nat.id by lia |].
  split; [intros b c Hb; by apply Hchunks |].
  split; [by apply (mapped_reply _ queries contexts ps ms rw Hall) |].
  split; [done |].
  intros b c e j q d Hb He Hj Hk.
  destruct (Hpt b c j Hb Hj) as [Hrw _].
  rewrite (replies_Raised c e j He Hj) in Hrw.
  by apply (Hempty (b * B + j)%nat q d ""%string).
Qed.

Lemma C3_fallback_to_original_witness :
  let self := Examples.rewriter 1 true true in
  let w0 := with_max_new_tokens (LLMRewriter.max_new_tokens self) Examples.flaky_world in
  exists all_prompts query_doc_mapping rewritten_passages w1 new out w',
    LLMRewriter.collect_prompts self Examples.contexts1 Examples.queries1 w0
    = (Returned (all_prompts, query_doc_mapping), w0)
    /\ generate_in_batches Examples.flaky_generate (LLMRewriter.batch_size self) all_prompts w0
       = (Returned rewritten_passages, w1)
    /\ LLMRewriter._process Examples.flaky_generate self Examples.contexts1 Examples.queries1
                            Examples.flaky_world
       = (Returned (out, []), w')
    /\ calls w' = calls Examples.flaky_world ++ new
    /\ Z.of_nat (length new)
       = (Z.of_nat (length all_prompts) + LLMRewriter.batch_size self - 1)
           / LLMRewriter.batch_size self
    /\ (forall b c, new !! b = Some c ->
          call_prompts c = take 1 (drop (b * 1) all_prompts))
    /\ (forall q d query doc,
          Examples.queries1 !! q = Some query -> entry Examples.contexts1 q d = Some doc ->
          PyStr.is_blank doc = false ->
          exists k rewritten_passage,
            query_doc_mapping !! k = Some (q, d)
            /\ rewritten_passages !! k = Some rewritten_passage)
    /\ (forall k q d rewritten_passage,
          query_doc_mapping !! k = Some (q, d) ->
          rewritten_passages !! k = Some rewritten_passage ->
          PyStr.strip rewritten_passage = ""%string ->
          exists original_text,
            entry Examples.contexts1 q d = Some original_text
            /\ entry out q d = Some original_text)
    /\ (forall b c e j q d,
          new !! b = Some c -> call_outcome c = Raised e ->
          (j < length (call_prompts c))%nat ->
          query_doc_mapping !! (b * 1 + j)%nat = Some (q, d) ->
          exists original_text,
            entry Examples.contexts1 q d = Some original_text
            /\ entry out q d = Some original_text).
Proof.
  apply (C3_fallback_to_original Examples.flaky_generate (Examples.rewriter 1 true true)
           Examples.contexts1 Examples.queries1 Examples.flaky_world).
  - intros g prompts. unfold Examples.flaky_generate.
    destruct (Generator.state g); simpl; [reflexivity | apply length_map].
  - reflexivity.
  - intros query passage. eexists. vm_compute. reflexivity.
  - simpl. lia.
Defined.

(** A run: the first batch raises, the second
    is answered; the first document keeps its text, the second is
    followed by its rewritten text, trimmed. *)
Example flaky_run :
  exists w',
    LLMRewriter._process Examples.flaky_generate (Examples.rewriter 1 true true)
                         Examples.contexts1 Examples.queries1 Examples.flaky_world
    = (Returned ([["Doc A";
                   "Doc B" +:+ PyStr.nl +:+ PyStr.nl +:+ "Refined version: Rewritten text"]%string],
                 []), w')
    /\ call_outcome <$> calls w'
       = [Raised (Exception "RuntimeError"); Returned ["  Rewritten text "%string]]
    /\ Generator.max_new_tokens (generator w') = 100.
Proof. eexists. vm_compute. done. Qed.



(** ** Batches *)




(** Three prompts in batches of two: two calls, of two prompts and of
    one. *)
Example three_prompts_in_batches_of_two :
  exists w',
    generate_in_batches Examples.mock_generate 2 ["p0"; "p1"; "p2"]%string Examples.mock_world
    = (Returned ["Rewritten text"; "Rewritten text"; "Rewritten text"]%string, w')
    /\ call_prompts <$> calls w' = [["p0"; "p1"]; ["p2"]]%string.
Proof. eexists. vm_compute. done. Qed.

(** Where a prompt of a call comes from. *)
Lemma call_prompt_origin {GS}
      (generate : Generator.t GS -> list string -> result (list string) * Generator.t GS)
      (R : string -> string -> string -> Prop)
      (queries : list string) (contexts : list (list string))
      (all_prompts : list string) (mapping : list (nat * nat))
      (B : nat) (w0 w1 : World GS) (rewritten : list string) :
  collected_all R queries contexts all_prompts mapping ->
  batches_done generate B all_prompts w0 w1 rewritten ->
  exists new,
    calls w1 = calls w0 ++ new
    /\ forall b c j prompt,
         new !! b = Some c -> call_prompts c !! j = Some prompt ->
         exists q d query doc,
           queries !! q = Some query
           /\ entry contexts q d = Some doc
           /\ PyStr.is_blank doc = false
           /\ R query doc prompt.
Proof.
  intros Hall (new & Hcalls & Hcount & Hchunks & Hcover & Hcat & Hlen & Hpt).
  exists new. split; [done |].
  intros b c j prompt Hb Hj.
  destruct (Hpt b c j Hb) as [_ Hps]; [by apply lookup_lt_Some in Hj |].
  rewrite Hj in Hps.
  destruct (item_origin R queries contexts all_prompts mapping Hall _ _ Hps)
    as (q & d & query & doc & _ & Hq & He & Hnb & HR).
  by exists q, d, query, doc.
Qed.

(** C6: a document that is empty or made of whitespace only is in no
    prompt passed to [generate] (every prompt of every call is made
    from a document that is not blank), and the result has its text,
    unchanged, at its place; with [process_separately=True] and in the
    variant with titles. *)
Theorem C6_blank_documents_skipped {GS}
        (generate : Generator.t GS -> list string -> result (list string) * Generator.t GS)
        (sent_tokenize : string -> result (list string))
        (self : LLMRewriter.t) (self_title : LLMRewriterWithTitle.t)
        (contexts : list (list string)) (queries : list string) (w : World GS)
        (q d : nat) (doc : string) :
  respects_contract generate ->
  LLMRewriter.process_separately self = true ->
  LLMRewriter.accepts_slots (LLMRewriter.rewrite_prompt_template self) ->
  1 <= LLMRewriter.batch_size self ->
  LLMRewriterWithTitle.accepts_slots (LLMRewriterWithTitle.rewrite_prompt_template self_title) ->
  1 <= LLMRewriterWithTitle.batch_size self_title ->
  entry contexts q d = Some doc ->
  PyStr.is_blank doc = true ->
  (exists new out w',
      LLMRewriter._process generate self contexts queries w = (Returned (out, []), w')
      /\ calls w' = calls w ++ new
      /\ entry out q d = Some doc
      /\ forall b c j prompt,
           new !! b = Some c -> call_prompts c !! j = Some prompt ->
           exists q' d' query doc',
             queries !! q' = Some query
             /\ entry contexts q' d' = Some doc'
             /\ PyStr.is_blank doc' = false
             /\ LLMRewriter.prompt_for self query doc' prompt)
  /\ (exists new out w',
        LLMRewriterWithTitle._process generate sent_tokenize self_title contexts queries w
        = (Returned (out, []), w')
        /\ calls w' = calls w ++ new
        /\ entry out q d = Some doc
        /\ forall b c j prompt,
             new !! b = Some c -> call_prompts c !! j = Some prompt ->
             exists q' d' query doc',
               queries !! q' = Some query
               /\ entry contexts q' d' = Some doc'
               /\ PyStr.is_blank doc' = false
               /\ LLMRewriterWithTitle.prompt_for sent_tokenize self_title query doc' prompt).
Proof.
  intros Hcontract Hsep Htmpl HB Htmplt HBt He Hblank. split.
  - destruct (process_separately_spec generate self contexts queries w Hsep Htmpl ltac:(lia)
                Hcontract)
      as (ps & ms & rw & w1 & out & Hcol & Hall & Hgen & Hdone & Hp & Hs & Hin & Hout).
    destruct (call_prompt_origin generate _ queries contexts ps ms _ _ _ rw Hall Hdone)
      as (new & Hcalls & Horigin).
    eexists new, out, _. split; [done |].
    split; [by rewrite calls_with_max_new_tokens, Hcalls |].
    split; [| done].
    rewrite Hout; [done |]. by apply (blank_not_collected _ queries contexts ps ms Hall q d doc).
  - destruct (title_process_spec generate sent_tokenize self_title contexts queries w Htmplt
                ltac:(lia) Hcontract)
      as (ps & ms & ts & rw & w1 & out & Hcol & Hall & Hallt & Hgen & Hdone & Hp & Hs & Hin & Hout).
    destruct (call_prompt_origin generate _ queries contexts ps ms _ _ _ rw Hall Hdone)
      as (new & Hcalls & Horigin).
    eexists new, out, _. split; [done |].
    split; [by rewrite calls_with_max_new_tokens, Hcalls |].
    split; [| done].
    rewrite Hout; [done |]. by apply (blank_not_collected _ queries contexts ps ms Hall q d doc).
Qed.

Lemma C6_blank_documents_skipped_witness :
  let contexts := [["Doc A"; "   "; "Doc B"]%string] in
  let queries := ["Q"%string] in
  (exists new out w',
      LLMRewriter._process Examples.mock_generate (Examples.rewriter 1 true true)
                           contexts queries Examples.mock_world
      = (Returned (out, []), w')
      /\ calls w' = calls Examples.mock_world ++ new
      /\ entry out 0 1 = Some "   "%string
      /\ forall b c j prompt,
           new !! b = Some c -> call_prompts c !! j = Some prompt ->
           exists q' d' query doc',
             queries !! q' = Some query
             /\ entry contexts q' d' = Some doc'
             /\ PyStr.is_blank doc' = false
             /\ LLMRewriter.prompt_for (Examples.rewriter 1 true true) query doc' prompt)
  /\ (exists new out w',
        LLMRewriterWithTitle._process Examples.mock_generate Examples.cut_at_full_stop
                                      (Examples.title_rewriter 1 true)
                                      contexts queries Examples.mock_world
        = (Returned (out, []), w')
        /\ calls w' = calls Examples.mock_world ++ new
        /\ entry out 0 1 = Some "   "%string
        /\ forall b c j prompt,
             new !! b = Some c -> call_prompts c !! j = Some prompt ->
             exists q' d' query doc',
               queries !! q' = Some query
               /\ entry contexts q' d' = Some doc'
               /\ PyStr.is_blank doc' = false
               /\ LLMRewriterWithTitle.prompt_for Examples.cut_at_full_stop
                    (Examples.title_rewriter 1 true) query doc' prompt).
Proof.
  apply (C6_blank_documents_skipped Examples.mock_generate Examples.cut_at_full_stop
           (Examples.rewriter 1 true true) (Examples.title_rewriter 1 true)
           [["Doc A"; "   "; "Doc B"]%string] ["Q"%string] Examples.mock_world
           0%nat 1%nat "   "%string).
  - intros g prompts. simpl. apply length_map.
  - reflexivity.
  - intros query passage. eexists. vm_compute. reflexivity.
  - simpl. lia.
  - intros query title content. eexists. vm_compute. reflexivity.
  - simpl. lia.
  - reflexivity.
  - reflexivity.
Defined.

(** A run: two calls, none for the blank
    document, which comes back as it was. *)
Example blank_run :
  exists w',
    LLMRewriter._process Examples.mock_generate (Examples.rewriter 1 true false)
                         [["Doc A"; "   "; "Doc B"]%string] ["Q"%string] Examples.mock_world
    = (Returned ([["Rewritten text"; "   "; "Rewritten text"]%string], []), w')
    /\ call_prompts <$> calls w'
       = [["Rewrite Doc A for Q:"]; ["Rewrite Doc B for Q:"]]%string.
Proof. eexists. vm_compute. done. Qed.

(** ** All the documents of a query rewritten together *)


Lemma combined_entry_fallback (self : LLMRewriter.t) (docs : list string) (rewritten : string) :
  PyStr.strip rewritten = ""%string ->
  LLMRewriter.combined_entry self docs rewritten = docs.
Proof. intros He. unfold LLMRewriter.combined_entry. by rewrite He. Qed.



(** A query rewritten, and a query whose call raised, which keeps its
    two documents. *)
Example combined_run :
  exists w',
    LLMRewriter._process Examples.flaky_generate (Examples.rewriter 1 false false)
                         [["A1"; "A2"]; ["B1"; "B2"]]%string ["QA"; "QB"]%string
                         Examples.flaky_world
    = (Returned ([["A1"; "A2"]; ["  Rewritten text "]]%string, []), w').
Proof. eexists. vm_compute. done. Qed.





(** A run: the second query, whose documents
    are blank, is sent with an empty passage. *)
Example blank_query_run :
  exists w',
    (LLMRewriter._process Examples.mock_generate (Examples.rewriter 2 false true)
                          [["Doc A"; "Doc B"]; [" "; ""]]%string ["Q1"; "Q2"]%string
                          Examples.mock_world).2 = w'
    /\ call_prompts <$> calls w'
       = [["Rewrite Passage 1: Doc A" +:+ PyStr.nl +:+ PyStr.nl +:+ "Passage 2: Doc B for Q1:";
           "Rewrite  for Q2:"]]%string.
Proof. eexists. vm_compute. done. Qed.

(** ** Construction *)

(** C9: constructing an [LLMRewriter] or an [LLMRewriterWithTitle] with
    the default [generator=None] raises, whatever the other arguments:
    the constructor reads [generator.model_name] to build the name. *)
Theorem C9_generator_required (GS : Type)
        (batch_size max_new_tokens : Z) (rewrite_prompt_template : option string)
        (process_separately concatenate_original : bool) :
  @LLMRewriter.__init__ GS None batch_size max_new_tokens rewrite_prompt_template
                        process_separately concatenate_original
  = Raised AttributeError
  /\ @LLMRewriterWithTitle.__init__ GS None batch_size max_new_tokens rewrite_prompt_template
                                    concatenate_original
     = Raised AttributeError.
Proof. split; reflexivity. Qed.

(** With a generator, the constructor returns, and the name is built
    from the name of the model. *)
Example init_with_generator :
  exists self,
    LLMRewriter.__init__
      (Some {| Generator.model_name := "meta-llama/Llama-3";
               Generator.max_new_tokens := 100; Generator.state := tt |})
      4 256 None true true
    = Returned self
    /\ LLMRewriter.name self = "llm_rewriter_meta-llama_Llama-3"%string
    /\ LLMRewriter.rewrite_prompt_template self = LLMRewriter.default_rewrite_prompt_template.
Proof. eexists. vm_compute. done. Qed.

(** ** Titles *)

Lemma prefix_drop (sep s : string) :
  String.prefix sep s = true -> s = sep +:+ PyStr.drop (String.length sep) s.
Proof.
  revert s. induction sep as [| a sep IH]; intros s H.
  - by destruct s.
  - destruct s as [| b s]; [done |]. simpl in *.
    destruct (ascii_dec a b) as [-> |]; [| done].
    transitivity (String b (sep +:+ PyStr.drop (String.length sep) s)); [| done].
    f_equal. by apply IH.
Qed.

Lemma split1_unfold (sep s : string) :
  PyStr.split1 sep s
  = if String.prefix sep s then [""%string; PyStr.drop (String.length sep) s]
    else match s with
         | EmptyString => [s]
         | String c s' =>
             match PyStr.split1 sep s' with
             | [before; after] => [String c before; after]
             | _ => [s]
             end
         end.
Proof. by destruct s. Qed.

(** [s.split(sep, 1)] gives [s] alone, or the two parts of [s] around
    an occurrence of [sep]. *)
Lemma split1_cases (sep s : string) :
  PyStr.split1 sep s = [s]
  \/ exists before after,
      PyStr.split1 sep s = [before; after] /\ s = before +:+ sep +:+ after.
Proof.
  induction s as [| c s IH]; rewrite split1_unfold.
  - destruct (String.prefix sep "") eqn:E; [| by left].
    right. exists ""%string, (PyStr.drop (String.length sep) ""). split; [done |].
    by apply prefix_drop.
  - destruct (String.prefix sep (String c s)) eqn:E.
    + right. exists ""%string, (PyStr.drop (String.length sep) (String c s)).
      split; [done |]. by apply prefix_drop.
    + destruct IH as [-> | (before & after & -> & Hs)]; [by left |].
      right. exists (String c before), after. split; [done |].
      transitivity (String c (before +:+ sep +:+ after)); [by f_equal | done].
Qed.





(** The document of the scenario, once with a segmentation that cuts
    after the first full stop, once with one that raises: the title is
    the same, and the result has the rewritten content under it. *)
Example capital_split :
  LLMRewriterWithTitle._split_title_content Examples.cut_at_full_stop Examples.capital
  = Returned ("Capital city.", "Paris is the capital of France and a major hub.")%string
  /\ LLMRewriterWithTitle._split_title_content Examples.unavailable Examples.capital
     = Returned ("Capital city.", "Paris is the capital of France and a major hub.")%string
  /\ exists w',
       LLMRewriterWithTitle._process Examples.mock_generate Examples.cut_at_full_stop
                                     (Examples.title_rewriter 1 false)
                                     [[Examples.capital]] ["Q"%string] Examples.mock_world
       = (Returned ([["Capital city. Rewritten text"%string]], []), w').
Proof. split; [| split]; [done | done |]. eexists. vm_compute. done. Qed.


(** ** The token budget of the generator *)



(** C2 fails on the code: [_process] sets [generator.max_new_tokens] to
    its own and restores it with a plain assignment at the end, which
    an exception skips.  Here the template has a slot that [_process]
    does not fill, [format] raises [KeyError], and the generator is left
    with 50 new tokens where it had 100; the same happens in the
    variant with titles when the batch size is 0 and [range] raises
    [ValueError]. *)
Theorem C2_not_restored_when_raising :
  Generator.max_new_tokens (generator Examples.mock_world) = 100
  /\ (exists w',
        LLMRewriter._process Examples.mock_generate Examples.rewriter_with_unknown_slot
                             Examples.contexts1 Examples.queries1 Examples.mock_world
        = (Raised KeyError, w')
        /\ Generator.max_new_tokens (generator w') = 50)
  /\ (exists w',
        LLMRewriterWithTitle._process Examples.mock_generate Examples.cut_at_full_stop
                                      (Examples.title_rewriter 0 true)
                                      Examples.contexts1 Examples.queries1 Examples.mock_world
        = (Raised ValueError, w')
        /\ Generator.max_new_tokens (generator w') = 50).
Proof.
  split; [done |]. split; eexists; vm_compute; done.
Qed.

(** Other ways out of [_process] that skip the assignment: a
    [KeyboardInterrupt] during generation, which [except Exception] does
    not catch, and an [IndexError] when the generator returns fewer
    texts than it was given prompts. *)
Example other_raising_runs :
  (exists w',
      LLMRewriter._process Examples.interrupted_generate (Examples.rewriter 1 true true)
                           Examples.contexts1 Examples.queries1 Examples.mock_world
      = (Raised KeyboardInterrupt, w')
      /\ Generator.max_new_tokens (generator w') = 50)
  /\ (exists w',
        LLMRewriter._process Examples.short_generate (Examples.rewriter 2 true true)
                             Examples.contexts1 Examples.queries1 Examples.mock_world
        = (Raised IndexError, w')
        /\ Generator.max_new_tokens (generator w') = 50).
Proof. split; eexists; vm_compute; done. Qed.

(** * Further properties *)

(** ** Rows *)

Lemma rows_eq (a b : list (list string)) :
  same_shape a b -> (forall q d, entry a q d = entry b q d) -> a = b.
Proof.
  intros Hs He. apply list_eq. intros q.
  destruct (a !! q) as [ra |] eqn:Ha.
  - destruct (same_shape_row a b q ra Hs Ha) as (rb & Hb & Hl). rewrite Hb. f_equal.
    apply list_eq. intros d. specialize (He q d). unfold entry in He.
    by rewrite Ha, Hb in He.
  - symmetry. apply lookup_ge_None. rewrite <- (same_shape_length a b Hs).
    by apply lookup_ge_None.
Qed.

Lemma row_eq (a b : list (list string)) (q : nat) :
  same_shape a b -> (forall d, entry a q d = entry b q d) -> a !! q = b !! q.
Proof.
  intros Hs He. destruct (a !! q) as [ra |] eqn:Ha.
  - destruct (same_shape_row a b q ra Hs Ha) as (rb & Hb & Hl). rewrite Hb. f_equal.
    apply list_eq. intros d. specialize (He d). unfold entry in He.
    by rewrite Ha, Hb in He.
  - symmetry. apply lookup_ge_None. rewrite <- (same_shape_length a b Hs).
    by apply lookup_ge_None.
Qed.

Lemma prefix_refl (s : string) : String.prefix s s = true.
Proof.
  induction s as [| c s IH]; simpl; [done |].
  destruct (ascii_dec c c); [done | congruence].
Qed.

(** ** The token budget, again *)



(** The calls of the batch loop are made on a generator that has the
    [max_new_tokens] the loop started with. *)
Lemma generate_in_batches_budget {GS}
      (generate : Generator.t GS -> list string -> result (list string) * Generator.t GS)
      (batch_size : Z) (prompts : list string) (w w1 : World GS) (rewritten : list string) :
  respects_contract generate ->
  keeps_max_new_tokens generate ->
  generate_in_batches generate batch_size prompts w = (Returned rewritten, w1) ->
  Generator.max_new_tokens (generator w1) = Generator.max_new_tokens (generator w)
  /\ exists new,
      calls w1 = calls w ++ new
      /\ forall c, c ∈ new ->
           exists g,
             Generator.max_new_tokens g = Generator.max_new_tokens (generator w)
             /\ call_outcome c = fst (generate g (call_prompts c)).
Proof.
  intros Hcontract Hkeeps. unfold generate_in_batches.
  destruct (Py.range 0 (Z.of_nat (length prompts)) batch_size) as [starts | e] eqn:Hr;
    [| by unfold bind, lift].
  rewrite (bind_lift_Returned _ _ _ _ eq_refl).
  pose (Inv := fun (k : nat) (rw : list string) (w' : World GS) =>
    Generator.max_new_tokens (generator w') = Generator.max_new_tokens (generator w)
    /\ exists new,
        calls w' = calls w ++ new
        /\ forall c, c ∈ new ->
             exists g,
               Generator.max_new_tokens g = Generator.max_new_tokens (generator w)
               /\ call_outcome c = fst (generate g (call_prompts c))).
  match goal with
  | |- context [for_ ?xs ?body ?s ?w0] =>
      destruct (for__rule Inv body xs s w0) as (rw & w' & Hfor & HI); [| | rewrite Hfor]
  end.
  - split; [done |]. exists []. split; [by rewrite app_nil_r |]. intros c Hc.
    by apply elem_of_nil in Hc.
  - intros k s rw w' Hk (Hmax & new & Hcalls & Hnew). cbv beta zeta.
    rewrite (batch_step generate Hcontract). eexists _, _. split; [done |]. simpl. split.
    + etrans; [apply (Hkeeps (generator w')) | done].
    + eexists (new ++ [_]). split; [by rewrite Hcalls, app_assoc |].
      intros c Hc. apply elem_of_app in Hc as [Hc | Hc]; [by apply Hnew |].
      apply list_elem_of_singleton in Hc as ->. simpl. by exists (generator w').
  - by intros [= <- <-].
Qed.

(** X2: during [_process], in both modes of [LLMRewriter] and in
    [LLMRewriterWithTitle], every call of [generate] is made on the
    generator with [max_new_tokens] set to the one of the rewriter
    (for a generator that does not change it itself). *)
Theorem X2_calls_use_configured_budget {GS}
        (generate : Generator.t GS -> list string -> result (list string) * Generator.t GS)
        (sent_tokenize : string -> result (list string))
        (self : LLMRewriter.t) (self_title : LLMRewriterWithTitle.t)
        (contexts : list (list string)) (queries : list string) (w : World GS) :
  respects_contract generate ->
  keeps_max_new_tokens generate ->
  LLMRewriter.accepts_slots (LLMRewriter.rewrite_prompt_template self) ->
  1 <= LLMRewriter.batch_size self ->
  LLMRewriterWithTitle.accepts_slots (LLMRewriterWithTitle.rewrite_prompt_template self_title) ->
  1 <= LLMRewriterWithTitle.batch_size self_title ->
  (exists new out w',
      LLMRewriter._process generate self contexts queries w = (Returned (out, []), w')
      /\ calls w' = calls w ++ new
      /\ forall c, c ∈ new ->
           exists g,
             Generator.max_new_tokens g = LLMRewriter.max_new_tokens self
             /\ call_outcome c = fst (generate g (call_prompts c)))
  /\ (exists new out w',
        LLMRewriterWithTitle._process generate sent_tokenize self_title contexts queries w
        = (Returned (out, []), w')
        /\ calls w' = calls w ++ new
        /\ forall c, c ∈ new ->
             exists g,
               Generator.max_new_tokens g = LLMRewriterWithTitle.max_new_tokens self_title
               /\ call_outcome c = fst (generate g (call_prompts c))).
Proof.
  intros Hcontract Hkeeps Htmpl HB Htmplt HBt. split.
  - destruct (LLMRewriter.process_separately self) eqn:Hsep.
    + destruct (process_separately_spec generate self contexts queries w Hsep Htmpl ltac:(lia)
                  Hcontract)
        as (ps & ms & rw & w1 & out & _ & _ & Hgen & _ & Hp & _).
      destruct (generate_in_batches_budget generate _ ps _ w1 rw Hcontract Hkeeps Hgen)
        as (_ & new & Hcalls & Hnew).
      by eexists new, out, _.
    + destruct (process_combined_spec generate self contexts queries w Hsep Htmpl ltac:(lia)
                  Hcontract)
        as (ps & rw & w1 & out & _ & _ & _ & Hgen & _ & Hp & _).
      destruct (generate_in_batches_budget generate _ ps _ w1 rw Hcontract Hkeeps Hgen)
        as (_ & new & Hcalls & Hnew).
      by eexists new, out, _.
  - destruct (title_process_spec generate sent_tokenize self_title contexts queries w Htmplt
                ltac:(lia) Hcontract)
      as (ps & ms & ts & rw & w1 & out & _ & _ & _ & Hgen & _ & Hp & _).
    destruct (generate_in_batches_budget generate _ ps _ w1 rw Hcontract Hkeeps Hgen)
      as (_ & new & Hcalls & Hnew).
    by eexists new, out, _.
Qed.

Lemma X2_calls_use_configured_budget_witness :
  (exists new out w',
      LLMRewriter._process Examples.flaky_generate (Examples.rewriter 1 false true)
                           Examples.contexts1 Examples.queries1 Examples.flaky_world
      = (Returned (out, []), w')
      /\ calls w' = calls Examples.flaky_world ++ new
      /\ forall c, c ∈ new ->
           exists g,
             Generator.max_new_tokens g
             = LLMRewriter.max_new_tokens (Examples.rewriter 1 false true)
             /\ call_outcome c = fst (Examples.flaky_generate g (call_prompts c)))
  /\ (exists new out w',
        LLMRewriterWithTitle._process Examples.flaky_generate Examples.cut_at_full_stop
                                      (Examples.title_rewriter 1 true)
                                      Examples.contexts1 Examples.queries1 Examples.flaky_world
        = (Returned (out, []), w')
        /\ calls w' = calls Examples.flaky_world ++ new
        /\ forall c, c ∈ new ->
             exists g,
               Generator.max_new_tokens g
               = LLMRewriterWithTitle.max_new_tokens (Examples.title_rewriter 1 true)
               /\ call_outcome c = fst (Examples.flaky_generate g (call_prompts c))).
Proof.
  apply (X2_calls_use_configured_budget Examples.flaky_generate Examples.cut_at_full_stop
           (Examples.rewriter 1 false true) (Examples.title_rewriter 1 true)
           Examples.contexts1 Examples.queries1 Examples.flaky_world).
  - intros g prompts. unfold Examples.flaky_generate.
    destruct (Generator.state g); simpl; [reflexivity | apply length_map].
  - intros g prompts. unfold Examples.flaky_generate.
    destruct (Generator.state g); reflexivity.
  - intros query passage. eexists. vm_compute. reflexivity.
  - simpl. lia.
  - intros query title content. eexists. vm_compute. reflexivity.
  - simpl. lia.
Defined.

(** ** Fallbacks in the other two loops *)

Lemma title_rewritten_entry_fallback (self : LLMRewriterWithTitle.t)
      (original_text title rewritten_content : string) :
  PyStr.strip rewritten_content = ""%string ->
  LLMRewriterWithTitle.rewritten_entry self original_text title rewritten_content
  = original_text.
Proof. unfold LLMRewriterWithTitle.rewritten_entry. by intros ->. Qed.

(** X3: in [LLMRewriterWithTitle._process] too, a document whose text
    from the generator is empty once trimmed, or whose batch raised,
    has its original text at its place in the result, without a
    title before it, and [_process] returns. *)
Theorem X3_title_fallback_to_original {GS}
        (generate : Generator.t GS -> list string -> result (list string) * Generator.t GS)
        (sent_tokenize : string -> result (list string))
        (self : LLMRewriterWithTitle.t)
        (contexts : list (list string)) (queries : list string) (w : World GS) :
  respects_contract generate ->
  LLMRewriterWithTitle.accepts_slots (LLMRewriterWithTitle.rewrite_prompt_template self) ->
  1 <= LLMRewriterWithTitle.batch_size self ->
  let B := Z.to_nat (LLMRewriterWithTitle.batch_size self) in
  let w0 := with_max_new_tokens (LLMRewriterWithTitle.max_new_tokens self) w in
  exists all_prompts query_doc_mapping titles rewritten_contents w1 new out w',
    LLMRewriterWithTitle.collect_prompts sent_tokenize self contexts queries w0
    = (Returned (all_prompts, query_doc_mapping, titles), w0)
    /\ generate_in_batches generate (LLMRewriterWithTitle.batch_size self) all_prompts w0
       = (Returned rewritten_contents, w1)
    /\ LLMRewriterWithTitle._process generate sent_tokenize self contexts queries w
       = (Returned (out, []), w')
    /\ calls w' = calls w ++ new
    /\ (forall k q d rewritten_content,
          query_doc_mapping !! k = Some (q, d) ->
          rewritten_contents !! k = Some rewritten_content ->
          PyStr.strip rewritten_content = ""%string ->
          exists original_text,
            entry contexts q d = Some original_text /\ entry out q d = Some original_text)
    /\ (forall b c e j q d,
          new !! b = Some c -> call_outcome c = Raised e ->
          (j < length (call_prompts c))%nat ->
          query_doc_mapping !! (b * B + j)%nat = Some (q, d) ->
          exists original_text,
            entry contexts q d = Some original_text /\ entry out q d = Some original_text).
Proof.
  intros Hcontract Htmpl HB B w0.
  destruct (title_process_spec generate sent_tokenize self contexts queries w Htmpl
              ltac:(lia) Hcontract)
    as (ps & ms & ts & rw & w1 & out & Hcol & Hall & Hallt & Hgen & Hdone & Hp & Hs & Hin & Hout).
  destruct Hdone as (new & Hcalls & Hcount & Hchunks & Hcover & Hcat & Hlen & Hpt).
  assert (forall k q d p, ms !! k = Some (q, d) -> rw !! k = Some p ->
            PyStr.strip p = ""%string ->
            exists o, entry contexts q d = Some o /\ entry out q d = Some o) as Hempty.
  { intros k q d p Hk Hrw Hstrip.
    destruct (Hin k q d Hk) as (o & t & p' & Ho & Ht & Hp' & He).
    assert (p' = p) as -> by congruence.
    exists o. split; [done |]. by rewrite He, title_rewritten_entry_fallback. }
  eexists ps, ms, ts, rw, w1, new, out, _.
  split; [done |]. split; [done |]. split; [done |].
  split; [by rewrite calls_with_max_new_tokens, Hcalls |].
  split; [done |].
  intros b c e j q d Hb He Hj Hk.
  destruct (Hpt b c j Hb Hj) as [Hrw _].
  rewrite (replies_Raised c e j He Hj) in Hrw.
  by apply (Hempty (b * B + j)%nat q d ""%string).
Qed.

Lemma X3_title_fallback_to_original_witness :
  let self := Examples.title_rewriter 1 false in
  let w0 := with_max_new_tokens (LLMRewriterWithTitle.max_new_tokens self) Examples.flaky_world in
  exists all_prompts query_doc_mapping titles rewritten_contents w1 new out w',
    LLMRewriterWithTitle.collect_prompts Examples.cut_at_full_stop self
                                         Examples.contexts1 Examples.queries1 w0
    = (Returned (all_prompts, query_doc_mapping, titles), w0)
    /\ generate_in_batches Examples.flaky_generate (LLMRewriterWithTitle.batch_size self)
                           all_prompts w0
       = (Returned rewritten_contents, w1)
    /\ LLMRewriterWithTitle._process Examples.flaky_generate Examples.cut_at_full_stop self
                                     Examples.contexts1 Examples.queries1 Examples.flaky_world
       = (Returned (out, []), w')
    /\ calls w' = calls Examples.flaky_world ++ new
    /\ (forall k q d rewritten_content,
          query_doc_mapping !! k = Some (q, d) ->
          rewritten_contents !! k = Some rewritten_content ->
          PyStr.strip rewritten_content = ""%string ->
          exists original_text,
            entry Examples.contexts1 q d = Some original_text
            /\ entry out q d = Some original_text)
    /\ (forall b c e j q d,
          new !! b = Some c -> call_outcome c = Raised e ->
          (j < length (call_prompts c))%nat ->
          query_doc_mapping !! (b * 1 + j)%nat = Some (q, d) ->
          exists original_text,
            entry Examples.contexts1 q d = Some original_text
            /\ entry out q d = Some original_text).
Proof.
  apply (X3_title_fallback_to_original Examples.flaky_generate Examples.cut_at_full_stop
           (Examples.title_rewriter 1 false) Examples.contexts1 Examples.queries1
           Examples.flaky_world).
  - intros g prompts. unfold Examples.flaky_generate.
    destruct (Generator.state g); simpl; [reflexivity | apply length_map].
  - intros query title content. eexists. vm_compute. reflexivity.
  - simpl. lia.
Defined.

(** X4: with [process_separately=False], a query whose batch raised
    keeps its list of documents, the other batches are submitted all
    the same, and [_process] returns. *)
Theorem X4_combined_batch_raised {GS}
        (generate : Generator.t GS -> list string -> result (list string) * Generator.t GS)
        (self : LLMRewriter.t)
        (contexts : list (list string)) (queries : list string) (w : World GS) :
  respects_contract generate ->
  LLMRewriter.process_separately self = false ->
  LLMRewriter.accepts_slots (LLMRewriter.rewrite_prompt_template self) ->
  1 <= LLMRewriter.batch_size self ->
  let B := Z.to_nat (LLMRewriter.batch_size self) in
  let w0 := with_max_new_tokens (LLMRewriter.max_new_tokens self) w in
  exists all_prompts new out w',
    LLMRewriter.combined_prompts self contexts queries w0 = (Returned all_prompts, w0)
    /\ LLMRewriter._process generate self contexts queries w = (Returned (out, []), w')
    /\ calls w' = calls w ++ new
    /\ Z.of_nat (length new)
       = (Z.of_nat (length all_prompts) + LLMRewriter.batch_size self - 1)
           / LLMRewriter.batch_size self
    /\ forall b c e j,
         new !! b = Some c -> call_outcome c = Raised e ->
         (j < length (call_prompts c))%nat ->
         exists docs,
           contexts !! (b * B + j)%nat = Some docs
           /\ out !! (b * B + j)%nat = Some docs.
Proof.
  intros Hcontract Hsep Htmpl HB B w0.
  destruct (process_combined_spec generate self contexts queries w Hsep Htmpl ltac:(lia)
              Hcontract)
    as (ps & rw & w1 & out & Hcol & Hlen & Hps & Hgen & Hdone & Hp & Hlo & Hent).
  destruct Hdone as (new & Hcalls & Hcount & Hchunks & Hcover & Hcat & Hlenrw & Hpt).
  eexists ps, new, out, _.
  split; [done |]. split; [done |].
  split; [by rewrite calls_with_max_new_tokens, Hcalls |].
  split; [rewrite Hcount; by rewrite Z2Nat.id by lia |].
  intros b c e j Hb He Hj.
  destruct (Hpt b c j Hb Hj) as [Hrw _].
  rewrite (replies_Raised c e j He Hj) in Hrw.
  destruct (Hent _ _ Hrw) as (docs & Hd & Ho).
  exists docs. split; [done |]. by rewrite (combined_entry_fallback self docs "" eq_refl) in Ho.
Qed.

Lemma X4_combined_batch_raised_witness :
  let self := Examples.rewriter 1 false true in
  let w0 := with_max_new_tokens (LLMRewriter.max_new_tokens self) Examples.flaky_world in
  exists all_prompts new out w',
    LLMRewriter.combined_prompts self Examples.contexts1 Examples.queries1 w0
    = (Returned all_prompts, w0)
    /\ LLMRewriter._process Examples.flaky_generate self Examples.contexts1 Examples.queries1
                            Examples.flaky_world
       = (Returned (out, []), w')
    /\ calls w' = calls Examples.flaky_world ++ new
    /\ Z.of_nat (length new)
       = (Z.of_nat (length all_prompts) + LLMRewriter.batch_size self - 1)
           / LLMRewriter.batch_size self
    /\ forall b c e j,
         new !! b = Some c -> call_outcome c = Raised e ->
         (j < length (call_prompts c))%nat ->
         exists docs,
           Examples.contexts1 !! (b * 1 + j)%nat = Some docs
           /\ out !! (b * 1 + j)%nat = Some docs.
Proof.
  apply (X4_combined_batch_raised Examples.flaky_generate (Examples.rewriter 1 false true)
           Examples.contexts1 Examples.queries1 Examples.flaky_world).
  - intros g prompts. unfold Examples.flaky_generate.
    destruct (Generator.state g); simpl; [reflexivity | apply length_map].
  - reflexivity.
  - intros query passage. eexists. vm_compute. reflexivity.
  - simpl. lia.
Defined.

(** ** Contexts without a query *)

Lemma unmapped_beyond_queries {X} (R : string -> string -> X -> Prop)
      (queries : list string) (contexts : list (list string))
      (items : list X) (mapping : list (nat * nat)) (q d : nat) :
  collected_all R queries contexts items mapping ->
  (length queries <= q)%nat -> (q, d) ∉ mapping.
Proof.
  intros (_ & _ & Hin & _) Hq Hel. apply list_elem_of_lookup in Hel as [k Hk].
  destruct (Hin k q d Hk) as (query & _ & _ & _ & Hquery & _).
  apply lookup_lt_Some in Hquery. lia.
Qed.

(** X5: [zip(queries, contexts)] stops at the shorter of the two: with
    [process_separately=True] and in the variant with titles, the
    documents of the contexts that have no query are not sent to the
    generator and come back unchanged. *)
Theorem X5_contexts_without_query_unchanged {GS}
        (generate : Generator.t GS -> list string -> result (list string) * Generator.t GS)
        (sent_tokenize : string -> result (list string))
        (self : LLMRewriter.t) (self_title : LLMRewriterWithTitle.t)
        (contexts : list (list string)) (queries : list string) (w : World GS) :
  respects_contract generate ->
  LLMRewriter.process_separately self = true ->
  LLMRewriter.accepts_slots (LLMRewriter.rewrite_prompt_template self) ->
  1 <= LLMRewriter.batch_size self ->
  LLMRewriterWithTitle.accepts_slots (LLMRewriterWithTitle.rewrite_prompt_template self_title) ->
  1 <= LLMRewriterWithTitle.batch_size self_title ->
  (exists new out w',
      LLMRewriter._process generate self contexts queries w = (Returned (out, []), w')
      /\ calls w' = calls w ++ new
      /\ length out = length contexts
      /\ (forall q, (length queries <= q)%nat -> out !! q = contexts !! q)
      /\ forall b c j prompt,
           new !! b = Some c -> call_prompts c !! j = Some prompt ->
           exists q d query doc,
             (q < length queries)%nat
             /\ entry contexts q d = Some doc
             /\ LLMRewriter.prompt_for self query doc prompt)
  /\ (exists new out w',
        LLMRewriterWithTitle._process generate sent_tokenize self_title contexts queries w
        = (Returned (out, []), w')
        /\ calls w' = calls w ++ new
        /\ length out = length contexts
        /\ (forall q, (length queries <= q)%nat -> out !! q = contexts !! q)
        /\ forall b c j prompt,
             new !! b = Some c -> call_prompts c !! j = Some prompt ->
             exists q d query doc,
               (q < length queries)%nat
               /\ entry contexts q d = Some doc
               /\ LLMRewriterWithTitle.prompt_for sent_tokenize self_title query doc prompt).
Proof.
  intros Hcontract Hsep Htmpl HB Htmplt HBt. split.
  - destruct (process_separately_spec generate self contexts queries w Hsep Htmpl ltac:(lia)
                Hcontract)
      as (ps & ms & rw & w1 & out & Hcol & Hall & Hgen & Hdone & Hp & Hs & Hin & Hout).
    destruct (call_prompt_origin generate _ queries contexts ps ms _ _ _ rw Hall Hdone)
      as (new & Hcalls & Horigin).
    eexists new, out, _. split; [done |].
    split; [by rewrite calls_with_max_new_tokens, Hcalls |].
    split; [by apply same_shape_length |]. split.
    + intros q Hq. apply (row_eq out contexts q Hs). intros d. apply Hout.
      by apply (unmapped_beyond_queries _ queries contexts ps ms q d Hall).
    + intros b c j prompt Hb Hj.
      destruct (Horigin b c j prompt Hb Hj) as (q & d & query & doc & Hq & He & _ & HR).
      exists q, d, query, doc. split; [by apply lookup_lt_Some in Hq | done].
  - destruct (title_process_spec generate sent_tokenize self_title contexts queries w Htmplt
                ltac:(lia) Hcontract)
      as (ps & ms & ts & rw & w1 & out & Hcol & Hall & Hallt & Hgen & Hdone & Hp & Hs & Hin & Hout).
    destruct (call_prompt_origin generate _ queries contexts ps ms _ _ _ rw Hall Hdone)
      as (new & Hcalls & Horigin).
    eexists new, out, _. split; [done |].
    split; [by rewrite calls_with_max_new_tokens, Hcalls |].
    split; [by apply same_shape_length |]. split.
    + intros q Hq. apply (row_eq out contexts q Hs). intros d. apply Hout.
      by apply (unmapped_beyond_queries _ queries contexts ps ms q d Hall).
    + intros b c j prompt Hb Hj.
      destruct (Horigin b c j prompt Hb Hj) as (q & d & query & doc & Hq & He & _ & HR).
      exists q, d, query, doc. split; [by apply lookup_lt_Some in Hq | done].
Qed.

Lemma X5_contexts_without_query_unchanged_witness :
  let contexts := [["Doc A"]; ["Doc B"; "Doc C"]]%string in
  let queries := ["Q"%string] in
  (exists new out w',
      LLMRewriter._process Examples.mock_generate (Examples.rewriter 1 true true)
                           contexts queries Examples.mock_world
      = (Returned (out, []), w')
      /\ calls w' = calls Examples.mock_world ++ new
      /\ length out = length contexts
      /\ (forall q, (length queries <= q)%nat -> out !! q = contexts !! q)
      /\ forall b c j prompt,
           new !! b = Some c -> call_prompts c !! j = Some prompt ->
           exists q d query doc,
             (q < length queries)%nat
             /\ entry contexts q d = Some doc
             /\ LLMRewriter.prompt_for (Examples.rewriter 1 true true) query doc prompt)
  /\ (exists new out w',
        LLMRewriterWithTitle._process Examples.mock_generate Examples.cut_at_full_stop
                                      (Examples.title_rewriter 1 true)
                                      contexts queries Examples.mock_world
        = (Returned (out, []), w')
        /\ calls w' = calls Examples.mock_world ++ new
        /\ length out = length contexts
        /\ (forall q, (length queries <= q)%nat -> out !! q = contexts !! q)
        /\ forall b c j prompt,
             new !! b = Some c -> call_prompts c !! j = Some prompt ->
             exists q d query doc,
               (q < length queries)%nat
               /\ entry contexts q d = Some doc
               /\ LLMRewriterWithTitle.prompt_for Examples.cut_at_full_stop
                    (Examples.title_rewriter 1 true) query doc prompt).
Proof.
  apply (X5_contexts_without_query_unchanged Examples.mock_generate Examples.cut_at_full_stop
           (Examples.rewriter 1 true true) (Examples.title_rewriter 1 true)
           [["Doc A"]; ["Doc B"; "Doc C"]]%string ["Q"%string] Examples.mock_world).
  - intros g prompts. simpl. apply length_map.
  - reflexivity.
  - intros query passage. eexists. vm_compute. reflexivity.
  - simpl. lia.
  - intros query title content. eexists. vm_compute. reflexivity.
  - simpl. lia.
Defined.

(** X6: with [process_separately=False] the result has one entry for
    every pair of [zip(queries, contexts)] and no more: the contexts
    that have no query are dropped from the result. *)
Theorem X6_combined_drops_contexts_without_query {GS}
        (generate : Generator.t GS -> list string -> result (list string) * Generator.t GS)
        (self : LLMRewriter.t)
        (contexts : list (list string)) (queries : list string) (w : World GS) :
  respects_contract generate ->
  LLMRewriter.process_separately self = false ->
  LLMRewriter.accepts_slots (LLMRewriter.rewrite_prompt_template self) ->
  1 <= LLMRewriter.batch_size self ->
  exists out w',
    LLMRewriter._process generate self contexts queries w = (Returned (out, []), w')
    /\ length out = Nat.min (length queries) (length contexts)
    /\ forall q, (length queries <= q)%nat -> out !! q = None.
Proof.
  intros Hcontract Hsep Htmpl HB.
  destruct (process_combined_spec generate self contexts queries w Hsep Htmpl ltac:(lia)
              Hcontract)
    as (ps & rw & w1 & out & Hcol & Hlen & Hps & Hgen & Hdone & Hp & Hlo & Hent).
  destruct Hdone as (new & _ & _ & _ & _ & _ & Hlenrw & _).
  assert (length out = Nat.min (length queries) (length contexts)) as Hl.
  { rewrite Hlo, Hlenrw, Hlen. apply length_zip. }
  eexists out, _. split; [done |]. split; [done |].
  intros q Hq. apply lookup_ge_None. lia.
Qed.

Lemma X6_combined_drops_contexts_without_query_witness :
  let contexts := [["Doc A"]; ["Doc B"; "Doc C"]]%string in
  let queries := ["Q"%string] in
  exists out w',
    LLMRewriter._process Examples.mock_generate (Examples.rewriter 1 false true)
                         contexts queries Examples.mock_world
    = (Returned (out, []), w')
    /\ length out = Nat.min (length queries) (length contexts)
    /\ forall q, (length queries <= q)%nat -> out !! q = None.
Proof.
  apply (X6_combined_drops_contexts_without_query Examples.mock_generate
           (Examples.rewriter 1 false true)
           [["Doc A"]; ["Doc B"; "Doc C"]]%string ["Q"%string] Examples.mock_world).
  - intros g prompts. simpl. apply length_map.
  - reflexivity.
  - intros query passage. eexists. vm_compute. reflexivity.
  - simpl. lia.
Defined.

(** ** What the result keeps of a document *)

Lemma rewritten_entry_prefix (self : LLMRewriter.t) (original_text rewritten_passage : string) :
  LLMRewriter.concatenate_original self = true ->
  String.prefix original_text (LLMRewriter.rewritten_entry self original_text rewritten_passage)
  = true.
Proof.
  intros Hc. unfold LLMRewriter.rewritten_entry. cbv zeta. rewrite Hc.
  destruct (0 <? PyStr.len (PyStr.strip rewritten_passage));
    [apply prefix_append | apply prefix_refl].
Qed.

Lemma title_rewritten_entry_prefix (self : LLMRewriterWithTitle.t)
      (original_text title rewritten_content : string) :
  LLMRewriterWithTitle.concatenate_original self = true ->
  String.prefix original_text
                (LLMRewriterWithTitle.rewritten_entry self original_text title rewritten_content)
  = true.
Proof.
  intros Hc. unfold LLMRewriterWithTitle.rewritten_entry. cbv zeta. rewrite Hc.
  destruct (PyStr.len (PyStr.strip rewritten_content) =? 0);
    [apply prefix_refl | apply prefix_append].
Qed.

(** X7: with [concatenate_original=True], [process_separately=True] or
    the variant with titles, every document of the contexts, rewritten
    or not, blank or not, is a prefix of the text at its place in the
    result: no original text is lost. *)
Theorem X7_original_is_always_a_prefix {GS}
        (generate : Generator.t GS -> list string -> result (list string) * Generator.t GS)
        (sent_tokenize : string -> result (list string))
        (self : LLMRewriter.t) (self_title : LLMRewriterWithTitle.t)
        (contexts : list (list string)) (queries : list string) (w : World GS) :
  respects_contract generate ->
  LLMRewriter.process_separately self = true ->
  LLMRewriter.concatenate_original self = true ->
  LLMRewriter.accepts_slots (LLMRewriter.rewrite_prompt_template self) ->
  1 <= LLMRewriter.batch_size self ->
  LLMRewriterWithTitle.concatenate_original self_title = true ->
  LLMRewriterWithTitle.accepts_slots (LLMRewriterWithTitle.rewrite_prompt_template self_title) ->
  1 <= LLMRewriterWithTitle.batch_size self_title ->
  (exists out w',
      LLMRewriter._process generate self contexts queries w = (Returned (out, []), w')
      /\ forall q d original_text,
           entry contexts q d = Some original_text ->
           exists text, entry out q d = Some text /\ String.prefix original_text text = true)
  /\ (exists out w',
        LLMRewriterWithTitle._process generate sent_tokenize self_title contexts queries w
        = (Returned (out, []), w')
        /\ forall q d original_text,
             entry contexts q d = Some original_text ->
             exists text, entry out q d = Some text /\ String.prefix original_text text = true).
Proof.
  intros Hcontract Hsep Hcat Htmpl HB Hcatt Htmplt HBt. split.
  - destruct (process_separately_spec generate self contexts queries w Hsep Htmpl ltac:(lia)
                Hcontract)
      as (ps & ms & rw & w1 & out & Hcol & Hall & Hgen & Hdone & Hp & Hs & Hin & Hout).
    eexists out, _. split; [done |]. intros q d o Ho.
    destruct (decide ((q, d) ∈ ms)) as [Hel | Hno].
    + apply list_elem_of_lookup in Hel as [k Hk].
      destruct (Hin k q d Hk) as (o' & p & Ho' & Hp' & He).
      assert (o' = o) as -> by congruence.
      eexists. split; [done |]. by apply rewritten_entry_prefix.
    + exists o. split; [by rewrite Hout |]. apply prefix_refl.
  - destruct (title_process_spec generate sent_tokenize self_title contexts queries w Htmplt
                ltac:(lia) Hcontract)
      as (ps & ms & ts & rw & w1 & out & Hcol & Hall & Hallt & Hgen & Hdone & Hp & Hs & Hin & Hout).
    eexists out, _. split; [done |]. intros q d o Ho.
    destruct (decide ((q, d) ∈ ms)) as [Hel | Hno].
    + apply list_elem_of_lookup in Hel as [k Hk].
      destruct (Hin k q d Hk) as (o' & t & p & Ho' & Ht & Hp' & He).
      assert (o' = o) as -> by congruence.
      eexists. split; [done |]. by apply title_rewritten_entry_prefix.
    + exists o. split; [by rewrite Hout |]. apply prefix_refl.
Qed.

Lemma X7_original_is_always_a_prefix_witness :
  let contexts := [["Doc A"; " "; "Doc B"]]%string in
  let queries := ["Q"%string] in
  (exists out w',
      LLMRewriter._process Examples.flaky_generate (Examples.rewriter 1 true true)
                           contexts queries Examples.flaky_world
      = (Returned (out, []), w')
      /\ forall q d original_text,
           entry contexts q d = Some original_text ->
           exists text, entry out q d = Some text /\ String.prefix original_text text = true)
  /\ (exists out w',
        LLMRewriterWithTitle._process Examples.flaky_generate Examples.cut_at_full_stop
                                      (Examples.title_rewriter 1 true)
                                      contexts queries Examples.flaky_world
        = (Returned (out, []), w')
        /\ forall q d original_text,
             entry contexts q d = Some original_text ->
             exists text, entry out q d = Some text /\ String.prefix original_text text = true).
Proof.
  apply (X7_original_is_always_a_prefix Examples.flaky_generate Examples.cut_at_full_stop
           (Examples.rewriter 1 true true) (Examples.title_rewriter 1 true)
           [["Doc A"; " "; "Doc B"]]%string ["Q"%string] Examples.flaky_world).
  - intros g prompts. unfold Examples.flaky_generate.
    destruct (Generator.state g); simpl; [reflexivity | apply length_map].
  - reflexivity.
  - reflexivity.
  - intros query passage. eexists. vm_compute. reflexivity.
  - simpl. lia.
  - reflexivity.
  - intros query title content. eexists. vm_compute. reflexivity.
  - simpl. lia.
Defined.

(** X8: with [process_separately=True] and in the variant with titles,
    whatever [concatenate_original] is, the result has the empty string
    only where the contexts have it: no document is blanked out. *)
Theorem X8_no_document_blanked_out {GS}
        (generate : Generator.t GS -> list string -> result (list string) * Generator.t GS)
        (sent_tokenize : string -> result (list string))
        (self : LLMRewriter.t) (self_title : LLMRewriterWithTitle.t)
        (contexts : list (list string)) (queries : list string) (w : World GS) :
  respects_contract generate ->
  LLMRewriter.process_separately self = true ->
  LLMRewriter.accepts_slots (LLMRewriter.rewrite_prompt_template self) ->
  1 <= LLMRewriter.batch_size self ->
  LLMRewriterWithTitle.accepts_slots (LLMRewriterWithTitle.rewrite_prompt_template self_title) ->
  1 <= LLMRewriterWithTitle.batch_size self_title ->
  (exists out w',
      LLMRewriter._process generate self contexts queries w = (Returned (out, []), w')
      /\ forall q d,
           entry out q d = Some ""%string -> entry contexts q d = Some ""%string)
  /\ (exists out w',
        LLMRewriterWithTitle._process generate sent_tokenize self_title contexts queries w
        = (Returned (out, []), w')
        /\ forall q d,
             entry out q d = Some ""%string -> entry contexts q d = Some ""%string).
Proof.
  intros Hcontract Hsep Htmpl HB Htmplt HBt. split.
  - destruct (process_separately_spec generate self contexts queries w Hsep Htmpl ltac:(lia)
                Hcontract)
      as (ps & ms & rw & w1 & out & Hcol & Hall & Hgen & Hdone & Hp & Hs & Hin & Hout).
    eexists out, _. split; [done |]. intros q d Ho.
    destruct (decide ((q, d) ∈ ms)) as [Hel | Hno]; [| by rewrite <- Hout].
    apply list_elem_of_lookup in Hel as [k Hk].
    destruct (Hin k q d Hk) as (o & p & Ho' & Hp' & He).
    rewrite He in Ho. injection Ho as Ho.
    by rewrite Ho', (rewritten_entry_empty self o p Ho).
  - destruct (title_process_spec generate sent_tokenize self_title contexts queries w Htmplt
                ltac:(lia) Hcontract)
      as (ps & ms & ts & rw & w1 & out & Hcol & Hall & Hallt & Hgen & Hdone & Hp & Hs & Hin & Hout).
    eexists out, _. split; [done |]. intros q d Ho.
    destruct (decide ((q, d) ∈ ms)) as [Hel | Hno]; [| by rewrite <- Hout].
    apply list_elem_of_lookup in Hel as [k Hk].
    destruct (Hin k q d Hk) as (o & t & p & Ho' & Ht & Hp' & He).
    rewrite He in Ho. injection Ho as Ho.
    by rewrite Ho', (title_rewritten_entry_empty self_title o t p Ho).
Qed.

Lemma X8_no_document_blanked_out_witness :
  let contexts := [["Doc A"; ""; "Doc B"]]%string in
  let queries := ["Q"%string] in
  (exists out w',
      LLMRewriter._process Examples.flaky_generate (Examples.rewriter 1 true false)
                           contexts queries Examples.flaky_world
      = (Returned (out, []), w')
      /\ forall q d,
           entry out q d = Some ""%string -> entry contexts q d = Some ""%string)
  /\ (exists out w',
        LLMRewriterWithTitle._process Examples.flaky_generate Examples.cut_at_full_stop
                                      (Examples.title_rewriter 1 false)
                                      contexts queries Examples.flaky_world
        = (Returned (out, []), w')
        /\ forall q d,
             entry out q d = Some ""%string -> entry contexts q d = Some ""%string).
Proof.
  apply (X8_no_document_blanked_out Examples.flaky_generate Examples.cut_at_full_stop
           (Examples.rewriter 1 true false) (Examples.title_rewriter 1 false)
           [["Doc A"; ""; "Doc B"]]%string ["Q"%string] Examples.flaky_world).
  - intros g prompts. unfold Examples.flaky_generate.
    destruct (Generator.state g); simpl; [reflexivity | apply length_map].
  - reflexivity.
  - intros query passage. eexists. vm_compute. reflexivity.
  - simpl. lia.
  - intros query title content. eexists. vm_compute. reflexivity.
  - simpl. lia.
Defined.

(** ** Splitting a title off *)

Lemma append_full_stop (before after : string) :
  (before +:+ ".") +:+ " " +:+ after = before +:+ ". " +:+ after.
Proof.
  induction before as [| c before IH]; [done |].
  transitivity (String c ((before +:+ ".") +:+ " " +:+ after)); [done |].
  rewrite IH. done.
Qed.

(** X9: [_split_title_content] never raises, whatever the segmentation
    does.  When the segmentation raises, either the title is empty and
    the content is the whole document, or the title ends the first
    sentence and the title, a space and the content give the document
    back. *)
Theorem X9_split_title_content_total
        (sent_tokenize : string -> result (list string)) (doc : string) :
  exists title content,
    LLMRewriterWithTitle._split_title_content sent_tokenize doc = Returned (title, content)
    /\ forall e,
         sent_tokenize doc = Raised e ->
         (title = ""%string /\ content = doc)
         \/ (title <> ""%string /\ title +:+ " " +:+ content = doc).
Proof.
  unfold LLMRewriterWithTitle._split_title_content, try_except.
  destruct (sent_tokenize doc) as [sentences | e] eqn:Htok.
  - destruct sentences as [| first rest]; simpl; by eexists _, _.
  - simpl.
    destruct (split1_cases ". " doc) as [Hs | (before & after & Hs & Hdoc)]; rewrite Hs; simpl.
    + eexists _, _. split; [done |]. intros _ _. by left.
    + eexists _, _. split; [done |]. intros _ _. right. split.
      * by destruct before.
      * by rewrite append_full_stop.
Qed.

(** The document of the scenario, when the segmentation raises. *)
Example capital_round_trip :
  LLMRewriterWithTitle._split_title_content Examples.unavailable Examples.capital
  = Returned ("Capital city.", "Paris is the capital of France and a major hub.")%string
  /\ ("Capital city." +:+ " " +:+ "Paris is the capital of France and a major hub.")%string
     = Examples.capital.
Proof. done. Qed.

(** ** The name of the component *)

Lemma without_append (c : ascii) (s t : string) :
  without c (s +:+ t) = without c s && without c t.
Proof.
  induction s as [| c' s IH]; [done |].
  change (without c (String c' (s +:+ t)) = without c (String c' s) && without c t).
  simpl. rewrite IH. by rewrite andb_assoc.
Qed.

Lemma without_replace (a b : ascii) (s : string) :
  a <> b -> without a (PyStr.replace a b s) = true.
Proof.
  intros Hab. induction s as [| c s IH]; simpl; [done |]. rewrite IH, andb_true_r.
  destruct (Ascii.eqb c a) eqn:E.
  - apply negb_true_iff. apply Ascii.eqb_neq. congruence.
  - by rewrite E.
Qed.

Lemma length_string_append (s t : string) :
  String.length (s +:+ t) = (String.length s + String.length t)%nat.
Proof.
  induction s as [| c s IH]; [done |].
  change (S (String.length (s +:+ t)) = S (String.length s + String.length t)).
  by rewrite IH.
Qed.

(** X10: with a generator, both constructors return, and the name they
    build has no slash, whatever the name of the model: it is
    [llm_rewriter_] (or [llm_rewriter_title_]) followed by the name of
    the model with every slash turned into an underscore. *)
Theorem X10_name_has_no_slash {GS} (g : Generator.t GS)
        (batch_size max_new_tokens : Z) (rewrite_prompt_template : option string)
        (process_separately concatenate_original : bool) :
  (exists self,
      LLMRewriter.__init__ (Some g) batch_size max_new_tokens rewrite_prompt_template
                           process_separately concatenate_original
      = Returned self
      /\ without "/" (LLMRewriter.name self) = true
      /\ String.prefix "llm_rewriter_" (LLMRewriter.name self) = true
      /\ String.length (LLMRewriter.name self)
         = (13 + String.length (Generator.model_name g))%nat)
  /\ (exists self,
        LLMRewriterWithTitle.__init__ (Some g) batch_size max_new_tokens
                                      rewrite_prompt_template concatenate_original
        = Returned self
        /\ without "/" (LLMRewriterWithTitle.name self) = true
        /\ String.prefix "llm_rewriter_title_" (LLMRewriterWithTitle.name self) = true
        /\ String.length (LLMRewriterWithTitle.name self)
           = (19 + String.length (Generator.model_name g))%nat).
Proof.
  assert (forall s, String.length (PyStr.replace "/" "_" s) = String.length s) as Hlen.
  { induction s as [| c s IH]; simpl; [done | by rewrite IH]. }
  split; eexists; (split; [reflexivity |]); cbn [LLMRewriter.name LLMRewriterWithTitle.name].
  - split; [| split].
    + rewrite without_append, without_replace by done. done.
    + apply prefix_append.
    + rewrite length_string_append, Hlen. done.
  - split; [| split].
    + rewrite without_append, without_replace by done. done.
    + apply prefix_append.
    + rewrite length_string_append, Hlen. done.
Qed.

(** ** The order of the prompts *)








(** ** Batch sizes below one *)

Lemma generate_in_batches_zero {GS}
      (generate : Generator.t GS -> list string -> result (list string) * Generator.t GS)
      (prompts : list string) (w : World GS) :
  generate_in_batches generate 0 prompts w = (Raised ValueError, w).
Proof. done. Qed.

Lemma generate_in_batches_negative {GS}
      (generate : Generator.t GS -> list string -> result (list string) * Generator.t GS)
      (batch_size : Z) (prompts : list string) (w : World GS) :
  batch_size < 0 ->
  generate_in_batches generate batch_size prompts w = (Returned [], w).
Proof.
  intros HB. unfold generate_in_batches, Py.range, Py.range_length.
  destruct (Z.eqb_spec batch_size 0) as [E0 | _]; [lia |].
  destruct (Z.ltb_spec 0 batch_size) as [E1 | _]; [lia |].
  destruct (Z.ltb_spec (Z.of_nat (length prompts)) 0) as [E2 | _]; [lia |].
  done.
Qed.

Lemma restore_max_new_tokens {GS} (v : Z) (w : World GS) :
  with_max_new_tokens (Generator.max_new_tokens (generator w)) (with_max_new_tokens v w) = w.
Proof. by destruct w as [[name budget state] log]. Qed.

(** X12: with [batch_size=0], [range] raises [ValueError] in both modes
    of [LLMRewriter] and in [LLMRewriterWithTitle], for every input and
    every generator: [generate] is not called, and the generator is
    left with the [max_new_tokens] of the rewriter. *)
Theorem X12_batch_size_zero_raises {GS}
        (generate : Generator.t GS -> list string -> result (list string) * Generator.t GS)
        (sent_tokenize : string -> result (list string))
        (self : LLMRewriter.t) (self_title : LLMRewriterWithTitle.t)
        (contexts : list (list string)) (queries : list string) (w : World GS) :
  LLMRewriter.batch_size self = 0 ->
  LLMRewriter.accepts_slots (LLMRewriter.rewrite_prompt_template self) ->
  LLMRewriterWithTitle.batch_size self_title = 0 ->
  LLMRewriterWithTitle.accepts_slots (LLMRewriterWithTitle.rewrite_prompt_template self_title) ->
  LLMRewriter._process generate self contexts queries w
  = (Raised ValueError, with_max_new_tokens (LLMRewriter.max_new_tokens self) w)
  /\ LLMRewriterWithTitle._process generate sent_tokenize self_title contexts queries w
     = (Raised ValueError,
        with_max_new_tokens (LLMRewriterWithTitle.max_new_tokens self_title) w).
Proof.
  intros HB Htmpl HBt Htmplt. split.
  - unfold LLMRewriter._process.
    unfold bind at 1. unfold get_max_new_tokens.
    unfold bind at 1. unfold set_max_new_tokens.
    set (w0 := with_max_new_tokens (LLMRewriter.max_new_tokens self) w).
    unfold bind at 1. rewrite HB.
    destruct (LLMRewriter.process_separately self).
    + destruct (collect_prompts_spec self contexts queries w0 Htmpl) as (ps & ms & Hcol & _).
      unfold bind at 1. rewrite Hcol.
      unfold bind at 1. by rewrite generate_in_batches_zero.
    + destruct (combined_prompts_spec self contexts queries w0 Htmpl) as (ps & Hcol & _).
      unfold bind at 1. rewrite Hcol.
      unfold bind at 1. by rewrite generate_in_batches_zero.
  - unfold LLMRewriterWithTitle._process.
    unfold bind at 1. unfold get_max_new_tokens.
    unfold bind at 1. unfold set_max_new_tokens.
    set (w0 := with_max_new_tokens (LLMRewriterWithTitle.max_new_tokens self_title) w).
    destruct (title_collect_prompts_spec sent_tokenize self_title contexts queries w0 Htmplt)
      as (ps & ms & ts & Hcol & _).
    unfold bind at 1. rewrite Hcol.
    unfold bind at 1. by rewrite HBt, generate_in_batches_zero.
Qed.

Lemma X12_batch_size_zero_raises_witness :
  LLMRewriter._process Examples.mock_generate (Examples.rewriter 0 false true)
                       Examples.contexts1 Examples.queries1 Examples.mock_world
  = (Raised ValueError,
     with_max_new_tokens (LLMRewriter.max_new_tokens (Examples.rewriter 0 false true))
                         Examples.mock_world)
  /\ LLMRewriterWithTitle._process Examples.mock_generate Examples.cut_at_full_stop
                                   (Examples.title_rewriter 0 true)
                                   Examples.contexts1 Examples.queries1 Examples.mock_world
     = (Raised ValueError,
        with_max_new_tokens (LLMRewriterWithTitle.max_new_tokens (Examples.title_rewriter 0 true))
                            Examples.mock_world).
Proof.
  apply (X12_batch_size_zero_raises Examples.mock_generate Examples.cut_at_full_stop
           (Examples.rewriter 0 false true) (Examples.title_rewriter 0 true)
           Examples.contexts1 Examples.queries1 Examples.mock_world).
  - reflexivity.
  - intros query passage. eexists. vm_compute. reflexivity.
  - reflexivity.
  - intros query title content. eexists. vm_compute. reflexivity.
Defined.

Lemma enumerate_cons {A} (x : A) (l : list A) :
  exists rest, Py.enumerate (x :: l) = (0%nat, x) :: rest.
Proof. unfold Py.enumerate. simpl. by eexists. Qed.

(** X13: with a negative [batch_size] the range of the batch loop is
    empty and [generate] is never called.  With
    [process_separately=False] the result is then the empty list,
    whatever the contexts; with [process_separately=True] and a
    document that is not blank, [_process] raises [IndexError] when it
    looks for the first rewritten passage. *)
Theorem X13_negative_batch_size {GS}
        (generate : Generator.t GS -> list string -> result (list string) * Generator.t GS)
        (self : LLMRewriter.t)
        (contexts : list (list string)) (queries : list string) (w : World GS) :
  LLMRewriter.batch_size self < 0 ->
  LLMRewriter.accepts_slots (LLMRewriter.rewrite_prompt_template self) ->
  (LLMRewriter.process_separately self = false ->
   LLMRewriter._process generate self contexts queries w = (Returned ([], []), w))
  /\ (LLMRewriter.process_separately self = true ->
      forall q d query doc,
        queries !! q = Some query -> entry contexts q d = Some doc ->
        PyStr.is_blank doc = false ->
        LLMRewriter._process generate self contexts queries w
        = (Raised IndexError, with_max_new_tokens (LLMRewriter.max_new_tokens self) w)).
Proof.
  intros HB Htmpl.
  set (w0 := with_max_new_tokens (LLMRewriter.max_new_tokens self) w).
  split; intros Hsep.
  - unfold LLMRewriter._process.
    unfold bind at 1. unfold get_max_new_tokens.
    unfold bind at 1. unfold set_max_new_tokens. fold w0.
    unfold bind at 1. rewrite Hsep.
    destruct (combined_prompts_spec self contexts queries w0 Htmpl) as (ps & Hcol & _).
    unfold bind at 1. rewrite Hcol.
    unfold bind at 1. rewrite generate_in_batches_negative by done.
    unfold LLMRewriter.combine_results, Py.enumerate. simpl.
    unfold bind, ret, set_max_new_tokens. simpl. f_equal. apply restore_max_new_tokens.
  - intros q d query doc Hq He Hnb.
    unfold LLMRewriter._process.
    unfold bind at 1. unfold get_max_new_tokens.
    unfold bind at 1. unfold set_max_new_tokens. fold w0.
    unfold bind at 1. rewrite Hsep.
    destruct (collect_prompts_spec self contexts queries w0 Htmpl) as (ps & ms & Hcol & Hall).
    unfold bind at 1. rewrite Hcol.
    unfold bind at 1. rewrite generate_in_batches_negative by done.
    destruct (nonblank_collected _ queries contexts ps ms Hall q d query doc Hq He Hnb)
      as [k Hk].
    destruct ms as [| [q0 d0] ms]; [done |].
    destruct Hall as (_ & _ & Hin & _).
    destruct (Hin 0%nat q0 d0 eq_refl) as (query0 & docs0 & doc0 & _ & _ & Hc0 & Hd0 & _).
    assert (entry contexts q0 d0 = Some doc0) as He0 by by rewrite (entry_lookup _ _ _ _ Hc0).
    unfold bind at 1. unfold LLMRewriter.reconstruct. cbv zeta.
    destruct (enumerate_cons (q0, d0) ms) as [rest ->].
    cbn [for_]. unfold bind at 1.
    rewrite (bind_lift_Returned _ _ _ _ (getitem2_entry _ _ _ _ He0)).
    done.
Qed.

Lemma X13_negative_batch_size_witness :
  let self := Examples.rewriter (-1) false true in
  (LLMRewriter.process_separately self = false ->
   LLMRewriter._process Examples.mock_generate self Examples.contexts1 Examples.queries1
                        Examples.mock_world
   = (Returned ([], []), Examples.mock_world))
  /\ (LLMRewriter.process_separately self = true ->
      forall q d query doc,
        Examples.queries1 !! q = Some query -> entry Examples.contexts1 q d = Some doc ->
        PyStr.is_blank doc = false ->
        LLMRewriter._process Examples.mock_generate self Examples.contexts1 Examples.queries1
                             Examples.mock_world
        = (Raised IndexError,
           with_max_new_tokens (LLMRewriter.max_new_tokens self) Examples.mock_world)).
Proof.
  apply (X13_negative_batch_size Examples.mock_generate (Examples.rewriter (-1) false true)
           Examples.contexts1 Examples.queries1 Examples.mock_world).
  - simpl. lia.
  - intros query passage. eexists. vm_compute. reflexivity.
Defined.

(** The two branches on the same input. *)
Example negative_batch_size_runs :
  LLMRewriter._process Examples.mock_generate (Examples.rewriter (-1) false true)
                       Examples.contexts1 Examples.queries1 Examples.mock_world
  = (Returned ([], []), Examples.mock_world)
  /\ LLMRewriter._process Examples.mock_generate (Examples.rewriter (-1) true true)
                          Examples.contexts1 Examples.queries1 Examples.mock_world
     = (Raised IndexError, with_max_new_tokens 50 Examples.mock_world).
Proof. split; vm_compute; done. Qed.

(** ** Nothing to rewrite *)

Lemma generate_in_batches_nil {GS}
      (generate : Generator.t GS -> list string -> result (list string) * Generator.t GS)
      (batch_size : Z) (w : World GS) :
  batch_size <> 0 ->
  generate_in_batches generate batch_size [] w = (Returned [], w).
Proof.
  intros HB. unfold generate_in_batches, Py.range, Py.range_length. simpl.
  destruct (Z.eqb_spec batch_size 0) as [E0 | _]; [done |].
  by destruct (0 <? batch_size).
Qed.

Lemma collect_prompts_all_blank {GS} (self : LLMRewriter.t)
      (contexts : list (list string)) (queries : list string) (w : World GS) :
  (forall q d doc, entry contexts q d = Some doc -> PyStr.is_blank doc = true) ->
  LLMRewriter.collect_prompts self contexts queries w = (Returned ([], []), w).
Proof.
  intros Hblank. unfold LLMRewriter.collect_prompts.
  pose (Inv := fun (n : nat) (s : list string * list (nat * nat)) (w' : World GS) =>
                 w' = w /\ s = ([], [])).
  match goal with
  | |- context [for_ ?xs ?body ?s ?w0] =>
      destruct (for__enumerate_rule Inv body (zip queries contexts) s w0)
        as (s' & w' & Hfor & (-> & ->)); [done | | done]
  end.
  intros i [query docs] s w1 Hi (-> & ->).
  apply lookup_zip_with_Some in Hi as (? & ? & [= <- <-] & Hq & Hc).
  match goal with
  | |- context [for_ ?xs ?body ?s ?w0] =>
      destruct (for__enumerate_rule Inv body docs s w0)
        as (s' & w' & Hfor & (-> & ->)); [done | | by eexists _, _]
  end.
  intros j doc s w1 Hj (-> & ->).
  assert (PyStr.strip doc = ""%string) as Hs.
  { apply strip_blank. apply (Hblank i j). by rewrite (entry_lookup _ _ _ _ Hc). }
  rewrite Hs. simpl. by eexists _, _.
Qed.

Lemma title_collect_prompts_all_blank {GS} (sent_tokenize : string -> result (list string))
      (self : LLMRewriterWithTitle.t)
      (contexts : list (list string)) (queries : list string) (w : World GS) :
  (forall q d doc, entry contexts q d = Some doc -> PyStr.is_blank doc = true) ->
  LLMRewriterWithTitle.collect_prompts sent_tokenize self contexts queries w
  = (Returned ([], [], []), w).
Proof.
  intros Hblank. unfold LLMRewriterWithTitle.collect_prompts.
  pose (Inv := fun (n : nat) (s : list string * list (nat * nat) * list string)
                   (w' : World GS) =>
                 w' = w /\ s = ([], [], [])).
  match goal with
  | |- context [for_ ?xs ?body ?s ?w0] =>
      destruct (for__enumerate_rule Inv body (zip queries contexts) s w0)
        as (s' & w' & Hfor & (-> & ->)); [done | | done]
  end.
  intros i [query docs] s w1 Hi (-> & ->).
  apply lookup_zip_with_Some in Hi as (? & ? & [= <- <-] & Hq & Hc).
  match goal with
  | |- context [for_ ?xs ?body ?s ?w0] =>
      destruct (for__enumerate_rule Inv body docs s w0)
        as (s' & w' & Hfor & (-> & ->)); [done | | by eexists _, _]
  end.
  intros j doc s w1 Hj (-> & ->).
  assert (PyStr.strip doc = ""%string) as Hs.
  { apply strip_blank. apply (Hblank i j). by rewrite (entry_lookup _ _ _ _ Hc). }
  rewrite Hs. simpl. by eexists _, _.
Qed.

Lemma filled_blank_rows (contexts out : list (list string)) :
  same_shape out contexts ->
  (forall q d current,
      entry (map (fun docs : list string => replicate (length docs) ""%string) contexts) q d
      = Some current ->
      entry out q d = if String.eqb current "" then entry contexts q d else Some current) ->
  out = contexts.
Proof.
  intros Hs Hent. apply rows_eq; [done |]. intros q d.
  destruct (entry contexts q d) as [doc |] eqn:Hc.
  - rewrite (Hent q d ""%string); [done |]. apply blank_rows_entry. rewrite Hc. by eexists.
  - destruct (entry out q d) eqn:Ho; [| done].
    assert (is_Some (entry contexts q d)) as [? ?]; [| congruence].
    apply (same_shape_entry out contexts); [done | by eexists].
Qed.

(** X14: when every document is blank (or there is none), with
    [process_separately=True] and in the variant with titles,
    [_process] returns the contexts as they are, calls neither
    [generate] nor [format], and leaves the generator as it was:
    whatever the generator and the template, for every batch size but
    zero. *)
Theorem X14_nothing_to_rewrite {GS}
        (generate : Generator.t GS -> list string -> result (list string) * Generator.t GS)
        (sent_tokenize : string -> result (list string))
        (self : LLMRewriter.t) (self_title : LLMRewriterWithTitle.t)
        (contexts : list (list string)) (queries : list string) (w : World GS) :
  (forall q d doc, entry contexts q d = Some doc -> PyStr.is_blank doc = true) ->
  LLMRewriter.process_separately self = true ->
  LLMRewriter.batch_size self <> 0 ->
  LLMRewriterWithTitle.batch_size self_title <> 0 ->
  LLMRewriter._process generate self contexts queries w = (Returned (contexts, []), w)
  /\ LLMRewriterWithTitle._process generate sent_tokenize self_title contexts queries w
     = (Returned (contexts, []), w).
Proof.
  intros Hblank Hsep HB HBt. split.
  - unfold LLMRewriter._process.
    unfold bind at 1. unfold get_max_new_tokens.
    unfold bind at 1. unfold set_max_new_tokens.
    set (w0 := with_max_new_tokens (LLMRewriter.max_new_tokens self) w).
    unfold bind at 1. rewrite Hsep.
    unfold bind at 1. rewrite (collect_prompts_all_blank self contexts queries w0 Hblank).
    unfold bind at 1. rewrite generate_in_batches_nil by done.
    unfold bind at 1. unfold LLMRewriter.reconstruct, Py.enumerate. cbn [length seq zip_with for_].
    unfold ret at 1.
    destruct (fill_in_spec contexts _ w0 (blank_rows_shape contexts)) as (out & Hfill & Hs & Hent).
    rewrite Hfill.
    rewrite (filled_blank_rows contexts out Hs Hent).
    unfold bind, ret, set_max_new_tokens. f_equal. apply restore_max_new_tokens.
  - unfold LLMRewriterWithTitle._process.
    unfold bind at 1. unfold get_max_new_tokens.
    unfold bind at 1. unfold set_max_new_tokens.
    set (w0 := with_max_new_tokens (LLMRewriterWithTitle.max_new_tokens self_title) w).
    unfold bind at 1.
    rewrite (title_collect_prompts_all_blank sent_tokenize self_title contexts queries w0 Hblank).
    unfold bind at 1. rewrite generate_in_batches_nil by done.
    unfold bind at 1. unfold LLMRewriterWithTitle.reconstruct, Py.enumerate.
    cbn [length seq zip_with for_]. unfold ret at 1.
    destruct (title_fill_in_spec contexts _ w0 (blank_rows_shape contexts))
      as (out & Hfill & Hs & Hent).
    unfold bind at 1. rewrite Hfill.
    rewrite (filled_blank_rows contexts out Hs Hent).
    unfold bind, ret, set_max_new_tokens. f_equal. apply restore_max_new_tokens.
Qed.

Lemma X14_nothing_to_rewrite_witness :
  let contexts := [[""; "  "]; []; [" "]]%string in
  let queries := ["Q1"; "Q2"]%string in
  LLMRewriter._process Examples.interrupted_generate Examples.rewriter_with_unknown_slot
                       contexts queries Examples.mock_world
  = (Returned (contexts, []), Examples.mock_world)
  /\ LLMRewriterWithTitle._process Examples.interrupted_generate Examples.unavailable
                                   (Examples.title_rewriter (-3) true)
                                   contexts queries Examples.mock_world
     = (Returned (contexts, []), Examples.mock_world).
Proof.
  apply (X14_nothing_to_rewrite Examples.interrupted_generate Examples.unavailable
           Examples.rewriter_with_unknown_slot (Examples.title_rewriter (-3) true)
           [[""; "  "]; []; [" "]]%string ["Q1"; "Q2"]%string Examples.mock_world).
  - intros q d doc.
    destruct q as [| [| [| q]]]; destruct d as [| [| d]]; vm_compute; intros [= <-];
      reflexivity.
  - reflexivity.
  - simpl. lia.
  - simpl. lia.
Defined.

(** ** From the constructor to the result *)

(** X15: a rewriter built by [__init__] with a generator and without a
    template has the default template, which [format] accepts for every
    query and document (braces in them are not read again); so, for a
    batch size of at least one and a generator that keeps to its
    contract, [_process] on that rewriter returns for every input, and
    restores [max_new_tokens].  Both classes, both modes. *)
Theorem X15_default_template_never_fails {GS}
        (generate : Generator.t GS -> list string -> result (list string) * Generator.t GS)
        (sent_tokenize : string -> result (list string))
        (g : Generator.t GS) (batch_size max_new_tokens : Z)
        (process_separately concatenate_original : bool)
        (contexts : list (list string)) (queries : list string) (w : World GS) :
  respects_contract generate ->
  1 <= batch_size ->
  (exists self out w',
      LLMRewriter.__init__ (Some g) batch_size max_new_tokens None
                           process_separately concatenate_original
      = Returned self
      /\ LLMRewriter._process generate self contexts queries w = (Returned (out, []), w')
      /\ Generator.max_new_tokens (generator w') = Generator.max_new_tokens (generator w))
  /\ (exists self out w',
        LLMRewriterWithTitle.__init__ (Some g) batch_size max_new_tokens None
                                      concatenate_original
        = Returned self
        /\ LLMRewriterWithTitle._process generate sent_tokenize self contexts queries w
           = (Returned (out, []), w')
        /\ Generator.max_new_tokens (generator w') = Generator.max_new_tokens (generator w)).
Proof.
  intros Hcontract HB. split.
  - assert (exists self,
              LLMRewriter.__init__ (Some g) batch_size max_new_tokens None
                                   process_separately concatenate_original
              = Returned self
              /\ LLMRewriter.process_separately self = process_separately
              /\ LLMRewriter.rewrite_prompt_template self
                 = LLMRewriter.default_rewrite_prompt_template
              /\ LLMRewriter.batch_size self = batch_size)
      as (self & Hinit & Hps & Htm & Hbs) by (eexists; repeat split; reflexivity).
    assert (LLMRewriter.accepts_slots (LLMRewriter.rewrite_prompt_template self)) as Htmpl.
    { rewrite Htm. apply default_template_accepts_slots. }
    destruct process_separately.
    + destruct (process_separately_spec generate self contexts queries w Hps Htmpl ltac:(lia)
                  Hcontract)
        as (ps & ms & rw & w1 & out & _ & _ & _ & _ & Hp & _).
      by eexists self, out, _.
    + destruct (process_combined_spec generate self contexts queries w Hps Htmpl ltac:(lia)
                  Hcontract)
        as (ps & rw & w1 & out & _ & _ & _ & _ & _ & Hp & _).
      by eexists self, out, _.
  - assert (exists self,
              LLMRewriterWithTitle.__init__ (Some g) batch_size max_new_tokens None
                                            concatenate_original
              = Returned self
              /\ LLMRewriterWithTitle.rewrite_prompt_template self
                 = LLMRewriterWithTitle.default_rewrite_prompt_template
              /\ LLMRewriterWithTitle.batch_size self = batch_size)
      as (self & Hinit & Htm & Hbs) by (eexists; repeat split; reflexivity).
    assert (LLMRewriterWithTitle.accepts_slots (LLMRewriterWithTitle.rewrite_prompt_template self))
      as Htmpl.
    { rewrite Htm. apply default_title_template_accepts_slots. }
    destruct (title_process_spec generate sent_tokenize self contexts queries w Htmpl
                ltac:(lia) Hcontract)
      as (ps & ms & ts & rw & w1 & out & _ & _ & _ & _ & _ & Hp & _).
    by eexists self, out, _.
Qed.

Lemma X15_default_template_never_fails_witness :
  let contexts := [["Use {braces} and } freely"; "{"]]%string in
  let queries := ["What is {query}?"%string] in
  (exists self out w',
      LLMRewriter.__init__ (Some Examples.mock_generator) 4 256 None true true
      = Returned self
      /\ LLMRewriter._process Examples.mock_generate self contexts queries Examples.mock_world
         = (Returned (out, []), w')
      /\ Generator.max_new_tokens (generator w')
         = Generator.max_new_tokens (generator Examples.mock_world))
  /\ (exists self out w',
        LLMRewriterWithTitle.__init__ (Some Examples.mock_generator) 4 256 None true
        = Returned self
        /\ LLMRewriterWithTitle._process Examples.mock_generate Examples.cut_at_full_stop
                                         self contexts queries Examples.mock_world
           = (Returned (out, []), w')
        /\ Generator.max_new_tokens (generator w')
           = Generator.max_new_tokens (generator Examples.mock_world)).
Proof.
  apply (X15_default_template_never_fails Examples.mock_generate Examples.cut_at_full_stop
           Examples.mock_generator 4 256 true true
           [["Use {braces} and } freely"; "{"]]%string ["What is {query}?"%string]
           Examples.mock_world).
  - intros g prompts. simpl. apply length_map.
  - lia.
Defined.

(** ** Generators that answer every prompt on its own *)

Lemma answers_each_prompt_contract {GS}
      (generate : Generator.t GS -> list string -> result (list string) * Generator.t GS)
      (f : string -> string) :
  answers_each_prompt generate f -> respects_contract generate.
Proof. intros Hf g prompts. rewrite Hf. apply length_map. Qed.

Lemma concat_replies (f : string -> string) (new : list Call) :
  Forall (fun c => replies c = f <$> call_prompts c) new ->
  concat (replies <$> new) = f <$> concat (call_prompts <$> new).
Proof.
  induction 1 as [| c new Hc _ IH]; [done |].
  change (replies c ++ concat (replies <$> new)
          = f <$> (call_prompts c ++ concat (call_prompts <$> new))).
  by rewrite fmap_app, Hc, IH.
Qed.

(** The batches do not show in the texts: they are the answers to the
    prompts, one by one. *)
Lemma batches_of_answers {GS}
      (generate : Generator.t GS -> list string -> result (list string) * Generator.t GS)
      (f : string -> string) (B : nat) (prompts : list string) (w w' : World GS)
      (rewritten : list string) :
  answers_each_prompt generate f ->
  batches_done generate B prompts w w' rewritten ->
  rewritten = f <$> prompts.
Proof.
  intros Hf (new & _ & _ & Hchunks & Hcover & Hcat & _).
  rewrite Hcat, <- Hcover. apply concat_replies.
  apply Forall_lookup. intros b c Hb.
  destruct (Hchunks b c Hb) as (_ & _ & g & Hg).
  unfold replies. rewrite Hg, Hf. done.
Qed.

(** X16: for a generator that answers every prompt on its own, the
    batch size does not show in the result: [LLMRewriter._process]
    returns the same contexts for any two batch sizes of at least one,
    in both modes. *)
Theorem X16_batch_size_does_not_change_result {GS}
        (generate : Generator.t GS -> list string -> result (list string) * Generator.t GS)
        (f : string -> string) (self : LLMRewriter.t) (batch_size1 batch_size2 : Z)
        (contexts : list (list string)) (queries : list string) (w : World GS) :
  answers_each_prompt generate f ->
  LLMRewriter.accepts_slots (LLMRewriter.rewrite_prompt_template self) ->
  1 <= batch_size1 ->
  1 <= batch_size2 ->
  exists out w1 w2,
    LLMRewriter._process generate (with_batch_size batch_size1 self) contexts queries w
    = (Returned (out, []), w1)
    /\ LLMRewriter._process generate (with_batch_size batch_size2 self) contexts queries w
       = (Returned (out, []), w2).
Proof.
  intros Hf Htmpl HB1 HB2.
  pose proof (answers_each_prompt_contract generate f Hf) as Hcontract.
  destruct (LLMRewriter.process_separately self) eqn:Hsep.
  - destruct (process_separately_spec generate (with_batch_size batch_size1 self)
                contexts queries w Hsep Htmpl ltac:(simpl; lia) Hcontract)
      as (ps1 & ms1 & rw1 & wa & out1 & Hcol1 & Hall1 & _ & Hdone1 & Hp1 & Hs1 & Hin1 & Hout1).
    destruct (process_separately_spec generate (with_batch_size batch_size2 self)
                contexts queries w Hsep Htmpl ltac:(simpl; lia) Hcontract)
      as (ps2 & ms2 & rw2 & wb & out2 & Hcol2 & Hall2 & _ & Hdone2 & Hp2 & Hs2 & Hin2 & Hout2).
    change (LLMRewriter.collect_prompts (with_batch_size batch_size2 self))
      with (LLMRewriter.collect_prompts (GS:=GS) (with_batch_size batch_size1 self)) in Hcol2.
    simpl in Hcol1, Hcol2. rewrite Hcol1 in Hcol2. injection Hcol2 as <- <-.
    rewrite (batches_of_answers generate f _ ps1 _ _ rw1 Hf Hdone1) in Hin1.
    rewrite (batches_of_answers generate f _ ps1 _ _ rw2 Hf Hdone2) in Hin2.
    assert (out2 = out1) as ->.
    { apply rows_eq; [by apply (same_shape_trans _ contexts), same_shape_sym |].
      intros q d. destruct (decide ((q, d) ∈ ms1)) as [Hel | Hno].
      - apply list_elem_of_lookup in Hel as [k Hk].
        destruct (Hin1 k q d Hk) as (o1 & p1 & Ho1 & Hrw1 & He1).
        destruct (Hin2 k q d Hk) as (o2 & p2 & Ho2 & Hrw2 & He2).
        rewrite He1, He2. assert (o2 = o1) as -> by congruence.
        assert (p2 = p1) as -> by congruence. done.
      - by rewrite Hout1, Hout2. }
    by eexists out1, _, _.
  - destruct (process_combined_spec generate (with_batch_size batch_size1 self)
                contexts queries w Hsep Htmpl ltac:(simpl; lia) Hcontract)
      as (ps1 & rw1 & wa & out1 & Hcol1 & _ & _ & _ & Hdone1 & Hp1 & Hlo1 & Hent1).
    destruct (process_combined_spec generate (with_batch_size batch_size2 self)
                contexts queries w Hsep Htmpl ltac:(simpl; lia) Hcontract)
      as (ps2 & rw2 & wb & out2 & Hcol2 & _ & _ & _ & Hdone2 & Hp2 & Hlo2 & Hent2).
    change (LLMRewriter.combined_prompts (with_batch_size batch_size2 self))
      with (LLMRewriter.combined_prompts (GS:=GS) (with_batch_size batch_size1 self)) in Hcol2.
    simpl in Hcol1, Hcol2. rewrite Hcol1 in Hcol2. injection Hcol2 as <-.
    rewrite (batches_of_answers generate f _ ps1 _ _ rw1 Hf Hdone1) in Hlo1, Hent1.
    rewrite (batches_of_answers generate f _ ps1 _ _ rw2 Hf Hdone2) in Hlo2, Hent2.
    assert (out2 = out1) as ->.
    { apply list_eq. intros q.
      destruct ((f <$> ps1) !! q) as [r |] eqn:Hr.
      - destruct (Hent1 q r Hr) as (docs1 & Hd1 & Ho1).
        destruct (Hent2 q r Hr) as (docs2 & Hd2 & Ho2).
        rewrite Ho1, Ho2. assert (docs2 = docs1) as -> by congruence. done.
      - apply lookup_ge_None in Hr.
        rewrite (proj2 (lookup_ge_None out1 q)) by lia.
        apply lookup_ge_None. lia. }
    by eexists out1, _, _.
Qed.

Lemma X16_batch_size_does_not_change_result_witness :
  exists out w1 w2,
    LLMRewriter._process Examples.mock_generate
                         (with_batch_size 1 (Examples.rewriter 4 true true))
                         Examples.contexts1 Examples.queries1 Examples.mock_world
    = (Returned (out, []), w1)
    /\ LLMRewriter._process Examples.mock_generate
                            (with_batch_size 3 (Examples.rewriter 4 true true))
                            Examples.contexts1 Examples.queries1 Examples.mock_world
       = (Returned (out, []), w2).
Proof.
  apply (X16_batch_size_does_not_change_result Examples.mock_generate
           (fun _ => "Rewritten text"%string) (Examples.rewriter 4 true true) 1 3
           Examples.contexts1 Examples.queries1 Examples.mock_world).
  - intros g prompts. reflexivity.
  - intros query passage. eexists. vm_compute. reflexivity.
  - lia.
  - lia.
Defined.

(** ** The run of test_rewriter_simple *)

Lemma append_not_empty (s t : string) : t <> ""%string -> s +:+ t <> ""%string.
Proof. intros Ht. by destruct s. Qed.

Lemma rstrip_append (s t : string) :
  t <> ""%string -> PyStr.rstrip t = t -> PyStr.rstrip (s +:+ t) = s +:+ t.
Proof.
  intros Hne Ht. induction s as [| c s IH]; [done |].
  change (PyStr.rstrip (String c (s +:+ t)) = String c (s +:+ t)).
  simpl. rewrite IH. pose proof (append_not_empty s t Hne) as Hst.
  by destruct (s +:+ t).
Qed.

Lemma strip_marked (s : string) :
  PyStr.strip ("[REWRITTEN] " +:+ s +:+ "...") = "[REWRITTEN] " +:+ s +:+ "...".
Proof.
  unfold PyStr.strip.
  change (PyStr.lstrip ("[REWRITTEN] " +:+ s +:+ "...")) with ("[REWRITTEN] " +:+ s +:+ "...").
  apply rstrip_append.
  - by apply append_not_empty.
  - by apply rstrip_append.
Qed.

(** X17: the run of [test_rewriter_simple], for any contexts and
    queries: with its [MockGenerator] and its rewriter (batches of two,
    default template, concatenation), [_process] returns contexts of
    the same shape, and every document that is not blank and has a
    query is followed by [Refined version: ] and the answer of the
    mock, the mark, the first hundred characters of the prompt and
    three full stops; the generator has its 100 new tokens back. *)
Theorem X17_test_rewriter_simple
        (contexts : list (list string)) (queries : list string) :
  let w := {| generator := TestLLMRewriter.generator; calls := [] |} in
  exists self out w',
    LLMRewriter.__init__ (Some TestLLMRewriter.generator) 2 50 None true true = Returned self
    /\ LLMRewriter._process TestLLMRewriter.generate self contexts queries w
       = (Returned (out, []), w')
    /\ Generator.max_new_tokens (generator w') = 100
    /\ length <$> out = length <$> contexts
    /\ forall q d query doc,
         queries !! q = Some query -> entry contexts q d = Some doc ->
         PyStr.is_blank doc = false ->
         exists prompt,
           PyStr.format LLMRewriter.default_rewrite_prompt_template
                        [("query", query); ("passage", doc)]%string
           = Returned prompt
           /\ entry out q d
              = Some (doc +:+ PyStr.nl +:+ PyStr.nl +:+ "Refined version: "
                        +:+ "[REWRITTEN] " +:+ String.substring 0 100 prompt +:+ "...").
Proof.
  intros w.
  set (f := fun prompt => ("[REWRITTEN] " +:+ String.substring 0 100 prompt +:+ "...")%string).
  assert (answers_each_prompt TestLLMRewriter.generate f) as Hf by (intros g ps; reflexivity).
  pose proof (answers_each_prompt_contract _ f Hf) as Hcontract.
  assert (exists self,
            LLMRewriter.__init__ (Some TestLLMRewriter.generator) 2 50 None true true
            = Returned self
            /\ LLMRewriter.process_separately self = true
            /\ LLMRewriter.concatenate_original self = true
            /\ LLMRewriter.rewrite_prompt_template self
               = LLMRewriter.default_rewrite_prompt_template
            /\ LLMRewriter.batch_size self = 2)
    as (self & Hinit & Hsep & Hcat & Htm & Hbs) by (eexists; repeat split; reflexivity).
  assert (LLMRewriter.accepts_slots (LLMRewriter.rewrite_prompt_template self)) as Htmpl.
  { rewrite Htm. apply default_template_accepts_slots. }
  destruct (process_separately_spec TestLLMRewriter.generate self contexts queries w Hsep Htmpl
              ltac:(lia) Hcontract)
    as (ps & ms & rw & w1 & out & Hcol & Hall & Hgen & Hdone & Hp & Hs & Hin & Hout).
  rewrite (batches_of_answers _ f _ ps _ _ rw Hf Hdone) in Hin.
  eexists self, out, _. split; [done |]. split; [done |]. split; [done |]. split; [done |].
  intros q d query doc Hq He Hnb.
  destruct (nonblank_collected _ queries contexts ps ms Hall q d query doc Hq He Hnb) as [k Hk].
  destruct (Hin k q d Hk) as (o & p & Ho & Hrw & Hent).
  assert (o = doc) as -> by congruence.
  destruct Hall as (_ & _ & Hitems & _).
  destruct (Hitems k q d Hk) as (query' & docs & doc' & prompt & Hq' & Hc & Hd & _ & HR & Hprompt).
  assert (query' = query) as -> by congruence.
  assert (doc' = doc) as -> by (rewrite (entry_lookup _ _ _ _ Hc), Hd in He; congruence).
  unfold LLMRewriter.prompt_for in HR. rewrite Htm in HR.
  exists prompt. split; [done |].
  rewrite list_lookup_fmap, Hprompt in Hrw. injection Hrw as <-.
  rewrite Hent. f_equal. rewrite rewritten_entry_success.
  - unfold f. by rewrite Hcat, strip_marked.
  - unfold f. rewrite strip_marked. by apply append_not_empty, append_not_empty.
Qed.

(** The contexts and queries of the test. *)
Example test_rewriter_simple_run :
  exists self out w',
    LLMRewriter.__init__ (Some TestLLMRewriter.generator) 2 50 None true true = Returned self
    /\ LLMRewriter._process TestLLMRewriter.generate self
         [["Paris is the capital and most populous city of France. It has an area of 105 square kilometres.";
           "France is a country in Western Europe. Paris has been a major settlement for more than two millennia."];
          ["Alexander Graham Bell was a Scottish-born inventor, scientist and engineer.";
           "The telephone was invented in the 1870s. Bell is credited with inventing the telephone."]]%string
         ["What is the capital of France?"; "Who invented the telephone?"]%string
         {| generator := TestLLMRewriter.generator; calls := [] |}
       = (Returned (out, []), w')
    /\ length <$> out = [2; 2]%nat
    /\ length <$> (call_prompts <$> calls w') = [2; 2]%nat.
Proof. eexists _, _, _. split; [reflexivity |]. vm_compute. done. Qed.

(** ** The prompts of the default templates *)

Lemma string_append_assoc (a b c : string) : (a +:+ b) +:+ c = a +:+ (b +:+ c).
Proof.
  induction a as [| x a IH]; [done |].
  change (String x ((a +:+ b) +:+ c) = String x (a +:+ b +:+ c)). by rewrite IH.
Qed.

Lemma string_append_nil_r (a : string) : a +:+ "" = a.
Proof.
  induction a as [| x a IH]; [done |].
  change (String x (a +:+ "") = String x a). by rewrite IH.
Qed.

(** A character that is no brace is copied to the output. *)
Lemma format_from_char (c : ascii) (rest out : string) (kwargs : list (string * string)) :
  Ascii.eqb c "{" = false -> Ascii.eqb c "}" = false ->
  PyStr.format_from (String c rest) None out kwargs
  = PyStr.format_from rest None (out +:+ String c "") kwargs.
Proof.
  intros H1 H2.
  destruct c as [[] [] [] [] [] [] [] []]; try discriminate H1; try discriminate H2;
    reflexivity.
Qed.

(** Text without braces is copied to the output. *)
Lemma format_from_text (lit rest out : string) (kwargs : list (string * string)) :
  without "{" lit = true -> without "}" lit = true ->
  PyStr.format_from (lit +:+ rest) None out kwargs
  = PyStr.format_from rest None (out +:+ lit) kwargs.
Proof.
  revert out. induction lit as [| c lit IH]; intros out H1 H2.
  - by rewrite string_append_nil_r.
  - simpl in H1, H2. apply andb_true_iff in H1 as [Hc1 H1]. apply andb_true_iff in H2 as [Hc2 H2].
    apply negb_true_iff in Hc1, Hc2.
    change (String c lit +:+ rest) with (String c (lit +:+ rest)).
    rewrite format_from_char by done. rewrite IH by done.
    by rewrite string_append_assoc.
Qed.

Lemma format_from_name_char (c : ascii) (rest name out : string)
      (kwargs : list (string * string)) :
  Ascii.eqb c "{" = false -> Ascii.eqb c "}" = false ->
  PyStr.format_from (String c rest) (Some name) out kwargs
  = PyStr.format_from rest (Some (name +:+ String c "")) out kwargs.
Proof.
  intros H1 H2.
  destruct c as [[] [] [] [] [] [] [] []]; try discriminate H1; try discriminate H2;
    reflexivity.
Qed.

Lemma format_from_name (name rest acc out : string) (kwargs : list (string * string)) :
  without "{" name = true -> without "}" name = true ->
  PyStr.format_from (name +:+ "}" +:+ rest) (Some acc) out kwargs
  = rbind (PyStr.field_value (acc +:+ name) kwargs)
          (fun v => PyStr.format_from rest None (out +:+ v) kwargs).
Proof.
  revert acc. induction name as [| c name IH]; intros acc H1 H2.
  - by rewrite string_append_nil_r.
  - simpl in H1, H2. apply andb_true_iff in H1 as [Hc1 H1]. apply andb_true_iff in H2 as [Hc2 H2].
    apply negb_true_iff in Hc1, Hc2.
    change (String c name +:+ "}" +:+ rest) with (String c (name +:+ "}" +:+ rest)).
    rewrite format_from_name_char by done. rewrite IH by done.
    by rewrite string_append_assoc.
Qed.

(** A replacement field whose name is a keyword is replaced by the
    value of the keyword, which is not read again. *)
Lemma format_from_field (c : ascii) (name rest out v : string)
      (kwargs : list (string * string)) :
  Ascii.eqb c "{" = false -> Ascii.eqb c "}" = false ->
  without "{" name = true -> without "}" name = true ->
  PyStr.field_value (String c name) kwargs = Returned v ->
  PyStr.format_from ("{" +:+ String c name +:+ "}" +:+ rest) None out kwargs
  = PyStr.format_from rest None (out +:+ v) kwargs.
Proof.
  intros Hc1 Hc2 H1 H2 Hv.
  transitivity (PyStr.format_from (String c name +:+ "}" +:+ rest) (Some ""%string) out kwargs).
  - change (String c name +:+ "}" +:+ rest) with (String c (name +:+ "}" +:+ rest)).
    change ("{" +:+ String c (name +:+ "}" +:+ rest))
      with (String "{" (String c (name +:+ "}" +:+ rest))).
    destruct c as [[] [] [] [] [] [] [] []]; try discriminate Hc1; try discriminate Hc2;
      reflexivity.
  - rewrite format_from_name.
    + change (("" +:+ String c name)%string) with (String c name). by rewrite Hv.
    + simpl. by rewrite Hc1.
    + simpl. by rewrite Hc2.
Qed.

(** X18: the prompt of the default template of [LLMRewriter] is its
    text with the query and the passage in place of the two slots,
    copied as they are (braces in a document are not read as slots),
    and it ends by [Rewritten Passage:]; the same for the default
    template of [LLMRewriterWithTitle] and its three slots. *)
Theorem X18_default_prompts (query passage title content : string) :
  PyStr.format LLMRewriter.default_rewrite_prompt_template
               [("query", query); ("passage", passage)]%string
  = Returned
      ("Given the following query and passage, rewrite the passage to:
1. Remove redundant information
2. Highlight information relevant to the query
3. Integrate any relevant knowledge to make it more coherent
4. Keep the passage concise and focused

Query: " +:+ query +:+ "

Original Passage: " +:+ passage +:+ "

Rewritten Passage:")
  /\ PyStr.format LLMRewriterWithTitle.default_rewrite_prompt_template
                  [("query", query); ("title", title); ("content", content)]%string
     = Returned
         ("Given the following query and passage with its title, rewrite ONLY the passage content to:
1. Remove redundant information
2. Highlight information relevant to the query
3. Integrate any relevant knowledge to make it more coherent
4. Keep the passage concise and focused

Do NOT include the title in your response, only output the rewritten content.

Query: " +:+ query +:+ "

Title: " +:+ title +:+ "

Original Content: " +:+ content +:+ "

Rewritten Content:").
Proof.
  split.
  - unfold PyStr.format.
    change LLMRewriter.default_rewrite_prompt_template
      with ("Given the following query and passage, rewrite the passage to:
1. Remove redundant information
2. Highlight information relevant to the query
3. Integrate any relevant knowledge to make it more coherent
4. Keep the passage concise and focused

Query: " +:+ "{" +:+ "query" +:+ "}" +:+ "

Original Passage: " +:+ "{" +:+ "passage" +:+ "}" +:+ "

Rewritten Passage:" +:+ "").
    rewrite format_from_text by reflexivity.
    rewrite (format_from_field "q" "uery" _ _ query) by reflexivity.
    rewrite format_from_text by reflexivity.
    rewrite (format_from_field "p" "assage" _ _ passage) by reflexivity.
    rewrite format_from_text by reflexivity.
    cbn [PyStr.format_from]. f_equal.
    rewrite !string_append_assoc. done.
  - unfold PyStr.format.
    change LLMRewriterWithTitle.default_rewrite_prompt_template
      with ("Given the following query and passage with its title, rewrite ONLY the passage content to:
1. Remove redundant information
2. Highlight information relevant to the query
3. Integrate any relevant knowledge to make it more coherent
4. Keep the passage concise and focused

Do NOT include the title in your response, only output the rewritten content.

Query: " +:+ "{" +:+ "query" +:+ "}" +:+ "

Title: " +:+ "{" +:+ "title" +:+ "}" +:+ "

Original Content: " +:+ "{" +:+ "content" +:+ "}" +:+ "

Rewritten Content:" +:+ "").
    rewrite format_from_text by reflexivity.
    rewrite (format_from_field "q" "uery" _ _ query) by reflexivity.
    rewrite format_from_text by reflexivity.
    rewrite (format_from_field "t" "itle" _ _ title) by reflexivity.
    rewrite format_from_text by reflexivity.
    rewrite (format_from_field "c" "ontent" _ _ content) by reflexivity.
    rewrite format_from_text by reflexivity.
    cbn [PyStr.format_from]. f_equal.
    rewrite !string_append_assoc. done.
Qed.
